(** * Quiz application backend: ledger, tournament life cycle, quiz rate limiter

    A shallow embedding of
      - the user schema, second half of [src/models/Tournament.js]
        (balance buckets: [addBalance], [deductBalance]),
      - the tournament schema, first half of [src/models/Tournament.js]
        (roster, ranking, prizes, state machine),
      - [src/services/quizSecurityService.js] ([canTakeQuiz]),
      - the tournament handlers of [src/routes/telegram.js]
        (join / leave / start / complete), with the validators of the
        transaction schema of [src/models/Transaction.js] that decide
        whether their [transaction.save()] returns,
    together with the properties the specification states about them.

    JavaScript numbers are modelled as [Z] (amounts, scores, millisecond
    timestamps), Mongo object ids and string enums as [string], mongoose
    documents as records, collections and the service's [Map]/[Set] as
    [gmap]/[gset].  A method that mutates [this] is a function returning the
    new document; a method that may throw returns the document together
    with an [outcome]. *)

From Stdlib Require Import ZArith List Lia Permutation.
From stdpp Require Import base option list sorting gmap strings pretty.

Local Open Scope Z_scope.

(** ** Exceptions *)

(** What a call produced: a returned value or a thrown [Error(msg)]. *)
Inductive outcome (A : Type) : Type :=
| Returned (a : A)
| Thrown (msg : string).
Arguments Returned {A} a.
Arguments Thrown {A} msg.

(** * User model: the two balance buckets *)

Module User.

Record User := mkUser {
  playableBalance : Z;
  bonusBalance : Z;
  balance : Z;
  totalEarned : Z
}.

(** [userSchema.methods.addBalance = function(amount, type = 'playable')] *)
Definition addBalance (amount : Z) (type : string) (u : User) : User :=
  let playable' :=
    if String.eqb type "playable" then playableBalance u + amount
    else playableBalance u in
  let bonus' :=
    if String.eqb type "playable" then bonusBalance u
    else if String.eqb type "bonus" then bonusBalance u + amount
    else bonusBalance u in
  {| playableBalance := playable';
     bonusBalance := bonus';
     balance := playable' + bonus';
     totalEarned := totalEarned u + amount |}.

(** [userSchema.methods.deductBalance = function(amount, type = 'playable')];
    the pair is the user after the call and the returned boolean. *)
Definition deductBalance (amount : Z) (type : string) (u : User) : User * bool :=
  if String.eqb type "playable" && (playableBalance u >=? amount) then
    let playable' := playableBalance u - amount in
    ({| playableBalance := playable';
        bonusBalance := bonusBalance u;
        balance := playable' + bonusBalance u;
        totalEarned := totalEarned u |}, true)
  else if String.eqb type "bonus" && (bonusBalance u >=? amount) then
    let bonus' := bonusBalance u - amount in
    ({| playableBalance := playableBalance u;
        bonusBalance := bonus';
        balance := playableBalance u + bonus';
        totalEarned := totalEarned u |}, true)
  else (u, false).

(** The bucket a [type] argument selects, when it selects one. *)
Definition bucket (type : string) (u : User) : option Z :=
  if String.eqb type "playable" then Some (playableBalance u)
  else if String.eqb type "bonus" then Some (bonusBalance u)
  else None.

(** The data-model invariant of the spec: the aggregate is the sum of the
    buckets and nothing is negative. *)
Definition valid (u : User) : Prop :=
  balance u = playableBalance u + bonusBalance u /\
  0 <= playableBalance u /\ 0 <= bonusBalance u /\ 0 <= balance u.

(** A ledger operation and a run of operations. *)
Inductive LedgerOp :=
| Credit (amount : Z) (type : string)
| Debit (amount : Z) (type : string).

Definition applyOp (op : LedgerOp) (u : User) : User :=
  match op with
  | Credit amount type => addBalance amount type u
  | Debit amount type => fst (deductBalance amount type u)
  end.

(** The states observed after each operation of [ops], in order. *)
Fixpoint trace (ops : list LedgerOp) (u : User) : list User :=
  match ops with
  | [] => []
  | op :: ops' => let u' := applyOp op u in u' :: trace ops' u'
  end.

Definition creditNonNegative (op : LedgerOp) : Prop :=
  match op with
  | Credit amount _ => 0 <= amount
  | Debit _ _ => True
  end.

Definition newUser : User :=
  {| playableBalance := 0; bonusBalance := 0; balance := 0; totalEarned := 0 |}.

End User.

(** * Tournament model *)

Module Tournament.

Inductive Status := upcoming | active | completed | cancelled.
Inductive Phase := registration | quiz | results.

Global Instance Status_eq_dec : EqDecision Status.
Proof. solve_decision. Defined.
Global Instance Phase_eq_dec : EqDecision Phase.
Proof. solve_decision. Defined.

Record Answer := mkAnswer {
  questionId : string;
  selectedAnswer : Z;
  isCorrect : bool;
  answerTimeSpent : Z
}.

(** An element of [participants]. *)
Record Participant := mkParticipant {
  user : string;
  joinedAt : Z;
  score : Z;
  timeSpent : Z;
  answers : list Answer;
  rank : Z;
  prize : Z
}.

(** An element of [prizeDistribution]. *)
Record PrizeInfo := mkPrizeInfo {
  pd_rank : Z;
  pd_prize : Z;
  pd_percentage : Z
}.

(** An element of [topParticipants]. *)
Record TopParticipant := mkTop {
  top_user : string;
  top_rank : Z;
  top_score : Z;
  top_prize : Z
}.

Record Tournament := mkTournament {
  _id : string;
  title : string;
  entryFee : Z;
  prizePool : Z;
  maxParticipants : Z;
  minParticipants : Z;
  participants : list Participant;
  status : Status;
  phase : Phase;
  registrationStart : Z;
  registrationEnd : Z;
  startTime : Z;
  endTime : Z;
  actualStartTime : option Z;
  actualEndTime : option Z;
  winner : option string;
  topParticipants : list TopParticipant;
  prizeDistribution : list PrizeInfo;
  totalPrizes : Z;          (* stats.totalPrizes *)
  isPrivate : bool
}.

(** Field assignments on [this]. *)
Definition set_participants (ps : list Participant) (t : Tournament) : Tournament :=
  mkTournament (_id t) (title t) (entryFee t) (prizePool t) (maxParticipants t)
    (minParticipants t) ps (status t) (phase t) (registrationStart t)
    (registrationEnd t) (startTime t) (endTime t) (actualStartTime t)
    (actualEndTime t) (winner t) (topParticipants t) (prizeDistribution t)
    (totalPrizes t) (isPrivate t).

Definition set_status (s : Status) (t : Tournament) : Tournament :=
  mkTournament (_id t) (title t) (entryFee t) (prizePool t) (maxParticipants t)
    (minParticipants t) (participants t) s (phase t) (registrationStart t)
    (registrationEnd t) (startTime t) (endTime t) (actualStartTime t)
    (actualEndTime t) (winner t) (topParticipants t) (prizeDistribution t)
    (totalPrizes t) (isPrivate t).

Definition set_phase (p : Phase) (t : Tournament) : Tournament :=
  mkTournament (_id t) (title t) (entryFee t) (prizePool t) (maxParticipants t)
    (minParticipants t) (participants t) (status t) p (registrationStart t)
    (registrationEnd t) (startTime t) (endTime t) (actualStartTime t)
    (actualEndTime t) (winner t) (topParticipants t) (prizeDistribution t)
    (totalPrizes t) (isPrivate t).

Definition set_actualStartTime (d : Z) (t : Tournament) : Tournament :=
  mkTournament (_id t) (title t) (entryFee t) (prizePool t) (maxParticipants t)
    (minParticipants t) (participants t) (status t) (phase t) (registrationStart t)
    (registrationEnd t) (startTime t) (endTime t) (Some d)
    (actualEndTime t) (winner t) (topParticipants t) (prizeDistribution t)
    (totalPrizes t) (isPrivate t).

Definition set_actualEndTime (d : Z) (t : Tournament) : Tournament :=
  mkTournament (_id t) (title t) (entryFee t) (prizePool t) (maxParticipants t)
    (minParticipants t) (participants t) (status t) (phase t) (registrationStart t)
    (registrationEnd t) (startTime t) (endTime t) (actualStartTime t)
    (Some d) (winner t) (topParticipants t) (prizeDistribution t)
    (totalPrizes t) (isPrivate t).

Definition set_winner (w : option string) (t : Tournament) : Tournament :=
  mkTournament (_id t) (title t) (entryFee t) (prizePool t) (maxParticipants t)
    (minParticipants t) (participants t) (status t) (phase t) (registrationStart t)
    (registrationEnd t) (startTime t) (endTime t) (actualStartTime t)
    (actualEndTime t) w (topParticipants t) (prizeDistribution t)
    (totalPrizes t) (isPrivate t).

Definition set_topParticipants (tp : list TopParticipant) (t : Tournament) : Tournament :=
  mkTournament (_id t) (title t) (entryFee t) (prizePool t) (maxParticipants t)
    (minParticipants t) (participants t) (status t) (phase t) (registrationStart t)
    (registrationEnd t) (startTime t) (endTime t) (actualStartTime t)
    (actualEndTime t) (winner t) tp (prizeDistribution t)
    (totalPrizes t) (isPrivate t).

Definition set_totalPrizes (n : Z) (t : Tournament) : Tournament :=
  mkTournament (_id t) (title t) (entryFee t) (prizePool t) (maxParticipants t)
    (minParticipants t) (participants t) (status t) (phase t) (registrationStart t)
    (registrationEnd t) (startTime t) (endTime t) (actualStartTime t)
    (actualEndTime t) (winner t) (topParticipants t) (prizeDistribution t)
    n (isPrivate t).

(** Field assignments on a participant sub-document. *)
Definition set_rank (r : Z) (p : Participant) : Participant :=
  mkParticipant (user p) (joinedAt p) (score p) (timeSpent p) (answers p) r (prize p).

Definition set_prize (z : Z) (p : Participant) : Participant :=
  mkParticipant (user p) (joinedAt p) (score p) (timeSpent p) (answers p) (rank p) z.

(** [participants.length] as a JavaScript number. *)
Definition count {A} (l : list A) : Z := Z.of_nat (length l).

(** Virtual [isRegistrationOpen]; [now] is the value of [new Date()]. *)
Definition isRegistrationOpen (now : Z) (t : Tournament) : bool :=
  bool_decide (status t = upcoming) &&
  (now >=? registrationStart t) &&
  (now <=? registrationEnd t) &&
  (count (participants t) <? maxParticipants t).

(** [this.participants.find(p => p.user.toString() === userId.toString())] *)
Definition findParticipant (userId : string) (ps : list Participant) : option Participant :=
  List.find (fun p => String.eqb (user p) userId) ps.

(** [findIndex] with the same predicate; [None] stands for [-1]. *)
Fixpoint findParticipantIndex (userId : string) (ps : list Participant) : option nat :=
  match ps with
  | [] => None
  | p :: ps' =>
      if String.eqb (user p) userId then Some O
      else option_map S (findParticipantIndex userId ps')
  end.

(** The sub-document [push] creates: schema defaults but [user], [joinedAt]. *)
Definition newParticipant (userId : string) (now : Z) : Participant :=
  mkParticipant userId now 0 0 [] 0 0.

Definition addParticipant (userId : string) (now : Z) (t : Tournament)
  : Tournament * outcome unit :=
  match findParticipant userId (participants t) with
  | Some _ => (t, Thrown "User is already a participant")
  | None =>
      if count (participants t) >=? maxParticipants t then
        (t, Thrown "Tournament is full")
      else if negb (isRegistrationOpen now t) then
        (t, Thrown "Registration is closed")
      else
        (set_participants (participants t ++ [newParticipant userId now]) t,
         Returned ())
  end.

Definition removeParticipant (userId : string) (t : Tournament)
  : Tournament * outcome unit :=
  match findParticipantIndex userId (participants t) with
  | None => (t, Thrown "User is not a participant")
  | Some i =>
      if bool_decide (status t = active) || bool_decide (status t = completed) then
        (t, Thrown "Cannot remove participants after tournament starts")
      else
        (set_participants (take i (participants t) ++ drop (S i) (participants t)) t,
         Returned ())
  end.

Definition startTournament (now : Z) (t : Tournament) : Tournament * outcome unit :=
  if negb (bool_decide (status t = upcoming)) then
    (t, Thrown "Tournament cannot be started")
  else if count (participants t) <? minParticipants t then
    (t, Thrown "Not enough participants to start tournament")
  else
    (set_actualStartTime now (set_phase quiz (set_status active t)), Returned ()).

(** [Array.prototype.sort(compareFn)]: the engine's sort is stable, and
    [compareFn a b <= 0] keeps [a] in front of [b].  For a consistent
    comparator every stable sort returns the same array; it is computed
    here by stable insertion from the right. *)
Fixpoint sort_insert {A} (compareFn : A -> A -> Z) (x : A) (l : list A) : list A :=
  match l with
  | [] => [x]
  | y :: l' =>
      if compareFn x y <=? 0 then x :: l
      else y :: sort_insert compareFn x l'
  end.

Fixpoint js_sort {A} (compareFn : A -> A -> Z) (l : list A) : list A :=
  match l with
  | [] => []
  | x :: l' => sort_insert compareFn x (js_sort compareFn l')
  end.

(** [a] may stand in front of [b] in an array sorted with [compareFn]. *)
Definition before {A} (compareFn : A -> A -> Z) (a b : A) : Prop := compareFn a b <= 0.

(** The comparator of [calculateRankings]: score descending, then time
    ascending. *)
Definition compareParticipants (a b : Participant) : Z :=
  if negb (score b =? score a) then score b - score a
  else timeSpent a - timeSpent b.

(** [forEach((participant, index) => participant.rank = index + 1)],
    starting at index [i]. *)
Fixpoint assignRanks (i : nat) (ps : list Participant) : list Participant :=
  match ps with
  | [] => []
  | p :: ps' => set_rank (Z.of_nat i + 1) p :: assignRanks (S i) ps'
  end.

Definition toTop (p : Participant) : TopParticipant :=
  mkTop (user p) (rank p) (score p) (prize p).

Definition calculateRankings (t : Tournament) : Tournament :=
  let ranked := assignRanks 0 (js_sort compareParticipants (participants t)) in
  let t1 := set_participants ranked t in
  let t2 := match ranked with
            | [] => t1
            | first :: _ => set_winner (Some (user first)) t1
            end in
  set_topParticipants (map toTop (take 10 ranked)) t2.

(** [this.prizeDistribution.find(p => p.rank === participant.rank)] *)
Definition findPrize (r : Z) (pd : list PrizeInfo) : option PrizeInfo :=
  List.find (fun e => pd_rank e =? r) pd.

Definition awardPrize (pd : list PrizeInfo) (p : Participant) : Participant :=
  match findPrize (rank p) pd with
  | Some prizeInfo => set_prize (pd_prize prizeInfo) p
  | None => p
  end.

(** [list.reduce((sum, x) => sum + g(x), 0)] *)
Definition sumBy {A} (g : A -> Z) (l : list A) : Z :=
  fold_left (fun sum x => sum + g x) l 0.

(** [reduce((sum, p) => sum + p.prize, 0)] *)
Definition sumPrizes (ps : list Participant) : Z := sumBy prize ps.

Definition distributePrizes (t : Tournament) : Tournament :=
  match prizeDistribution t with
  | [] => t
  | _ :: _ =>
      let ps := map (awardPrize (prizeDistribution t)) (participants t) in
      set_totalPrizes (sumPrizes ps) (set_participants ps t)
  end.

Definition completeTournament (now : Z) (t : Tournament) : Tournament * outcome unit :=
  if negb (bool_decide (status t = active)) then
    (t, Thrown "Tournament is not active")
  else
    let t1 := set_actualEndTime now (set_phase results (set_status completed t)) in
    (distributePrizes (calculateRankings t1), Returned ()).

(** Assign [score], [timeSpent], [answers] on the first participant whose
    [user] is [userId] (the one [find] returns). *)
Fixpoint updateFirst (userId : string) (score' timeSpent' : Z) (answers' : list Answer)
    (ps : list Participant) : list Participant :=
  match ps with
  | [] => []
  | p :: ps' =>
      if String.eqb (user p) userId then
        mkParticipant (user p) (joinedAt p) score' timeSpent' answers' (rank p) (prize p)
        :: ps'
      else p :: updateFirst userId score' timeSpent' answers' ps'
  end.

Definition updateParticipantScore (userId : string) (score' timeSpent' : Z)
    (answers' : list Answer) (t : Tournament) : Tournament * outcome Participant :=
  match findParticipant userId (participants t) with
  | None => (t, Thrown "User is not a participant")
  | Some p =>
      (set_participants (updateFirst userId score' timeSpent' answers' (participants t)) t,
       Returned (mkParticipant (user p) (joinedAt p) score' timeSpent' answers'
                   (rank p) (prize p)))
  end.

(** The object [canJoin] returns; [reason] is absent when [canJoin] is true. *)
Record JoinCheck := mkJoinCheck {
  canJoin_ok : bool;           (* the [canJoin] property *)
  reason : option string
}.

Definition canJoin (userId : string) (now : Z) (t : Tournament) : JoinCheck :=
  match findParticipant userId (participants t) with
  | Some _ => mkJoinCheck false (Some "Already a participant")
  | None =>
      if count (participants t) >=? maxParticipants t then
        mkJoinCheck false (Some "Tournament is full")
      else if negb (isRegistrationOpen now t) then
        mkJoinCheck false (Some "Registration is closed")
      else if isPrivate t then
        mkJoinCheck false (Some "Private tournament")
      else mkJoinCheck true None
  end.

(** The fields of a participant that ranking and prize distribution leave
    alone. *)
Definition entry (p : Participant) : string * Z * Z := (user p, score p, timeSpent p).

(** The sum of the [prizeDistribution] entries whose rank is the rank of
    some participant. *)
Definition rankOccupied (ps : list Participant) (r : Z) : bool :=
  existsb (fun p => rank p =? r) ps.

Definition matchedPrizeSum (pd : list PrizeInfo) (ps : list Participant) : Z :=
  sumBy pd_prize (filter (fun e => rankOccupied ps (pd_rank e) = true) pd).

(** What [pd] pays for rank [r]: the prize of its first entry of that rank,
    nothing when it has none. *)
Definition prizeFor (pd : list PrizeInfo) (r : Z) : Z :=
  match findPrize r pd with
  | Some prizeInfo => pd_prize prizeInfo
  | None => 0
  end.

End Tournament.

(** * Tournament request handlers *)

Module Routes.

(** A [Transaction] document.  [tx_transactionId] and [tx_netAmount] are
    [None] when the constructor call does not pass them. *)
Record Transaction := mkTransaction {
  tx_transactionId : option string;
  tx_userId : string;
  tx_type : string;
  tx_category : string;
  tx_amount : Z;
  tx_balanceBefore : Z;
  tx_balanceAfter : Z;
  tx_netAmount : option Z;
  tx_paymentMethod : string;
  tx_description : string;
  tx_tournamentId : string;
  tx_status : string
}.

(** [new Transaction({userId, type, category, amount, balanceBefore,
    balanceAfter, paymentMethod, description, tournamentId, status})], the
    call the three handlers make: neither [transactionId] nor [netAmount]
    is passed. *)
Definition newTransaction (userId type category : string) (amount balanceBefore balanceAfter : Z)
    (paymentMethod description tournamentId status : string) : Transaction :=
  mkTransaction None userId type category amount balanceBefore balanceAfter None
    paymentMethod description tournamentId status.

(** The three collections the handlers read and write. *)
Record DB := mkDB {
  tournaments : gmap string Tournament.Tournament;
  users : gmap string User.User;
  transactions : list Transaction
}.

(** The JSON answer, without its [data] payload. *)
Record Response := mkResponse {
  httpStatus : Z;
  success : bool;
  errorCode : option string;
  message : string
}.

(** [tournament.save()] for the document [findById(id)] returned: it is
    written back under the id it was found at. *)
Definition saveTournament (id : string) (t : Tournament.Tournament) (db : DB) : DB :=
  mkDB (<[id := t]> (tournaments db)) (users db) (transactions db).

Definition saveUser (userId : string) (u : User.User) (db : DB) : DB :=
  mkDB (tournaments db) (<[userId := u]> (users db)) (transactions db).

Definition oneOf (values : list string) (s : string) : bool :=
  existsb (String.eqb s) values.

(** The validation [save()] runs on a transaction before any [pre('save')]
    hook: the [required], [enum], [min] and [maxlength] validators of the
    transaction schema on the fields above, in schema order ([network],
    required for the payment method 'crypto', is never passed). *)
Definition validTransaction (tx : Transaction) : bool :=
  bool_decide (is_Some (tx_transactionId tx)) &&
  oneOf ["deposit"; "withdrawal"; "quiz"; "tournament"; "referral"; "bonus";
         "daily_bonus"; "task"; "refund"] (tx_type tx) &&
  oneOf ["income"; "expense"; "transfer"] (tx_category tx) &&
  (0 <=? tx_amount tx) &&
  oneOf ["pending"; "processing"; "completed"; "failed"; "cancelled"; "refunded"]
        (tx_status tx) &&
  (String.length (tx_description tx) <=? 500)%nat &&
  (0 <=? tx_balanceBefore tx) && (0 <=? tx_balanceAfter tx) &&
  bool_decide (is_Some (tx_netAmount tx)) &&
  oneOf ["bank_transfer"; "card"; "internal"; "referral"; "bonus"] (tx_paymentMethod tx).

(** [transaction.save()]: validation first; the [pre('save')] hook, which
    would generate a missing [transactionId] and sets
    [netAmount = amount - fee] (fee 0 by default), runs only on a document
    that passed it. *)
Definition saveTransaction (tx : Transaction) (db : DB) : DB * outcome unit :=
  if validTransaction tx then
    (mkDB (tournaments db) (users db)
       (transactions db ++
        [mkTransaction (tx_transactionId tx) (tx_userId tx) (tx_type tx) (tx_category tx)
           (tx_amount tx) (tx_balanceBefore tx) (tx_balanceAfter tx)
           (Some (tx_amount tx - 0)) (tx_paymentMethod tx) (tx_description tx)
           (tx_tournamentId tx) (tx_status tx)]),
     Returned ())
  else (db, Thrown "Transaction validation failed").

(** [POST /api/tournaments/:id/join].  [now] is the clock read inside
    [canJoin], [now'] the later one read inside [addParticipant]. *)
Definition joinRoute (id userId : string) (now now' : Z) (db : DB) : DB * Response :=
  match tournaments db !! id with
  | None => (db, mkResponse 404 false (Some "TOURNAMENT_NOT_FOUND") "Tournament not found")
  | Some tournament =>
      let canJoin := Tournament.canJoin userId now tournament in
      if negb (Tournament.canJoin_ok canJoin) then
        (db, mkResponse 400 false (Some "CANNOT_JOIN")
               (default "undefined" (Tournament.reason canJoin)))
      else
        match users db !! userId with
        | None =>   (* [user.playableBalance] on null throws; caught below *)
            (db, mkResponse 500 false (Some "INTERNAL_ERROR") "Failed to join tournament")
        | Some user =>
            if User.playableBalance user <? Tournament.entryFee tournament then
              (db, mkResponse 400 false (Some "INSUFFICIENT_BALANCE")
                     "Insufficient balance to join tournament")
            else
              match Tournament.addParticipant userId now' tournament with
              | (_, Thrown _) =>
                  (db, mkResponse 500 false (Some "INTERNAL_ERROR") "Failed to join tournament")
              | (tournament', Returned _) =>
                  let db1 := saveTournament id tournament' db in
                  let user' := fst (User.deductBalance (Tournament.entryFee tournament)
                                      "playable" user) in
                  let db2 := saveUser userId user' db1 in
                  let transaction :=
                    newTransaction userId "tournament" "expense"
                      (Tournament.entryFee tournament)
                      (User.playableBalance user' + Tournament.entryFee tournament)
                      (User.playableBalance user')
                      "internal"
                      ("Tournament entry fee: " +:+ Tournament.title tournament)
                      (Tournament._id tournament) "completed" in
                  match saveTransaction transaction db2 with
                  | (db3, Returned _) =>
                      (db3, mkResponse 200 true None "Successfully joined tournament")
                  | (db3, Thrown _) =>   (* after both saves; caught below *)
                      (db3, mkResponse 500 false (Some "INTERNAL_ERROR")
                              "Failed to join tournament")
                  end
              end
        end
  end.

(** [POST /api/tournaments/:id/leave] *)
Definition leaveRoute (id userId : string) (db : DB) : DB * Response :=
  match tournaments db !! id with
  | None => (db, mkResponse 404 false (Some "TOURNAMENT_NOT_FOUND") "Tournament not found")
  | Some tournament =>
      match Tournament.findParticipant userId (Tournament.participants tournament) with
      | None =>
          (db, mkResponse 400 false (Some "NOT_PARTICIPANT")
                 "You are not a participant in this tournament")
      | Some _ =>
          if bool_decide (Tournament.status tournament = Tournament.active)
             || bool_decide (Tournament.status tournament = Tournament.completed) then
            (db, mkResponse 400 false (Some "TOURNAMENT_STARTED")
                   "Cannot leave tournament after it has started")
          else
            match Tournament.removeParticipant userId tournament with
            | (_, Thrown _) =>
                (db, mkResponse 500 false (Some "INTERNAL_ERROR") "Failed to leave tournament")
            | (tournament', Returned _) =>
                let db1 := saveTournament id tournament' db in
                match users db1 !! userId with
                | None =>   (* [user.addBalance] on null throws after the save *)
                    (db1, mkResponse 500 false (Some "INTERNAL_ERROR")
                            "Failed to leave tournament")
                | Some user =>
                    let user' := User.addBalance (Tournament.entryFee tournament)
                                   "playable" user in
                    let db2 := saveUser userId user' db1 in
                    let transaction :=
                      newTransaction userId "refund" "income"
                        (Tournament.entryFee tournament)
                        (User.playableBalance user' - Tournament.entryFee tournament)
                        (User.playableBalance user')
                        "internal"
                        ("Tournament refund: " +:+ Tournament.title tournament)
                        (Tournament._id tournament) "completed" in
                    match saveTransaction transaction db2 with
                    | (db3, Returned _) =>
                        (db3, mkResponse 200 true None "Successfully left tournament")
                    | (db3, Thrown _) =>   (* after both saves; caught below *)
                        (db3, mkResponse 500 false (Some "INTERNAL_ERROR")
                                "Failed to leave tournament")
                    end
                end
            end
      end
  end.

(** One turn of the payout loop of the completion handler; a thrown
    outcome leaves the loop. *)
Definition payPrize (tournament : Tournament.Tournament) (db : DB)
    (participant : Tournament.Participant) : DB * outcome unit :=
  if Tournament.prize participant >? 0 then
    match users db !! Tournament.user participant with
    | None => (db, Returned ())
    | Some user =>
        let user' := User.addBalance (Tournament.prize participant) "playable" user in
        let db1 := saveUser (Tournament.user participant) user' db in
        let transaction :=
          newTransaction (Tournament.user participant) "tournament" "income"
            (Tournament.prize participant)
            (User.playableBalance user' - Tournament.prize participant)
            (User.playableBalance user')
            "internal"
            ("Tournament prize: " +:+ Tournament.title tournament +:+ " (Rank "
               +:+ pretty (Tournament.rank participant) +:+ ")")
            (Tournament._id tournament) "completed" in
        saveTransaction transaction db1
    end
  else (db, Returned ()).

(** [for (const participant of tournament.participants) { ... }] *)
Fixpoint payPrizes (tournament : Tournament.Tournament)
    (participants : list Tournament.Participant) (db : DB) : DB * outcome unit :=
  match participants with
  | [] => (db, Returned ())
  | participant :: rest =>
      match payPrize tournament db participant with
      | (db', Returned _) => payPrizes tournament rest db'
      | (db', Thrown msg) => (db', Thrown msg)
      end
  end.

(** [POST /api/tournaments/:id/complete] *)
Definition completeRoute (id : string) (now : Z) (db : DB) : DB * Response :=
  match tournaments db !! id with
  | None => (db, mkResponse 404 false (Some "TOURNAMENT_NOT_FOUND") "Tournament not found")
  | Some tournament =>
      match Tournament.completeTournament now tournament with
      | (_, Thrown _) =>
          (db, mkResponse 500 false (Some "INTERNAL_ERROR") "Failed to complete tournament")
      | (tournament', Returned _) =>
          let db1 := saveTournament id tournament' db in
          match payPrizes tournament' (Tournament.participants tournament') db1 with
          | (db2, Returned _) =>
              (db2, mkResponse 200 true None "Tournament completed successfully")
          | (db2, Thrown _) =>
              (db2, mkResponse 500 false (Some "INTERNAL_ERROR")
                      "Failed to complete tournament")
          end
      end
  end.

End Routes.

(** * Quiz security service *)

Module QuizSecurity.

Record SecurityRules := mkRules {
  maxDailyQuizzes : Z;
  maxHourlyQuizzes : Z;
  minTimeBetweenQuizzes : Z;
  suspiciousScoreThreshold : Z;
  maxConsecutiveHighScores : Z;
  timePerQuestionMin : Z;
  timePerQuestionMax : Z;
  enableFraudDetection : bool;
  enableRateLimiting : bool
}.

(** The rules the constructor installs. *)
Definition defaultRules : SecurityRules :=
  mkRules 10 3 30000 95 5 5000 300000 true true.

(** A value of the [userAttempts] map. *)
Record UserData := mkUserData {
  daily : list Z;
  hourly : list Z;
  lastAttempt : Z;
  consecutiveHighScores : Z
}.

Definition emptyUserData : UserData := mkUserData [] [] 0 0.

Record Service := mkService {
  securityRules : SecurityRules;
  userAttempts : gmap string UserData;
  suspiciousUsers : gset string
}.

(** The object [canTakeQuiz] resolves to; [None] is [null]. *)
Record Eligibility := mkEligibility {
  allowed : bool;
  reason : option string;
  message : string;
  resetTime : option Z
}.

(** [`${userId}_${difficulty}`] *)
Definition userKey (userId difficulty : string) : string :=
  userId +:+ "_" +:+ difficulty.

(** [list.filter(time => time >= start)] *)
Definition since (start : Z) (times : list Z) : list Z :=
  List.filter (fun time => time >=? start) times.

Definition len (times : list Z) : Z := Z.of_nat (length times).

(** [Math.ceil(ms / 1000)] *)
Definition ceilSeconds (ms : Z) : Z := - ((- ms) / 1000).

(** [canTakeQuiz(userId, difficulty)].  [now] is [Date.now()] and
    [todayStart] is [new Date().setHours(0, 0, 0, 0)], local midnight of
    the current day. *)
Definition canTakeQuiz (userId difficulty : string) (now todayStart : Z) (svc : Service)
  : Service * Eligibility :=
  let key := userKey userId difficulty in
  let svc1 :=
    match userAttempts svc !! key with
    | Some _ => svc
    | None => mkService (securityRules svc) (<[key := emptyUserData]> (userAttempts svc))
                        (suspiciousUsers svc)
    end in
  let userData := default emptyUserData (userAttempts svc1 !! key) in
  let rules := securityRules svc1 in
  let todayAttempts := since todayStart (daily userData) in
  if len todayAttempts >=? maxDailyQuizzes rules then
    (svc1, mkEligibility false (Some "DAILY_LIMIT_EXCEEDED")
             ("You can only take " +:+ pretty (maxDailyQuizzes rules) +:+ " quizzes per day")
             (Some (todayStart + 24 * 60 * 60 * 1000)))
  else
    let hourStart := now - 60 * 60 * 1000 in
    let hourAttempts := since hourStart (hourly userData) in
    if len hourAttempts >=? maxHourlyQuizzes rules then
      (svc1, mkEligibility false (Some "HOURLY_LIMIT_EXCEEDED")
               ("You can only take " +:+ pretty (maxHourlyQuizzes rules) +:+ " quizzes per hour")
               (Some (hourStart + 60 * 60 * 1000)))
    else if negb (lastAttempt userData =? 0)
            && (now - lastAttempt userData <? minTimeBetweenQuizzes rules) then
      let remainingTime := minTimeBetweenQuizzes rules - (now - lastAttempt userData) in
      (svc1, mkEligibility false (Some "COOLDOWN_ACTIVE")
               ("Please wait " +:+ pretty (ceilSeconds remainingTime)
                  +:+ " seconds before taking another quiz")
               (Some (now + remainingTime)))
    else if bool_decide (userId ∈ suspiciousUsers svc1) then
      (svc1, mkEligibility false (Some "SUSPICIOUS_ACTIVITY")
               "Your account is under review for suspicious activity" None)
    else
      (svc1, mkEligibility true None "Quiz allowed" None).

(** The record of [userId] for [difficulty] that the checks read. *)
Definition attemptsOf (userId difficulty : string) (svc : Service) : UserData :=
  default emptyUserData (userAttempts svc !! userKey userId difficulty).

(** The three rate checks of [canTakeQuiz], as conditions on the record. *)
Definition dailyBlocked (rules : SecurityRules) (todayStart : Z) (d : UserData) : bool :=
  len (since todayStart (daily d)) >=? maxDailyQuizzes rules.

Definition hourlyBlocked (rules : SecurityRules) (now : Z) (d : UserData) : bool :=
  len (since (now - 60 * 60 * 1000) (hourly d)) >=? maxHourlyQuizzes rules.

Definition cooldownBlocked (rules : SecurityRules) (now : Z) (d : UserData) : bool :=
  negb (lastAttempt d =? 0) && (now - lastAttempt d <? minTimeBetweenQuizzes rules).

End QuizSecurity.

(** * Sample data *)

(** A tournament open for registration with one participant, and a store
    holding it together with that participant's account. *)
Definition sampleTournament : Tournament.Tournament :=
  Tournament.mkTournament "t1" "Friday quiz" 20 100 10 2
    [Tournament.newParticipant "u1" 1000]
    Tournament.upcoming Tournament.registration
    1000 2000 3000 4000 None None None []
    [Tournament.mkPrizeInfo 1 50 50; Tournament.mkPrizeInfo 2 30 30;
     Tournament.mkPrizeInfo 3 20 20]
    0 false.

(** The completion scenario of the specification: scores 90, 90, 70 with
    times 20, 15, 30 and the default 50/30/20 split of a pool of 100. *)
Definition scenarioTournament : Tournament.Tournament :=
  Tournament.mkTournament "t2" "Payout" 20 100 10 2
    [Tournament.mkParticipant "a" 1000 90 20 [] 0 0;
     Tournament.mkParticipant "b" 1001 90 15 [] 0 0;
     Tournament.mkParticipant "c" 1002 70 30 [] 0 0]
    Tournament.active Tournament.quiz
    1000 2000 3000 4000 (Some 3000) None None []
    [Tournament.mkPrizeInfo 1 50 50; Tournament.mkPrizeInfo 2 30 30;
     Tournament.mkPrizeInfo 3 20 20]
    0 false.

Definition scenarioDB : Routes.DB :=
  Routes.mkDB {[ "t2" := scenarioTournament ]}
              {[ "a" := User.mkUser 0 0 0 0; "b" := User.mkUser 0 0 0 0;
                 "c" := User.mkUser 0 0 0 0 ]} [].

(** An active tournament whose [prizeDistribution] lists rank 1 twice. *)
Definition duplicateRankTournament : Tournament.Tournament :=
  Tournament.mkTournament "t3" "Duel" 20 100 10 2
    [Tournament.mkParticipant "a" 1000 80 20 [] 0 0;
     Tournament.mkParticipant "b" 1001 60 15 [] 0 0]
    Tournament.active Tournament.quiz
    1000 2000 3000 4000 (Some 3000) None None []
    [Tournament.mkPrizeInfo 1 60 60; Tournament.mkPrizeInfo 1 40 40]
    0 false.

(** A private tournament, open for registration, whose roster is full. *)
Definition fullPrivateTournament : Tournament.Tournament :=
  Tournament.mkTournament "t4" "Invitational" 20 100 2 2
    [Tournament.newParticipant "u1" 1000; Tournament.newParticipant "u3" 1100]
    Tournament.upcoming Tournament.registration
    1000 2000 3000 4000 None None None []
    [Tournament.mkPrizeInfo 1 50 50; Tournament.mkPrizeInfo 2 30 30;
     Tournament.mkPrizeInfo 3 20 20]
    0 true.

(** The same tournament with room for eight more. *)
Definition openPrivateTournament : Tournament.Tournament :=
  Tournament.mkTournament "t5" "Invitational" 20 100 10 2
    [Tournament.newParticipant "u1" 1000; Tournament.newParticipant "u3" 1100]
    Tournament.upcoming Tournament.registration
    1000 2000 3000 4000 None None None []
    [Tournament.mkPrizeInfo 1 50 50; Tournament.mkPrizeInfo 2 30 30;
     Tournament.mkPrizeInfo 3 20 20]
    0 true.

(** A clock reading: 2024-01-01T12:00:00Z in milliseconds, with the start of
    that day. *)
Definition noon : Z := 1704110400000.
Definition midnight : Z := 1704067200000.

(** A service with the default rules and one record for user "u1" at
    difficulty "easy". *)
Definition serviceWith (d : QuizSecurity.UserData) : QuizSecurity.Service :=
  QuizSecurity.mkService QuizSecurity.defaultRules
    {[ QuizSecurity.userKey "u1" "easy" := d ]} ∅.

(** Ten attempts today, the last one two hours ago. *)
Definition tenToday : QuizSecurity.UserData :=
  QuizSecurity.mkUserData
    (map (fun k => midnight + 1000 * k) [1; 2; 3; 4; 5; 6; 7; 8; 9; 10])
    [] (noon - 7200000) 0.

(** Nine attempts today, the last one two hours ago. *)
Definition nineToday : QuizSecurity.UserData :=
  QuizSecurity.mkUserData
    (map (fun k => midnight + 1000 * k) [1; 2; 3; 4; 5; 6; 7; 8; 9])
    [] (noon - 7200000) 0.

(** One attempt, [gap] milliseconds before noon. *)
Definition oneAttempt (gap : Z) : QuizSecurity.UserData :=
  QuizSecurity.mkUserData [noon - gap] [noon - gap] (noon - gap) 0.

(** Three attempts ten minutes before noon. *)
Definition threeThisHour : QuizSecurity.UserData :=
  QuizSecurity.mkUserData
    [noon - 600000; noon - 600000; noon - 600000]
    [noon - 600000; noon - 600000; noon - 600000] (noon - 600000) 0.

(** Three attempts within the last hour, the last one 29 seconds before
    noon. *)
Definition threeRecent : QuizSecurity.UserData :=
  QuizSecurity.mkUserData
    [noon - 600000; noon - 300000; noon - 29000]
    [noon - 600000; noon - 300000; noon - 29000] (noon - 29000) 0.

Definition sampleDB : Routes.DB :=
  Routes.mkDB {[ "t1" := sampleTournament ]}
              {[ "u1" := User.mkUser 80 0 80 0 ]} [].

(** * Properties of the ledger primitives *)

(** * Sequences of model calls *)

Module Lifecycle.

(** A call of one of the mutating methods of the tournament schema. *)
Inductive Call :=
| AddParticipant (userId : string) (now : Z)
| RemoveParticipant (userId : string)
| StartTournament (now : Z)
| CompleteTournament (now : Z)
| UpdateParticipantScore (userId : string) (score timeSpent : Z)
    (answers : list Tournament.Answer).

(** The document after the call, whether it returned or threw. *)
Definition call (c : Call) (t : Tournament.Tournament) : Tournament.Tournament :=
  match c with
  | AddParticipant userId now => fst (Tournament.addParticipant userId now t)
  | RemoveParticipant userId => fst (Tournament.removeParticipant userId t)
  | StartTournament now => fst (Tournament.startTournament now t)
  | CompleteTournament now => fst (Tournament.completeTournament now t)
  | UpdateParticipantScore userId score timeSpent answers =>
      fst (Tournament.updateParticipantScore userId score timeSpent answers t)
  end.

Definition calls (cs : list Call) (t : Tournament.Tournament) : Tournament.Tournament :=
  fold_left (fun t c => call c t) cs t.

(** The users on the roster, in roster order. *)
Definition roster (t : Tournament.Tournament) : list string :=
  Tournament.user <$> Tournament.participants t.

(** Position of a status on the path upcoming, active, completed. *)
Definition stage (s : Tournament.Status) : Z :=
  match s with
  | Tournament.upcoming => 0
  | Tournament.active => 1
  | Tournament.completed => 2
  | Tournament.cancelled => 3
  end.

End Lifecycle.

(** * Start handler *)

Module AdminRoutes.

(** [POST /api/tournaments/:id/start] *)
Definition startRoute (id : string) (now : Z) (db : Routes.DB) : Routes.DB * Routes.Response :=
  match Routes.tournaments db !! id with
  | None => (db, Routes.mkResponse 404 false (Some "TOURNAMENT_NOT_FOUND")
                   "Tournament not found")
  | Some tournament =>
      match Tournament.startTournament now tournament with
      | (_, Thrown _) =>
          (db, Routes.mkResponse 500 false (Some "INTERNAL_ERROR")
                 "Failed to start tournament")
      | (tournament', Returned _) =>
          (Routes.saveTournament id tournament' db,
           Routes.mkResponse 200 true None "Tournament started successfully")
      end
  end.

End AdminRoutes.

(** * User model: experience and rank *)

Module Progression.

Inductive Rank := Bronze | Silver | Gold | Platinum | Diamond.

(** The progression fields of a user document. *)
Record Progress := mkProgress {
  level : Z;
  xp : Z;
  totalXP : Z;
  rank : Rank
}.

(** The schema defaults. *)
Definition newProgress : Progress := mkProgress 1 0 0 Bronze.

(** The rank [updateRank] assigns at a level. *)
Definition rankAt (level : Z) : Rank :=
  if level >=? 50 then Diamond
  else if level >=? 30 then Platinum
  else if level >=? 20 then Gold
  else if level >=? 10 then Silver
  else Bronze.

(** [userSchema.methods.updateRank] *)
Definition updateRank (u : Progress) : Progress :=
  mkProgress (level u) (xp u) (totalXP u) (rankAt (level u)).

(** [userSchema.methods.addXP]; the boolean tells whether a level up
    occurred. *)
Definition addXP (amount : Z) (u : Progress) : Progress * bool :=
  let u1 := mkProgress (level u) (xp u + amount) (totalXP u + amount) (rank u) in
  let xpNeededForNextLevel := level u1 * 100 in
  if xp u1 >=? xpNeededForNextLevel then
    (updateRank (mkProgress (level u1 + 1) (xp u1 - xpNeededForNextLevel)
                   (totalXP u1) (rank u1)), true)
  else (u1, false).

Definition addXPs (amounts : list Z) (u : Progress) : Progress :=
  fold_left (fun u amount => fst (addXP amount u)) amounts u.

(** Order of the ranks, Bronze lowest. *)
Definition rankIndex (r : Rank) : Z :=
  match r with
  | Bronze => 0 | Silver => 1 | Gold => 2 | Platinum => 3 | Diamond => 4
  end.

End Progression.

(** * Quiz security service: recording, statistics, maintenance *)

From Stdlib Require QArith.

Module SecurityOps.
Import QArith_base.
Local Open Scope Z_scope.

(** An element of the [answers] argument; [timeSpent] is
    [answer.timeSpent || 0]. *)
Record QuizAnswer := mkQuizAnswer {
  isCorrect : bool;
  timeSpent : Z
}.

(** [list.reduce((sum, x) => sum + x, 0)] on exact rationals. *)
Definition sumQ (l : list Q) : Q := fold_left Qplus l (inject_Z 0).

Definition Qlt_bool (a b : Q) : bool := negb (Qle_bool b a).

(** [calculateVariance(numbers)].  Divisions are exact: the rounding of
    IEEE doubles is not modelled. *)
Definition calculateVariance (numbers : list Z) : Q :=
  match numbers with
  | [] => inject_Z 0
  | _ :: _ =>
      let n := inject_Z (Z.of_nat (length numbers)) in
      let mean := Qdiv (sumQ (map inject_Z numbers)) n in
      let squaredDiffs :=
        map (fun num => Qmult (Qminus (inject_Z num) mean) (Qminus (inject_Z num) mean))
            numbers in
      Qdiv (sumQ squaredDiffs) n
  end.

(** [answers?.length || 1]; [None] is a missing [answers] argument. *)
Definition answerCount (answers : option (list QuizAnswer)) : Z :=
  match answers with
  | Some ((_ :: _) as l) => Z.of_nat (length l)
  | _ => 1
  end.

(** [timeSpent / (answers?.length || 1)] *)
Definition avgTimePerQuestion (timeSpent : Z) (answers : option (list QuizAnswer)) : Q :=
  Qdiv (inject_Z timeSpent) (inject_Z (answerCount answers)).

(** [(correctAnswers / answers.length) * 100] *)
Definition correctPercentage (l : list QuizAnswer) : Q :=
  Qmult (Qdiv (inject_Z (Z.of_nat (length (List.filter isCorrect l))))
              (inject_Z (Z.of_nat (length l))))
        (inject_Z 100).

(** The five checks of [detectSuspiciousActivity], one flag each. *)
Definition consecutiveAfter (rules : QuizSecurity.SecurityRules) (score : Z)
    (userData : QuizSecurity.UserData) : Z :=
  if score >=? QuizSecurity.suspiciousScoreThreshold rules
  then QuizSecurity.consecutiveHighScores userData + 1
  else 0.

Definition flagHighScores (rules : QuizSecurity.SecurityRules) (score : Z)
    (userData : QuizSecurity.UserData) : bool :=
  (score >=? QuizSecurity.suspiciousScoreThreshold rules) &&
  (consecutiveAfter rules score userData >=? QuizSecurity.maxConsecutiveHighScores rules).

Definition flagTooFast (rules : QuizSecurity.SecurityRules) (timeSpent : Z)
    (answers : option (list QuizAnswer)) : bool :=
  Qlt_bool (avgTimePerQuestion timeSpent answers)
           (inject_Z (QuizSecurity.timePerQuestionMin rules)).

Definition flagTooSlow (rules : QuizSecurity.SecurityRules) (timeSpent : Z)
    (answers : option (list QuizAnswer)) : bool :=
  Qlt_bool (inject_Z (QuizSecurity.timePerQuestionMax rules))
           (avgTimePerQuestion timeSpent answers).

Definition flagPerfectAndQuick (timeSpent : Z) (answers : option (list QuizAnswer)) : bool :=
  match answers with
  | Some ((_ :: _) as l) =>
      Qeq_bool (correctPercentage l) (inject_Z 100) &&
      Qlt_bool (avgTimePerQuestion timeSpent answers) (inject_Z 10000)
  | _ => false
  end.

Definition flagUniformTiming (answers : option (list QuizAnswer)) : bool :=
  match answers with
  | Some l =>
      (3 <? Z.of_nat (length l)) &&
      Qlt_bool (calculateVariance (map timeSpent l)) (inject_Z 1000)
  | None => false
  end.

Definition suspiciousFlags (rules : QuizSecurity.SecurityRules) (score timeSpent : Z)
    (answers : option (list QuizAnswer)) (userData : QuizSecurity.UserData) : Z :=
  Z.b2z (flagHighScores rules score userData) +
  Z.b2z (flagTooFast rules timeSpent answers) +
  Z.b2z (flagTooSlow rules timeSpent answers) +
  Z.b2z (flagPerfectAndQuick timeSpent answers) +
  Z.b2z (flagUniformTiming answers).

(** [detectSuspiciousActivity] on the record stored under the user's key,
    which [recordQuizAttempt], its caller, has created: the record with its
    counter updated, and the verdict. *)
Definition detectSuspiciousActivity (rules : QuizSecurity.SecurityRules)
    (score timeSpent : Z) (answers : option (list QuizAnswer))
    (userData : QuizSecurity.UserData) : QuizSecurity.UserData * bool :=
  (QuizSecurity.mkUserData (QuizSecurity.daily userData) (QuizSecurity.hourly userData)
     (QuizSecurity.lastAttempt userData) (consecutiveAfter rules score userData),
   suspiciousFlags rules score timeSpent answers userData >=? 2).

(** The object [recordQuizAttempt] resolves to. *)
Record RecordResult := mkRecordResult {
  recorded : bool;               (* [success] *)
  suspicious : bool;
  recordMessage : string
}.

(** [recordQuizAttempt(userId, difficulty, score, timeSpent, answers)];
    [now] is [Date.now()], [todayStart] local midnight of that day. *)
Definition recordQuizAttempt (userId difficulty : string) (score timeSpent : Z)
    (answers : option (list QuizAnswer)) (now todayStart : Z) (svc : QuizSecurity.Service)
  : QuizSecurity.Service * RecordResult :=
  let key := QuizSecurity.userKey userId difficulty in
  let userData := default QuizSecurity.emptyUserData (QuizSecurity.userAttempts svc !! key) in
  let hourStart := now - 60 * 60 * 1000 in
  let userData1 :=
    QuizSecurity.mkUserData
      (QuizSecurity.since todayStart (QuizSecurity.daily userData ++ [now]))
      (QuizSecurity.since hourStart (QuizSecurity.hourly userData ++ [now]))
      now
      (QuizSecurity.consecutiveHighScores userData) in
  let '(userData2, isSuspicious) :=
    detectSuspiciousActivity (QuizSecurity.securityRules svc) score timeSpent answers
      userData1 in
  (QuizSecurity.mkService (QuizSecurity.securityRules svc)
     (<[key := userData2]> (QuizSecurity.userAttempts svc))
     (if isSuspicious then {[userId]} ∪ QuizSecurity.suspiciousUsers svc
      else QuizSecurity.suspiciousUsers svc),
   mkRecordResult true isSuspicious
     (if isSuspicious then "Quiz flagged for review" else "Quiz attempt recorded")).

(** The object [getUserQuizStats] resolves to; the two [remaining] fields
    are absent when the user has no record. *)
Record QuizStats := mkQuizStats {
  dailyAttempts : Z;
  hourlyAttempts : Z;
  lastAttemptAt : option Z;
  highScoreRun : Z;              (* [consecutiveHighScores] *)
  isSuspicious : bool;
  remainingDaily : option Z;
  remainingHourly : option Z
}.

Definition getUserQuizStats (userId difficulty : string) (now todayStart : Z)
    (svc : QuizSecurity.Service) : QuizStats :=
  match QuizSecurity.userAttempts svc !! QuizSecurity.userKey userId difficulty with
  | None =>
      mkQuizStats 0 0 None 0 (bool_decide (userId ∈ QuizSecurity.suspiciousUsers svc))
        None None
  | Some userData =>
      let hourStart := now - 60 * 60 * 1000 in
      let today := QuizSecurity.len (QuizSecurity.since todayStart
                                       (QuizSecurity.daily userData)) in
      let hour := QuizSecurity.len (QuizSecurity.since hourStart
                                      (QuizSecurity.hourly userData)) in
      mkQuizStats today hour
        (if QuizSecurity.lastAttempt userData =? 0 then None
         else Some (QuizSecurity.lastAttempt userData))
        (QuizSecurity.consecutiveHighScores userData)
        (bool_decide (userId ∈ QuizSecurity.suspiciousUsers svc))
        (Some (Z.max 0 (QuizSecurity.maxDailyQuizzes (QuizSecurity.securityRules svc) - today)))
        (Some (Z.max 0 (QuizSecurity.maxHourlyQuizzes (QuizSecurity.securityRules svc) - hour)))
  end.

(** [clearSuspiciousFlag(userId)] *)
Definition clearSuspiciousFlag (userId : string) (svc : QuizSecurity.Service)
  : QuizSecurity.Service :=
  QuizSecurity.mkService (QuizSecurity.securityRules svc) (QuizSecurity.userAttempts svc)
    (QuizSecurity.suspiciousUsers svc ∖ {[userId]}).

(** [resetUserAttempts(userId, difficulty)] *)
Definition resetUserAttempts (userId difficulty : string) (svc : QuizSecurity.Service)
  : QuizSecurity.Service :=
  QuizSecurity.mkService (QuizSecurity.securityRules svc)
    (delete (QuizSecurity.userKey userId difficulty) (QuizSecurity.userAttempts svc))
    (QuizSecurity.suspiciousUsers svc).

(** One record under [cleanup]: windows cut at [weekAgo], the record dropped
    when both are empty. *)
Definition cleanupRecord (weekAgo : Z) (userData : QuizSecurity.UserData)
  : option QuizSecurity.UserData :=
  let daily' := QuizSecurity.since weekAgo (QuizSecurity.daily userData) in
  let hourly' := QuizSecurity.since weekAgo (QuizSecurity.hourly userData) in
  if (Nat.eqb (length daily') 0) && (Nat.eqb (length hourly') 0) then None
  else Some (QuizSecurity.mkUserData daily' hourly' (QuizSecurity.lastAttempt userData)
               (QuizSecurity.consecutiveHighScores userData)).

(** [cleanup()] *)
Definition cleanup (now : Z) (svc : QuizSecurity.Service) : QuizSecurity.Service :=
  let weekAgo := now - 7 * 24 * 60 * 60 * 1000 in
  QuizSecurity.mkService (QuizSecurity.securityRules svc)
    (omap (cleanupRecord weekAgo) (QuizSecurity.userAttempts svc))
    (QuizSecurity.suspiciousUsers svc).

(** The two switches of the rules that no method reads. *)
Definition withSwitches (fraud limiting : bool) (svc : QuizSecurity.Service)
  : QuizSecurity.Service :=
  let rules := QuizSecurity.securityRules svc in
  QuizSecurity.mkService
    (QuizSecurity.mkRules (QuizSecurity.maxDailyQuizzes rules)
       (QuizSecurity.maxHourlyQuizzes rules) (QuizSecurity.minTimeBetweenQuizzes rules)
       (QuizSecurity.suspiciousScoreThreshold rules)
       (QuizSecurity.maxConsecutiveHighScores rules)
       (QuizSecurity.timePerQuestionMin rules) (QuizSecurity.timePerQuestionMax rules)
       fraud limiting)
    (QuizSecurity.userAttempts svc) (QuizSecurity.suspiciousUsers svc).

End SecurityOps.

(** * Stores the handlers leave *)

Module Effects.

(** The store after a join that passed every check: the user is on the
    roster and the entry fee is debited. *)
Definition joined (id userId : string) (now' : Z) (t : Tournament.Tournament)
    (u : User.User) (db : Routes.DB) : Routes.DB :=
  Routes.mkDB
    (<[id := Tournament.set_participants
               (Tournament.participants t ++ [Tournament.newParticipant userId now']) t]>
       (Routes.tournaments db))
    (<[userId := User.mkUser (User.playableBalance u - Tournament.entryFee t)
                   (User.bonusBalance u)
                   (User.playableBalance u - Tournament.entryFee t + User.bonusBalance u)
                   (User.totalEarned u)]> (Routes.users db))
    (Routes.transactions db).

(** A participant the payout loop credits: a positive prize and an
    account. *)
Definition payable (db : Routes.DB) (p : Tournament.Participant) : Prop :=
  0 < Tournament.prize p /\ is_Some (Routes.users db !! Tournament.user p).

End Effects.

(** A run through the whole life cycle and beyond. *)
Definition sampleCalls : list Lifecycle.Call :=
  [Lifecycle.AddParticipant "u2" 1500; Lifecycle.StartTournament 3000;
   Lifecycle.AddParticipant "u9" 3100; Lifecycle.RemoveParticipant "u1";
   Lifecycle.UpdateParticipantScore "u2" 80 40 [];
   Lifecycle.CompleteTournament 4000; Lifecycle.StartTournament 4100].

(** Nine attempts earlier today, none within the last hour. *)
Definition nineEarlier : QuizSecurity.UserData :=
  QuizSecurity.mkUserData
    (map (fun k => midnight + 1000 * k) [1; 2; 3; 4; 5; 6; 7; 8; 9])
    [] (midnight + 9000) 0.

(** Four answers, all correct, as submitted with an attempt. *)
Definition perfectAnswers : list SecurityOps.QuizAnswer :=
  [SecurityOps.mkQuizAnswer true 1000; SecurityOps.mkQuizAnswer true 1200;
   SecurityOps.mkQuizAnswer true 900; SecurityOps.mkQuizAnswer true 1100].

(** A record whose attempts are all older than a week at [noon]. *)
Definition staleRecord : QuizSecurity.UserData :=
  QuizSecurity.mkUserData [noon - 700000000] [noon - 700000000] (noon - 700000000) 2.

Section LedgerFacts.
Import User.

Lemma bucket_playable u : bucket "playable" u = Some (playableBalance u).
Proof. reflexivity. Qed.

Lemma bucket_cases type u b :
  bucket type u = Some b ->
  (type = "playable" /\ b = playableBalance u) \/
  (type <> "playable" /\ type = "bonus" /\ b = bonusBalance u).
Proof.
  unfold bucket. destruct (String.eqb type "playable") eqn:Hp.
  - apply String.eqb_eq in Hp. intros [= <-]. by left.
  - apply String.eqb_neq in Hp. destruct (String.eqb type "bonus") eqn:Hb; [|done].
    apply String.eqb_eq in Hb. intros [= <-]. by right.
Qed.

Lemma addBalance_sum amount type u :
  balance (addBalance amount type u) =
  playableBalance (addBalance amount type u) + bonusBalance (addBalance amount type u).
Proof. reflexivity. Qed.

Lemma addBalance_valid amount type u :
  0 <= amount -> valid u -> valid (addBalance amount type u).
Proof.
  intros Hamount (Hsum & Hp & Hb & Hbal). unfold valid, addBalance; simpl.
  destruct (String.eqb type "playable"), (String.eqb type "bonus"); lia.
Qed.

Lemma deductBalance_valid amount type u :
  valid u -> valid (fst (deductBalance amount type u)).
Proof.
  intros (Hsum & Hp & Hb & Hbal). unfold valid, deductBalance.
  destruct (String.eqb type "playable"); simpl.
  - destruct (Z.geb_spec (playableBalance u) amount); simpl; [lia|].
    destruct (String.eqb type "bonus"); simpl; [|lia].
    destruct (Z.geb_spec (bonusBalance u) amount); simpl; lia.
  - destruct (String.eqb type "bonus"); simpl; [|lia].
    destruct (Z.geb_spec (bonusBalance u) amount); simpl; lia.
Qed.

Lemma applyOp_valid op u :
  creditNonNegative op -> valid u -> valid (applyOp op u).
Proof.
  destruct op as [amount type|amount type]; simpl; intros Hop Hu.
  - by apply addBalance_valid.
  - by apply deductBalance_valid.
Qed.

End LedgerFacts.

(** C3 (as amended).  Starting from a valid user, after every operation of a
    run of [addBalance] and [deductBalance] calls whose credited amounts are
    not negative, [balance = playableBalance + bonusBalance] and none of the
    three balances is negative. *)
Theorem balance_conservation (ops : list User.LedgerOp) (u : User.User) :
  User.valid u ->
  Forall User.creditNonNegative ops ->
  Forall User.valid (User.trace ops u).
Proof.
  intros Hu Hops. revert u Hu.
  induction Hops as [|op ops Hop _ IH]; intros u Hu; simpl.
  - constructor.
  - assert (Hu' : User.valid (User.applyOp op u)) by by apply applyOp_valid.
    constructor; [exact Hu'|]. by apply IH.
Qed.

Lemma balance_conservation_witness :
  Forall User.valid
    (User.trace [User.Credit 100 "playable"; User.Debit 30 "playable";
                 User.Debit 500 "bonus"; User.Credit 5 "bonus"] User.newUser).
Proof.
  apply balance_conservation.
  - unfold User.valid; simpl; lia.
  - repeat constructor; simpl; lia.
Defined.

(** C3 as stated fails: [addBalance] does not look at the sign of [amount],
    so crediting -5 to a fresh user leaves [playableBalance = -5]. *)
Lemma balance_conservation_counterexample :
  ~ (User.valid User.newUser ->
     Forall User.valid (User.trace [User.Credit (-5) "playable"] User.newUser)).
Proof.
  intros H.
  assert (Hv : User.valid User.newUser) by (unfold User.valid; simpl; lia).
  specialize (H Hv). inversion H as [|? ? (_ & Hneg & _) _]; subst.
  simpl in Hneg. lia.
Qed.

(** C4.  [deductBalance] is all-or-nothing: when [amount] exceeds the chosen
    bucket (or [type] names no bucket) it returns [false] and the user is
    unchanged; otherwise it returns [true], the chosen bucket drops by
    [amount], the other bucket and [totalEarned] are untouched, [balance] is
    the new sum, hence [amount] lower whenever it was the sum before. *)
Theorem deductBalance_all_or_nothing (amount : Z) (type : string) (u : User.User) :
  (forall b, User.bucket type u = Some b -> b < amount ->
     User.deductBalance amount type u = (u, false)) /\
  (User.bucket type u = None -> User.deductBalance amount type u = (u, false)) /\
  (forall b, User.bucket type u = Some b -> amount <= b ->
     exists u', User.deductBalance amount type u = (u', true) /\
       User.bucket type u' = Some (b - amount) /\
       (type <> "playable" -> User.playableBalance u' = User.playableBalance u) /\
       (type <> "bonus" -> User.bonusBalance u' = User.bonusBalance u) /\
       User.totalEarned u' = User.totalEarned u /\
       User.balance u' = User.playableBalance u' + User.bonusBalance u' /\
       (User.balance u = User.playableBalance u + User.bonusBalance u ->
        User.balance u' = User.balance u - amount)).
Proof.
  split; [|split].
  - intros b Hb Hlt. unfold User.deductBalance.
    destruct (bucket_cases _ _ _ Hb) as [[-> ->]|(Hne & -> & ->)]; simpl.
    + destruct (Z.geb_spec (User.playableBalance u) amount); [lia|done].
    + destruct (Z.geb_spec (User.bonusBalance u) amount); [lia|done].
  - unfold User.bucket, User.deductBalance.
    destruct (String.eqb type "playable"); [done|].
    destruct (String.eqb type "bonus"); done.
  - intros b Hb Hle. unfold User.deductBalance.
    destruct (bucket_cases _ _ _ Hb) as [[-> ->]|(Hne & -> & ->)]; simpl.
    + destruct (Z.geb_spec (User.playableBalance u) amount); [|lia].
      eexists; split; [reflexivity|]. simpl. repeat split; try done. lia.
    + destruct (Z.geb_spec (User.bonusBalance u) amount); [|lia].
      eexists; split; [reflexivity|]. simpl. repeat split; try done. lia.
Qed.

Lemma deductBalance_all_or_nothing_witness :
  User.deductBalance 30 "playable" (User.mkUser 20 50 70 0)
    = (User.mkUser 20 50 70 0, false) /\
  exists u', User.deductBalance 30 "bonus" (User.mkUser 20 50 70 0) = (u', true) /\
             User.bonusBalance u' = 20 /\ User.balance u' = 40.
Proof.
  split.
  - apply (proj1 (deductBalance_all_or_nothing 30 "playable" (User.mkUser 20 50 70 0)) 20);
      [reflexivity | lia].
  - destruct (proj2 (proj2 (deductBalance_all_or_nothing 30 "bonus" (User.mkUser 20 50 70 0)))
                50 eq_refl ltac:(lia))
      as (u' & Hrun & Hbucket & _ & _ & _ & _ & Hbal).
    exists u'. split; [exact Hrun|]. split.
    + unfold User.bucket in Hbucket; simpl in Hbucket. by injection Hbucket.
    + rewrite Hbal; [reflexivity | reflexivity].
Defined.

(** * Roster facts *)

Section RosterFacts.
Import Tournament.

Lemma findParticipant_None userId ps :
  findParticipant userId ps = None <-> userId ∉ (user <$> ps).
Proof.
  unfold findParticipant. induction ps as [|p ps IH]; simpl.
  - split; [intros _; apply not_elem_of_nil|done].
  - rewrite not_elem_of_cons. destruct (String.eqb_spec (user p) userId) as [Heq|Hne].
    + split; [done|]. intros [Hne _]. congruence.
    + rewrite IH. split; [intros H; split; [congruence|done]|by intros [_ H]].
Qed.

Lemma findParticipant_Some userId ps p :
  findParticipant userId ps = Some p -> user p = userId /\ p ∈ ps.
Proof.
  unfold findParticipant. induction ps as [|q ps IH]; simpl; [done|].
  destruct (String.eqb_spec (user q) userId) as [Heq|Hne].
  - intros [= ->]. split; [done|by left].
  - intros H. destruct (IH H). split; [done|by right].
Qed.

Lemma findParticipant_is_Some userId ps :
  userId ∈ user <$> ps -> is_Some (findParticipant userId ps).
Proof.
  intros Hin. destruct (findParticipant userId ps) eqn:Hf; [by eexists|].
  apply findParticipant_None in Hf. done.
Qed.

Lemma isRegistrationOpen_true now t :
  isRegistrationOpen now t = true <->
  status t = upcoming /\ registrationStart t <= now <= registrationEnd t /\
  count (participants t) < maxParticipants t.
Proof.
  unfold isRegistrationOpen. rewrite !andb_true_iff, bool_decide_eq_true.
  rewrite Z.geb_le, Z.leb_le, Z.ltb_lt. tauto.
Qed.

(** When [addParticipant] returns, and what it leaves. *)
Lemma addParticipant_cases userId now t :
  ((userId ∉ user <$> participants t) /\ isRegistrationOpen now t = true /\
   addParticipant userId now t
   = (set_participants (participants t ++ [newParticipant userId now]) t, Returned ())) \/
  ((userId ∈ (user <$> participants t) \/ isRegistrationOpen now t = false) /\
   exists msg, addParticipant userId now t = (t, Thrown msg)).
Proof.
  unfold addParticipant.
  destruct (findParticipant userId (participants t)) as [p|] eqn:Hf.
  - right. split; [|by eexists]. left.
    apply findParticipant_Some in Hf as [<- Hin]. by apply list_elem_of_fmap_2.
  - apply findParticipant_None in Hf.
    destruct (Z.geb_spec (count (participants t)) (maxParticipants t)) as [Hfull|Hroom].
    + right. split; [|by eexists]. right.
      destruct (isRegistrationOpen now t) eqn:Hopen; [|done].
      apply isRegistrationOpen_true in Hopen. lia.
    + destruct (isRegistrationOpen now t) eqn:Hopen; simpl.
      * left. done.
      * right. split; [by right|by eexists].
Qed.

End RosterFacts.

Section RemovalFacts.
Import Tournament.

Lemma findParticipantIndex_None userId ps :
  findParticipantIndex userId ps = None <-> userId ∉ user <$> ps.
Proof.
  induction ps as [|p ps IH]; simpl.
  - split; [intros _; apply not_elem_of_nil|done].
  - rewrite not_elem_of_cons. destruct (String.eqb_spec (user p) userId) as [Heq|Hne].
    + split; [done|]. intros [Hne _]. congruence.
    + destruct (findParticipantIndex userId ps); simpl.
      * split; [done|]. intros [_ Hnot]. by apply IH in Hnot.
      * split; [|done]. intros _. split; [congruence|]. by apply IH.
Qed.

Lemma findParticipantIndex_Some userId ps i :
  findParticipantIndex userId ps = Some i ->
  exists l1 p l2, ps = l1 ++ p :: l2 /\ user p = userId /\
    (userId ∉ user <$> l1) /\ take i ps ++ drop (S i) ps = l1 ++ l2.
Proof.
  revert i. induction ps as [|q ps IH]; intros i; simpl; [done|].
  destruct (String.eqb_spec (user q) userId) as [Heq|Hne].
  - intros [= <-]. exists [], q, ps. simpl. rewrite drop_0.
    repeat split; try done. apply not_elem_of_nil.
  - destruct (findParticipantIndex userId ps) as [j|] eqn:Hj; simpl; [|done].
    intros [= <-]. destruct (IH j eq_refl) as (l1 & p & l2 & -> & Hp & Hnot & Htd).
    exists (q :: l1), p, l2. simpl. repeat split; try done.
    + rewrite not_elem_of_cons. split; [congruence|done].
    + by rewrite Htd.
Qed.

Lemma set_participants_same t : set_participants (participants t) t = t.
Proof. by destruct t. Qed.

Lemma set_participants_twice ps ps' t :
  set_participants ps (set_participants ps' t) = set_participants ps t.
Proof. reflexivity. Qed.

(** When [removeParticipant] returns, and what it leaves. *)
Lemma removeParticipant_cases userId t :
  (exists l1 p l2,
     participants t = l1 ++ p :: l2 /\ user p = userId /\ (userId ∉ user <$> l1) /\
     status t <> active /\ status t <> completed /\
     removeParticipant userId t = (set_participants (l1 ++ l2) t, Returned ())) \/
  (((userId ∉ user <$> participants t) \/ status t = active \/ status t = completed) /\
   exists msg, removeParticipant userId t = (t, Thrown msg)).
Proof.
  unfold removeParticipant.
  destruct (findParticipantIndex userId (participants t)) as [i|] eqn:Hi.
  - destruct (decide (status t = active)) as [Ha|Ha].
    { right. rewrite bool_decide_eq_true_2 by done. split; [auto|by eexists]. }
    destruct (decide (status t = completed)) as [Hc|Hc].
    { right. rewrite (bool_decide_eq_true_2 (status t = completed)) by done.
      rewrite orb_true_r. split; [auto|by eexists]. }
    left. rewrite !bool_decide_eq_false_2 by done. simpl.
    destruct (findParticipantIndex_Some _ _ _ Hi) as (l1 & p & l2 & Hps & Hp & Hnot & Htd).
    exists l1, p, l2. rewrite Htd. done.
  - right. apply findParticipantIndex_None in Hi. split; [auto|by eexists].
Qed.

End RemovalFacts.

Lemma remove_appended userId now t :
  (userId ∉ Tournament.user <$> Tournament.participants t) ->
  Tournament.status t <> Tournament.active ->
  Tournament.status t <> Tournament.completed ->
  Tournament.removeParticipant userId
    (Tournament.set_participants
       (Tournament.participants t ++ [Tournament.newParticipant userId now]) t)
  = (t, Returned ()).
Proof.
  intros Hnot Ha Hc.
  destruct (removeParticipant_cases userId
              (Tournament.set_participants
                 (Tournament.participants t ++ [Tournament.newParticipant userId now]) t))
    as [(l1 & p & l2 & Hps & Hp & Hnot1 & _ & _ & ->)|(Hwhy & msg & _)].
  - simpl in Hps. f_equal.
    assert (Hl : l1 = Tournament.participants t /\ l2 = []).
    { destruct l2 as [|q l2 _] using rev_ind.
      - apply app_inj_tail in Hps as [-> _]. done.
      - exfalso. rewrite app_comm_cons, app_assoc in Hps.
        apply app_inj_tail in Hps as [Hps _]. apply Hnot.
        rewrite Hps, fmap_app, fmap_cons, Hp. set_solver. }
    destruct Hl as [-> ->]. rewrite app_nil_r, set_participants_twice.
    apply set_participants_same.
  - exfalso. simpl in Hwhy.
    destruct Hwhy as [Hout|[?|?]]; [|done|done].
    apply Hout. rewrite fmap_app. set_solver.
Qed.

(** * Handler facts *)

Section HandlerFacts.
Import Tournament Routes.

(** No transaction built with [newTransaction] passes validation:
    [transactionId] and [netAmount] are required and absent. *)
Lemma newTransaction_invalid userId ty cat amt before after pm descr tid st :
  validTransaction (newTransaction userId ty cat amt before after pm descr tid st) = false.
Proof. reflexivity. Qed.

Lemma saveTransaction_new userId ty cat amt before after pm descr tid st db :
  saveTransaction (newTransaction userId ty cat amt before after pm descr tid st) db
  = (db, Thrown "Transaction validation failed").
Proof. reflexivity. Qed.

Lemma canJoin_true userId now t :
  canJoin_ok (canJoin userId now t) = true <->
  (userId ∉ user <$> participants t) /\ isRegistrationOpen now t = true /\
  isPrivate t = false.
Proof.
  unfold canJoin. destruct (findParticipant userId (participants t)) as [p|] eqn:Hf.
  - simpl. split; [done|]. intros (Hnot & _). apply findParticipant_None in Hnot. congruence.
  - apply findParticipant_None in Hf.
    destruct (Z.geb_spec (count (participants t)) (maxParticipants t)) as [Hfull|Hroom].
    { simpl. split; [done|]. intros (_ & Hopen & _).
      apply isRegistrationOpen_true in Hopen. lia. }
    destruct (isRegistrationOpen now t); simpl; [|split; [done|by intros (_ & ? & _)]].
    destruct (isPrivate t); simpl; [split; [done|by intros (_ & _ & ?)]|done].
Qed.

Lemma deductBalance_enough amount u :
  amount <= User.playableBalance u ->
  User.deductBalance amount "playable" u
  = (User.mkUser (User.playableBalance u - amount) (User.bonusBalance u)
       (User.playableBalance u - amount + User.bonusBalance u) (User.totalEarned u), true).
Proof.
  intros Hle. unfold User.deductBalance. simpl.
  destruct (Z.geb_spec (User.playableBalance u) amount); [done|lia].
Qed.

(** A join request that passes every check of the handler. *)
Lemma joinRoute_passed id userId now now' db t u :
  tournaments db !! id = Some t -> users db !! userId = Some u ->
  canJoin_ok (canJoin userId now t) = true -> entryFee t <= User.playableBalance u ->
  isRegistrationOpen now' t = true ->
  joinRoute id userId now now' db
  = (Effects.joined id userId now' t u db,
     mkResponse 500 false (Some "INTERNAL_ERROR") "Failed to join tournament").
Proof.
  intros Ht Hu Hcan Hfee Hopen. unfold joinRoute. rewrite Ht, Hcan, Hu. cbn [negb].
  destruct (Z.ltb_spec (User.playableBalance u) (entryFee t)); [lia|].
  apply canJoin_true in Hcan as (Hnot & _ & _).
  destruct (addParticipant_cases userId now' t)
    as [(_ & _ & ->)|([Hin|Hclosed] & _)]; [|done|congruence].
  cbv zeta. rewrite saveTransaction_new, (deductBalance_enough _ _ Hfee).
  unfold Effects.joined, saveUser, saveTournament. simpl. done.
Qed.

(** Every other join request: nothing is written. *)
Lemma joinRoute_cases id userId now now' db :
  (exists t u,
     tournaments db !! id = Some t /\ users db !! userId = Some u /\
     canJoin_ok (canJoin userId now t) = true /\ entryFee t <= User.playableBalance u /\
     isRegistrationOpen now' t = true) \/
  ((forall t u,
      tournaments db !! id = Some t -> users db !! userId = Some u ->
      canJoin_ok (canJoin userId now t) = true -> entryFee t <= User.playableBalance u ->
      isRegistrationOpen now' t = true -> False) /\
   exists r, joinRoute id userId now now' db = (db, r) /\ success r = false /\
     (httpStatus r = 500 ->
      exists t, tournaments db !! id = Some t /\
        canJoin_ok (canJoin userId now t) = true /\
        (users db !! userId = None \/ isRegistrationOpen now' t = false))).
Proof.
  unfold joinRoute. destruct (tournaments db !! id) as [t|] eqn:Ht.
  2:{ right. split; [by intros t u ?|]. eexists. split; [done|]. done. }
  destruct (canJoin_ok (canJoin userId now t)) eqn:Hcan; cbn [negb].
  2:{ right. split; [intros t0 u [= <-] _ ?; congruence|]. eexists. split; [done|]. done. }
  destruct (users db !! userId) as [u|] eqn:Hu.
  2:{ right. split; [by intros t0 u _ ?|].
      eexists. split; [done|]. split; [done|]. intros _. exists t. auto. }
  destruct (Z.ltb_spec (User.playableBalance u) (entryFee t)) as [Hlow|Hok].
  { right. split; [intros t0 u0 [= <-] [= <-] _ ?; lia|]. eexists. split; [done|]. done. }
  destruct (isRegistrationOpen now' t) eqn:Hopen.
  { left. by exists t, u. }
  right. split; [intros t0 u0 [= <-] _ _ _ ?; congruence|].
  destruct (addParticipant_cases userId now' t)
    as [(_ & Hopen' & _)|(_ & msg & ->)]; [congruence|].
  eexists. split; [done|]. split; [done|]. intros _. exists t. auto.
Qed.

(** A leave request that passes the checks of the handler. *)
Lemma leaveRoute_passed id userId db t :
  tournaments db !! id = Some t ->
  userId ∈ user <$> participants t -> status t <> active -> status t <> completed ->
  leaveRoute id userId db
  = (match users db !! userId with
     | Some u => saveUser userId (User.addBalance (entryFee t) "playable" u)
                   (saveTournament id (fst (removeParticipant userId t)) db)
     | None => saveTournament id (fst (removeParticipant userId t)) db
     end,
     mkResponse 500 false (Some "INTERNAL_ERROR") "Failed to leave tournament").
Proof.
  intros Ht Hin Ha Hc. unfold leaveRoute. rewrite Ht.
  destruct (findParticipant_is_Some _ _ Hin) as [q ->].
  rewrite !bool_decide_eq_false_2 by done. cbn [orb].
  destruct (removeParticipant_cases userId t)
    as [(l1 & p & l2 & _ & _ & _ & _ & _ & ->)|([Hout|[?|?]] & _)]; [|done..].
  cbv zeta. cbn [fst]. unfold saveTournament at 1. cbn [users].
  destruct (users db !! userId) as [u|]; [|done].
  by rewrite saveTransaction_new.
Qed.

(** Every other leave request: nothing is written. *)
Lemma leaveRoute_cases id userId db :
  (exists t, tournaments db !! id = Some t /\ userId ∈ user <$> participants t /\
     status t <> active /\ status t <> completed) \/
  (exists r, leaveRoute id userId db = (db, r) /\ success r = false /\ httpStatus r <> 500).
Proof.
  unfold leaveRoute. destruct (tournaments db !! id) as [t|] eqn:Ht.
  2:{ right. eexists. split; [done|]. done. }
  destruct (findParticipant userId (participants t)) as [q|] eqn:Hf.
  2:{ right. eexists. split; [done|]. done. }
  destruct (decide (status t = active)) as [Ha|Ha].
  { right. rewrite bool_decide_eq_true_2 by done. eexists. split; [done|]. done. }
  destruct (decide (status t = completed)) as [Hc|Hc].
  { right. rewrite (bool_decide_eq_true_2 (status t = completed)) by done.
    rewrite orb_true_r. eexists. split; [done|]. done. }
  left. exists t. split; [done|]. split; [|done].
  apply findParticipant_Some in Hf as [<- Hq]. by apply list_elem_of_fmap_2.
Qed.

(** The payout loop: a participant without a positive prize or without an
    account is skipped; the first other one is credited and ends the loop. *)
Lemma payPrize_skip t db p :
  ~ Effects.payable db p -> payPrize t db p = (db, Returned ()).
Proof.
  unfold Effects.payable, payPrize. intros Hno.
  destruct (Z.gtb_spec (prize p) 0) as [Hpos|Hnone]; [|done].
  destruct (users db !! user p) as [u|] eqn:Hu; [|done].
  exfalso. apply Hno. split; [lia|by eexists].
Qed.

Lemma payPrize_credit t db p u :
  0 < prize p -> users db !! user p = Some u ->
  payPrize t db p
  = (saveUser (user p) (User.addBalance (prize p) "playable" u) db,
     Thrown "Transaction validation failed").
Proof.
  intros Hpos Hu. unfold payPrize. rewrite Hu.
  destruct (Z.gtb_spec (prize p) 0); [|lia]. cbv zeta. by rewrite saveTransaction_new.
Qed.

Lemma payPrizes_none t ps db :
  Forall (fun p => ~ Effects.payable db p) ps -> payPrizes t ps db = (db, Returned ()).
Proof.
  induction 1 as [|p ps Hp _ IH]; [done|]. cbn [payPrizes].
  by rewrite (payPrize_skip t db p Hp).
Qed.

Lemma payPrizes_first t l1 p l2 db u :
  Forall (fun q => ~ Effects.payable db q) l1 ->
  0 < prize p -> users db !! user p = Some u ->
  payPrizes t (l1 ++ p :: l2) db
  = (saveUser (user p) (User.addBalance (prize p) "playable" u) db,
     Thrown "Transaction validation failed").
Proof.
  intros Hl1 Hpos Hu. induction Hl1 as [|q l1 Hq _ IH]; cbn [app payPrizes].
  - by rewrite (payPrize_credit t db p u Hpos Hu).
  - by rewrite (payPrize_skip t db q Hq).
Qed.

(** The roster splits at the first participant the loop credits. *)
Lemma payable_split db ps :
  Forall (fun p => ~ Effects.payable db p) ps \/
  exists l1 p l2 u, ps = l1 ++ p :: l2 /\
    Forall (fun q => ~ Effects.payable db q) l1 /\
    0 < prize p /\ users db !! user p = Some u.
Proof.
  induction ps as [|q ps IH]; [by left|].
  destruct (decide (0 < prize q)) as [Hpos|Hno].
  - destruct (users db !! user q) as [u|] eqn:Hu.
    + right. exists [], q, ps, u. done.
    + assert (Hq : ~ Effects.payable db q).
      { intros [_ [u Hu']]. congruence. }
      destruct IH as [Hall|(l1 & p & l2 & u & -> & Hl1 & Hpos' & Hu')].
      * left. by constructor.
      * right. exists (q :: l1), p, l2, u. split; [done|]. split; [by constructor|done].
  - assert (Hq : ~ Effects.payable db q) by (intros [? _]; done).
    destruct IH as [Hall|(l1 & p & l2 & u & -> & Hl1 & Hpos' & Hu')].
    + left. by constructor.
    + right. exists (q :: l1), p, l2, u. split; [done|]. split; [by constructor|done].
Qed.

Lemma payPrizes_stores t ps db :
  tournaments (fst (payPrizes t ps db)) = tournaments db /\
  transactions (fst (payPrizes t ps db)) = transactions db.
Proof.
  destruct (payable_split db ps) as [Hall|(l1 & p & l2 & u & -> & Hl1 & Hpos & Hu)].
  - by rewrite (payPrizes_none t ps db Hall).
  - by rewrite (payPrizes_first t l1 p l2 db u Hl1 Hpos Hu).
Qed.

End HandlerFacts.

(** * Refund on leave *)

(** C7 (as amended).  [addBalance] with a positive amount never fails, adds
    the amount to the chosen bucket and to nothing else, sets [balance] to
    the new sum (the old balance plus the amount when it was the sum), and
    adds the amount to [totalEarned] for every credit, whatever it
    represents: whenever the leave handler refunds the entry fee (the user
    is on the roster of a tournament that is neither active nor completed
    and has an account), the account it stores has [totalEarned] raised by
    the fee. *)
Theorem addBalance_credit (amount : Z) (type : string) (u : User.User) :
  0 < amount ->
  (forall b, User.bucket type u = Some b ->
     User.bucket type (User.addBalance amount type u) = Some (b + amount)) /\
  (type <> "playable" ->
     User.playableBalance (User.addBalance amount type u) = User.playableBalance u) /\
  (type <> "bonus" ->
     User.bonusBalance (User.addBalance amount type u) = User.bonusBalance u) /\
  (User.balance u = User.playableBalance u + User.bonusBalance u ->
     forall b, User.bucket type u = Some b ->
     User.balance (User.addBalance amount type u) = User.balance u + amount) /\
  User.totalEarned (User.addBalance amount type u) = User.totalEarned u + amount /\
  (forall id userId db tournament user,
     Routes.tournaments db !! id = Some tournament ->
     userId ∈ Lifecycle.roster tournament ->
     Tournament.status tournament <> Tournament.active ->
     Tournament.status tournament <> Tournament.completed ->
     Routes.users db !! userId = Some user ->
     amount = Tournament.entryFee tournament ->
     exists user',
       Routes.users (fst (Routes.leaveRoute id userId db)) !! userId = Some user' /\
       user' = User.addBalance amount "playable" user /\
       User.totalEarned user' = User.totalEarned user + amount).
Proof.
  intros Hpos. repeat split.
  - intros b Hb. unfold User.bucket, User.addBalance in *; simpl.
    destruct (String.eqb type "playable"); [by simplify_eq|].
    destruct (String.eqb type "bonus"); by simplify_eq.
  - intros Hne. apply String.eqb_neq in Hne.
    unfold User.addBalance; simpl. by rewrite Hne.
  - intros Hne. apply String.eqb_neq in Hne.
    unfold User.addBalance; simpl. rewrite Hne. by destruct (String.eqb type "playable").
  - intros Hsum b Hb. unfold User.bucket, User.addBalance in *; simpl.
    destruct (String.eqb type "playable"); [lia|].
    destruct (String.eqb type "bonus"); [lia|done].
  - intros id userId db tournament user Ht Hin Ha Hc Hu ->.
    rewrite (leaveRoute_passed id userId db tournament Ht Hin Ha Hc), Hu.
    eexists. split; [apply lookup_insert_eq|]. done.
Qed.

Lemma addBalance_credit_witness :
  User.totalEarned (User.addBalance 20 "playable" (User.mkUser 80 0 80 0)) = 20 /\
  User.balance (User.addBalance 20 "playable" (User.mkUser 80 0 80 0)) = 100 /\
  exists user',
    Routes.users (fst (Routes.leaveRoute "t1" "u1" sampleDB)) !! "u1" = Some user' /\
    User.totalEarned user' = 20.
Proof.
  destruct (addBalance_credit 20 "playable" (User.mkUser 80 0 80 0) ltac:(lia))
    as (_ & _ & _ & Hbal & Hearned & Hleave).
  split; [exact Hearned|]. split; [exact (Hbal eq_refl 80 eq_refl)|].
  destruct (Hleave "t1" "u1" sampleDB sampleTournament (User.mkUser 80 0 80 0))
    as (user' & Hstored & _ & Htotal).
  - reflexivity.
  - apply (bool_decide_unpack _). vm_compute. exact I.
  - discriminate.
  - discriminate.
  - reflexivity.
  - reflexivity.
  - exists user'. split; [exact Hstored|exact Htotal].
Defined.

(** C7 as stated fails twice.  The leave handler refunds the entry fee of
    [sampleTournament], 20, through [addBalance], and the account it stores
    has [totalEarned] raised from 0 to 20.  And on an account whose
    [balance] is not the sum of its buckets, [balance] does not grow by the
    amount: it becomes the new sum. *)
Lemma refund_counted_as_earned :
  User.totalEarned <$> (Routes.users sampleDB !! "u1") = Some 0 /\
  User.totalEarned <$> (Routes.users (fst (Routes.leaveRoute "t1" "u1" sampleDB)) !! "u1")
    = Some 20 /\
  User.totalEarned (User.addBalance 20 "playable" (User.mkUser 80 0 80 0))
    <> User.totalEarned (User.mkUser 80 0 80 0) /\
  User.balance (User.addBalance 20 "playable" (User.mkUser 80 0 70 0)) = 100 /\
  User.balance (User.addBalance 20 "playable" (User.mkUser 80 0 70 0))
    <> User.balance (User.mkUser 80 0 70 0) + 20.
Proof. vm_compute. repeat split; done. Qed.

(** * Ranking *)

Section SortFacts.
Context {A : Type} (compareFn : A -> A -> Z).

Local Abbreviation before := (Tournament.before compareFn).

Hypothesis before_total : forall a b, before a b \/ before b a.
Hypothesis before_trans : forall a b c, before a b -> before b c -> before a c.

Lemma sort_insert_perm x l : Tournament.sort_insert compareFn x l ≡ₚ x :: l.
Proof.
  induction l as [|y l IH]; simpl; [done|].
  destruct (compareFn x y <=? 0); [done|].
  rewrite IH. apply perm_swap.
Qed.

Lemma js_sort_perm l : Tournament.js_sort compareFn l ≡ₚ l.
Proof.
  induction l as [|x l IH]; simpl; [done|].
  by rewrite sort_insert_perm, IH.
Qed.

Lemma sort_insert_sorted x l :
  StronglySorted before l -> StronglySorted before (Tournament.sort_insert compareFn x l).
Proof.
  induction 1 as [|y l Hl IH Hy]; simpl.
  - repeat constructor.
  - destruct (Z.leb_spec (compareFn x y) 0) as [Hxy|Hxy].
    + constructor; [by constructor|]. constructor; [exact Hxy|].
      eapply Forall_impl; [exact Hy|]. intros z Hz. by eapply before_trans.
    + constructor; [exact IH|].
      rewrite sort_insert_perm. constructor; [|exact Hy].
      destruct (before_total x y) as [H|H]; [unfold before in H; lia|exact H].
Qed.

Lemma js_sort_sorted l : StronglySorted before (Tournament.js_sort compareFn l).
Proof.
  induction l as [|x l IH]; simpl; [constructor|]. by apply sort_insert_sorted.
Qed.

Lemma StronglySorted_lookup_lt (R : relation A) l i j a b :
  StronglySorted R l -> l !! i = Some a -> l !! j = Some b -> (i < j)%nat -> R a b.
Proof.
  intros Hl. revert i j. induction Hl as [|x l Hl IH Hx]; intros i j Hi Hj Hlt; [done|].
  destruct j as [|j]; [lia|]. destruct i as [|i]; simpl in *.
  - simplify_eq. rewrite Forall_forall in Hx. apply Hx.
    by eapply list_elem_of_lookup_2.
  - eapply IH; eauto. lia.
Qed.

End SortFacts.

Section RankingFacts.
Import Tournament.

Lemma compareParticipants_before a b :
  before compareParticipants a b <->
  score b < score a \/ (score a = score b /\ timeSpent a <= timeSpent b).
Proof.
  unfold before, compareParticipants.
  destruct (Z.eqb_spec (score b) (score a)); simpl; lia.
Qed.

Lemma compareParticipants_total a b :
  before compareParticipants a b \/ before compareParticipants b a.
Proof. rewrite !compareParticipants_before. lia. Qed.

Lemma compareParticipants_trans a b c :
  before compareParticipants a b -> before compareParticipants b c ->
  before compareParticipants a c.
Proof. rewrite !compareParticipants_before. lia. Qed.

Lemma assignRanks_lookup ps : forall i k,
  assignRanks i ps !! k = set_rank (Z.of_nat (i + k) + 1) <$> ps !! k.
Proof.
  induction ps as [|p ps IH]; intros i k; simpl; [done|].
  destruct k as [|k]; simpl.
  - by rewrite Nat.add_0_r.
  - rewrite IH. do 3 f_equal. lia.
Qed.

Lemma assignRanks_length ps i : length (assignRanks i ps) = length ps.
Proof. revert i; induction ps; intros; simpl; auto. Qed.

Lemma assignRanks_ranks ps : forall i,
  rank <$> assignRanks i ps = Z.of_nat <$> seq (S i) (length ps).
Proof.
  induction ps as [|p ps IH]; intros i; simpl; [done|].
  rewrite IH. f_equal. lia.
Qed.

Lemma assignRanks_entries ps i : entry <$> assignRanks i ps = entry <$> ps.
Proof. revert i; induction ps as [|p ps IH]; intros; simpl; [done|]. by rewrite IH. Qed.

Lemma awardPrize_rank pd p : rank (awardPrize pd p) = rank p.
Proof. unfold awardPrize. by destruct (findPrize _ _). Qed.

Lemma awardPrize_entry pd p : entry (awardPrize pd p) = entry p.
Proof. unfold awardPrize. by destruct (findPrize _ _). Qed.

(** The roster and the winner [completeTournament] leaves behind. *)
Lemma completeTournament_roster now t :
  status t = active ->
  exists f : Participant -> Participant,
    (forall p, rank (f p) = rank p /\ entry (f p) = entry p) /\
    participants (fst (completeTournament now t))
      = f <$> assignRanks 0 (js_sort compareParticipants (participants t)) /\
    winner (fst (completeTournament now t))
      = match js_sort compareParticipants (participants t) with
        | [] => winner t
        | first :: _ => Some (user first)
        end.
Proof.
  intros Hactive. unfold completeTournament. rewrite Hactive. simpl.
  unfold distributePrizes, calculateRankings. simpl.
  set (sorted := js_sort compareParticipants (participants t)).
  destruct (prizeDistribution t) as [|e pd] eqn:Hpd.
  - exists id. split; [done|]. split.
    + destruct sorted; simpl; [by rewrite Hpd|]. rewrite Hpd. simpl. by rewrite list_fmap_id.
    + destruct sorted; simpl; by rewrite Hpd.
  - exists (awardPrize (e :: pd)). split.
    { intros p. split; [apply awardPrize_rank|apply awardPrize_entry]. }
    destruct sorted; simpl; rewrite Hpd; simpl; done.
Qed.

End RankingFacts.

Section RankingTheorem.
Import Tournament.

Lemma roster_lookup (f : Participant -> Participant) sorted i A :
  (forall p, rank (f p) = rank p /\ entry (f p) = entry p) ->
  (f <$> assignRanks 0 sorted) !! i = Some A ->
  exists A0, sorted !! i = Some A0 /\ rank A = Z.of_nat i + 1 /\ entry A = entry A0.
Proof.
  intros Hf. rewrite list_lookup_fmap, assignRanks_lookup.
  destruct (sorted !! i) as [A0|]; [|done]. simpl. intros [= <-].
  exists A0. destruct (Hf (set_rank (Z.of_nat (0 + i) + 1) A0)) as [Hr He].
  split; [done|]. split; [exact Hr|exact He].
Qed.

Lemma sorted_positions sorted i j A0 B0 :
  StronglySorted (before compareParticipants) sorted ->
  sorted !! i = Some A0 -> sorted !! j = Some B0 ->
  ~ before compareParticipants B0 A0 -> (i < j)%nat.
Proof.
  intros Hs Hi Hj Hnot.
  destruct (Nat.lt_trichotomy i j) as [Hlt|[Heq|Hgt]]; [done| |].
  - exfalso. subst j. rewrite Hi in Hj. injection Hj as Heq. subst B0.
    destruct (compareParticipants_total A0 A0); done.
  - exfalso. apply Hnot. by eapply StronglySorted_lookup_lt.
Qed.

End RankingTheorem.

(** C2.  After [completeTournament] on an active tournament with N
    participants the ranks are 1, 2, ..., N in roster order (so each rank of
    1..N occurs exactly once) and the roster is the old one rearranged; of
    two entries the one with the higher score has the lower rank, and at
    equal scores the one with the lower [timeSpent] has the lower rank;
    [winner] is the user of the entry of rank 1. *)
Theorem ranking_correct (now : Z) (t : Tournament.Tournament) :
  Tournament.status t = Tournament.active ->
  let t' := fst (Tournament.completeTournament now t) in
  let ps := Tournament.participants t' in
  Tournament.rank <$> ps = Z.of_nat <$> seq 1 (length (Tournament.participants t)) /\
  Tournament.entry <$> ps ≡ₚ Tournament.entry <$> Tournament.participants t /\
  (forall i j A B, ps !! i = Some A -> ps !! j = Some B ->
     Tournament.score B < Tournament.score A ->
     Tournament.rank A < Tournament.rank B) /\
  (forall i j A B, ps !! i = Some A -> ps !! j = Some B ->
     Tournament.score A = Tournament.score B ->
     Tournament.timeSpent A < Tournament.timeSpent B ->
     Tournament.rank A < Tournament.rank B) /\
  (forall i A, ps !! i = Some A -> Tournament.rank A = 1 ->
     Tournament.winner t' = Some (Tournament.user A)).
Proof.
  intros Hactive t' ps.
  destruct (completeTournament_roster now t Hactive) as (f & Hf & Hps & Hwin).
  fold t' in Hps, Hwin. fold ps in Hps.
  set (sorted := Tournament.js_sort Tournament.compareParticipants
                   (Tournament.participants t)) in *.
  assert (Hperm : sorted ≡ₚ Tournament.participants t) by apply js_sort_perm.
  assert (Hsorted : StronglySorted (Tournament.before Tournament.compareParticipants) sorted).
  { apply js_sort_sorted; [apply compareParticipants_total|apply compareParticipants_trans]. }
  assert (Horder : forall i j A B, ps !! i = Some A -> ps !! j = Some B ->
            Tournament.score B < Tournament.score A \/
            (Tournament.score A = Tournament.score B /\
             Tournament.timeSpent A < Tournament.timeSpent B) ->
            Tournament.rank A < Tournament.rank B).
  { intros i j A B Hi Hj Hcmp. rewrite Hps in Hi, Hj.
    destruct (roster_lookup f sorted i A Hf Hi) as (A0 & HA0 & -> & HeA).
    destruct (roster_lookup f sorted j B Hf Hj) as (B0 & HB0 & -> & HeB).
    unfold Tournament.entry in HeA, HeB. simplify_eq.
    enough (i < j)%nat by lia.
    eapply sorted_positions; eauto.
    rewrite compareParticipants_before. lia. }
  split; [|split; [|split; [|split]]].
  - rewrite Hps, <- list_fmap_compose.
    rewrite (list_fmap_ext (Tournament.rank ∘ f) Tournament.rank
               (Tournament.assignRanks 0 sorted) (fun _ p _ => proj1 (Hf p))).
    rewrite assignRanks_ranks. by rewrite (Permutation_length Hperm).
  - rewrite Hps, <- list_fmap_compose.
    rewrite (list_fmap_ext (Tournament.entry ∘ f) Tournament.entry
               (Tournament.assignRanks 0 sorted) (fun _ p _ => proj2 (Hf p))).
    rewrite assignRanks_entries. by rewrite Hperm.
  - intros i j A B Hi Hj Hlt. eapply Horder; eauto.
  - intros i j A B Hi Hj Heq Hlt. eapply Horder; eauto.
  - intros i A Hi Hrank. rewrite Hps in Hi.
    destruct (roster_lookup f sorted i A Hf Hi) as (A0 & HA0 & Hr & HeA).
    assert (i = 0%nat) as -> by lia.
    rewrite Hwin. destruct sorted as [|first rest]; [done|].
    simpl in HA0. injection HA0 as ->.
    unfold Tournament.entry in HeA. injection HeA as Huser _ _. by rewrite Huser.
Qed.

Lemma ranking_correct_witness :
  Tournament.rank <$>
    Tournament.participants (fst (Tournament.completeTournament 5000 scenarioTournament))
  = [1; 2; 3].
Proof. exact (proj1 (ranking_correct 5000 scenarioTournament eq_refl)). Defined.

(** The completion scenario: the tie at 90 goes to the faster "b". *)
Example scenario_ranking :
  (fun p => (Tournament.user p, Tournament.rank p, Tournament.prize p)) <$>
    Tournament.participants (fst (Tournament.completeTournament 5000 scenarioTournament))
  = [("b", 1, 50); ("a", 2, 30); ("c", 3, 20)].
Proof. reflexivity. Qed.

(** * Completion guard *)

Section CompletionFacts.
Import Tournament Routes.

Lemma calculateRankings_state t :
  status (calculateRankings t) = status t /\
  phase (calculateRankings t) = phase t /\
  actualEndTime (calculateRankings t) = actualEndTime t /\
  prizeDistribution (calculateRankings t) = prizeDistribution t.
Proof.
  unfold calculateRankings.
  by destruct (assignRanks 0 (js_sort compareParticipants (participants t))).
Qed.

Lemma distributePrizes_state t :
  status (distributePrizes t) = status t /\
  phase (distributePrizes t) = phase t /\
  actualEndTime (distributePrizes t) = actualEndTime t.
Proof. unfold distributePrizes. by destruct (prizeDistribution t). Qed.

Lemma completeTournament_active now t :
  status t = active ->
  exists t', completeTournament now t = (t', Returned ()) /\
    status t' = completed /\ phase t' = results /\ actualEndTime t' = Some now.
Proof.
  intros Hactive. unfold completeTournament. rewrite Hactive. simpl.
  eexists; split; [reflexivity|].
  destruct (distributePrizes_state
              (calculateRankings (set_actualEndTime now (set_phase results
                                    (set_status completed t))))) as (-> & -> & ->).
  destruct (calculateRankings_state
              (set_actualEndTime now (set_phase results (set_status completed t))))
    as (-> & -> & -> & _).
  done.
Qed.

Lemma completeTournament_inactive now t :
  status t <> active ->
  completeTournament now t = (t, Thrown "Tournament is not active").
Proof.
  intros Hne. unfold completeTournament.
  by rewrite (bool_decide_eq_false_2 _ Hne).
Qed.

Lemma completeRoute_inactive id now db t :
  tournaments db !! id = Some t -> status t <> active ->
  completeRoute id now db
  = (db, mkResponse 500 false (Some "INTERNAL_ERROR") "Failed to complete tournament").
Proof.
  intros Ht Hne. unfold completeRoute. rewrite Ht.
  by rewrite (completeTournament_inactive now t Hne).
Qed.

(** The completion handler on an active tournament stores the completed
    document, whatever the payout loop does afterwards. *)
Lemma completeRoute_stored id now db t :
  tournaments db !! id = Some t -> status t = active ->
  tournaments (fst (completeRoute id now db))
    = <[id := fst (completeTournament now t)]> (tournaments db) /\
  transactions (fst (completeRoute id now db)) = transactions db.
Proof.
  intros Ht Hactive. unfold completeRoute. rewrite Ht.
  destruct (completeTournament_active now t Hactive) as (t' & -> & _). cbv zeta. cbn [fst].
  pose proof (payPrizes_stores t' (participants t') (saveTournament id t' db)) as [Hts Htx].
  destruct (payPrizes t' (participants t') (saveTournament id t' db)) as [db2 [[]|msg]];
    cbn [fst] in *; by rewrite Hts, Htx.
Qed.

End CompletionFacts.

(** C1.  [completeTournament] requires [status = active].  On any other
    status (in particular [completed]) it throws, the tournament is left as
    it was, and the completion handler answers with an error without
    touching tournaments, users or transactions, so no prize is assigned or
    paid.  On an active tournament it returns with [status = completed],
    [phase = results] and [actualEndTime = now]; the handler stores that
    document, and running the handler again on the store it left is
    refused with an error and changes nothing. *)
Theorem completion_guard (now : Z) (t : Tournament.Tournament) :
  (Tournament.status t <> Tournament.active ->
     Tournament.completeTournament now t = (t, Thrown "Tournament is not active") /\
     forall id db, Routes.tournaments db !! id = Some t ->
       fst (Routes.completeRoute id now db) = db /\
       Routes.success (snd (Routes.completeRoute id now db)) = false) /\
  (Tournament.status t = Tournament.active ->
     (exists t', Tournament.completeTournament now t = (t', Returned ()) /\
        Tournament.status t' = Tournament.completed /\
        Tournament.phase t' = Tournament.results /\
        Tournament.actualEndTime t' = Some now) /\
     forall id db later, Routes.tournaments db !! id = Some t ->
       let db1 := fst (Routes.completeRoute id now db) in
       Routes.tournaments db1 !! id = Some (fst (Tournament.completeTournament now t)) /\
       fst (Routes.completeRoute id later db1) = db1 /\
       Routes.success (snd (Routes.completeRoute id later db1)) = false).
Proof.
  split.
  - intros Hne. split; [by apply completeTournament_inactive|].
    intros id db Ht. by rewrite (completeRoute_inactive id now db t Ht Hne).
  - intros Hactive.
    destruct (completeTournament_active now t Hactive) as (t' & Hrun & Hs & Hp & He).
    split; [by exists t'|].
    intros id db later Ht db1.
    assert (Ht1 : Routes.tournaments db1 !! id = Some t').
    { unfold db1. rewrite (proj1 (completeRoute_stored id now db t Ht Hactive)), Hrun.
      apply lookup_insert_eq. }
    assert (Hne : Tournament.status t' <> Tournament.active) by (rewrite Hs; done).
    rewrite (completeRoute_inactive id later db1 t' Ht1 Hne).
    rewrite Hrun. done.
Qed.

Lemma completion_guard_witness :
  Tournament.completeTournament 5000 sampleTournament
    = (sampleTournament, Thrown "Tournament is not active") /\
  (fst (Routes.completeRoute "t1" 5000 sampleDB) = sampleDB /\
   Routes.success (snd (Routes.completeRoute "t1" 5000 sampleDB)) = false) /\
  (exists t', Tournament.completeTournament 5000 scenarioTournament = (t', Returned ()) /\
     Tournament.status t' = Tournament.completed /\
     Tournament.phase t' = Tournament.results /\
     Tournament.actualEndTime t' = Some 5000) /\
  let db1 := fst (Routes.completeRoute "t2" 5000 scenarioDB) in
  fst (Routes.completeRoute "t2" 6000 db1) = db1 /\
  Routes.success (snd (Routes.completeRoute "t2" 6000 db1)) = false.
Proof.
  assert (Hsample : Tournament.status sampleTournament <> Tournament.active)
    by discriminate.
  split; [|split; [|split]].
  - exact (proj1 (proj1 (completion_guard 5000 sampleTournament) Hsample)).
  - exact (proj2 (proj1 (completion_guard 5000 sampleTournament) Hsample)
             "t1" sampleDB eq_refl).
  - exact (proj1 (proj2 (completion_guard 5000 scenarioTournament) eq_refl)).
  - exact (proj2 (proj2 (proj2 (completion_guard 5000 scenarioTournament) eq_refl)
                    "t2" scenarioDB 6000 eq_refl)).
Defined.

(** Completing the scenario tournament twice.  The first request stores the
    completed tournament and credits 50 to "b", ranked first; saving the
    prize transaction then fails, so "a" and "c" (30 and 20 on the roster)
    are never credited, no transaction is stored and the answer is 500.
    The second request is refused and changes nothing. *)
Example scenario_double_completion :
  let db1 := fst (Routes.completeRoute "t2" 5000 scenarioDB) in
  let db2 := fst (Routes.completeRoute "t2" 6000 db1) in
  Routes.httpStatus (snd (Routes.completeRoute "t2" 5000 scenarioDB)) = 500 /\
  User.playableBalance <$> (Routes.users db1 !! "b") = Some 50 /\
  User.playableBalance <$> (Routes.users db1 !! "a") = Some 0 /\
  User.playableBalance <$> (Routes.users db1 !! "c") = Some 0 /\
  Routes.transactions db1 = [] /\
  Routes.httpStatus (snd (Routes.completeRoute "t2" 6000 db1)) = 500 /\
  db2 = db1.
Proof. vm_compute. done. Qed.

(** * Prize distribution *)

Section SumFacts.
Context {A : Type}.
Implicit Types (g h : A -> Z) (l : list A).

Lemma fold_left_sum_shift g l : forall acc,
  fold_left (fun sum x => sum + g x) l acc
  = acc + fold_left (fun sum x => sum + g x) l 0.
Proof.
  induction l as [|x l IH]; intros acc; simpl; [lia|].
  rewrite (IH (acc + g x)), (IH (0 + g x)). lia.
Qed.

Lemma sumBy_nil g : Tournament.sumBy g [] = 0.
Proof. reflexivity. Qed.

Lemma sumBy_cons g x l : Tournament.sumBy g (x :: l) = g x + Tournament.sumBy g l.
Proof. unfold Tournament.sumBy. simpl. by rewrite fold_left_sum_shift. Qed.

Lemma sumBy_ext g h l :
  (forall x, x ∈ l -> g x = h x) -> Tournament.sumBy g l = Tournament.sumBy h l.
Proof.
  induction l as [|x l IH]; intros Hgh; [done|].
  rewrite !sumBy_cons, IH, (Hgh x); [done|by left|].
  intros y Hy. apply Hgh. by right.
Qed.

Lemma sumBy_add g h l :
  Tournament.sumBy (fun x => g x + h x) l = Tournament.sumBy g l + Tournament.sumBy h l.
Proof.
  induction l as [|x l IH]; [done|]. rewrite !sumBy_cons, IH. lia.
Qed.

Lemma sumBy_zero g l : (forall x, x ∈ l -> g x = 0) -> Tournament.sumBy g l = 0.
Proof.
  induction l as [|x l IH]; intros Hg; [done|].
  rewrite sumBy_cons, IH, (Hg x); [done|by left|].
  intros y Hy. apply Hg. by right.
Qed.

End SumFacts.

Lemma sumBy_fmap {A B} (f : B -> A) (g : A -> Z) (l : list B) :
  Tournament.sumBy g (f <$> l) = Tournament.sumBy (g ∘ f) l.
Proof.
  induction l as [|x l IH]; [done|].
  rewrite fmap_cons, sumBy_cons, IH, (sumBy_cons (g ∘ f)). reflexivity.
Qed.

Section PrizeFacts.
Import Tournament.

Lemma prizeFor_cons e pd r :
  prizeFor (e :: pd) r = if pd_rank e =? r then pd_prize e else prizeFor pd r.
Proof. unfold prizeFor, findPrize. simpl. by destruct (pd_rank e =? r). Qed.

Lemma prizeFor_unlisted pd r : r ∉ pd_rank <$> pd -> prizeFor pd r = 0.
Proof.
  induction pd as [|e pd IH]; intros Hnot; [done|].
  rewrite prizeFor_cons. rewrite fmap_cons, not_elem_of_cons in Hnot.
  destruct Hnot as [Hne Hnot]. destruct (Z.eqb_spec (pd_rank e) r); [congruence|auto].
Qed.

Lemma awardPrize_prize pd p : prize p = 0 -> prize (awardPrize pd p) = prizeFor pd (rank p).
Proof. unfold awardPrize, prizeFor. by destruct (findPrize (rank p) pd). Qed.

Lemma rankOccupied_spec ps r : rankOccupied ps r = true <-> r ∈ rank <$> ps.
Proof.
  unfold rankOccupied. rewrite existsb_exists, list_elem_of_fmap. split.
  - intros (p & Hin & Heq). exists p. apply list_elem_of_In in Hin.
    apply Z.eqb_eq in Heq. done.
  - intros (p & -> & Hin). exists p. rewrite <- list_elem_of_In, Z.eqb_eq. done.
Qed.

(** With distinct ranks on the roster, exactly the holder of rank [r]
    collects an amount offered for rank [r]. *)
Lemma sumBy_single_rank ps r c :
  NoDup (rank <$> ps) ->
  sumBy (fun p => if r =? rank p then c else 0) ps
  = if rankOccupied ps r then c else 0.
Proof.
  induction ps as [|p ps IH]; intros Hnd; [done|].
  rewrite fmap_cons, NoDup_cons in Hnd. destruct Hnd as [Hnot Hnd].
  rewrite sumBy_cons. unfold rankOccupied in *. simpl.
  rewrite (Z.eqb_sym (rank p) r).
  destruct (Z.eqb_spec r (rank p)) as [->|Hne]; simpl.
  - rewrite sumBy_zero; [lia|].
    intros q Hq. destruct (Z.eqb_spec (rank p) (rank q)) as [Heq|]; [|done].
    exfalso. apply Hnot. rewrite Heq. by apply list_elem_of_fmap_2.
  - by rewrite IH.
Qed.

Lemma prize_double_count pd ps :
  NoDup (pd_rank <$> pd) -> NoDup (rank <$> ps) ->
  sumBy (fun p => prizeFor pd (rank p)) ps
  = sumBy pd_prize (filter (fun e => rankOccupied ps (pd_rank e) = true) pd).
Proof.
  intros Hpd Hps. induction pd as [|e pd IH].
  - rewrite sumBy_zero; done.
  - rewrite fmap_cons, NoDup_cons in Hpd. destruct Hpd as [Hnot Hpd].
    rewrite (sumBy_ext _ (fun p => (if pd_rank e =? rank p then pd_prize e else 0)
                                   + prizeFor pd (rank p))).
    2:{ intros p _. rewrite prizeFor_cons.
        destruct (Z.eqb_spec (pd_rank e) (rank p)) as [Heq|]; [|lia].
        rewrite <- Heq, prizeFor_unlisted; [lia|done]. }
    rewrite sumBy_add, sumBy_single_rank, IH by done.
    rewrite filter_cons. destruct (rankOccupied ps (pd_rank e)) eqn:Hocc.
    + rewrite decide_True by done. by rewrite sumBy_cons.
    + rewrite decide_False by done. lia.
Qed.

Lemma rankOccupied_same_ranks ps ps' r :
  rank <$> ps' = rank <$> ps -> rankOccupied ps' r = rankOccupied ps r.
Proof.
  intros Heq. apply eq_true_iff_eq. by rewrite !rankOccupied_spec, Heq.
Qed.

Lemma matchedPrizeSum_same_ranks pd ps ps' :
  rank <$> ps' = rank <$> ps -> matchedPrizeSum pd ps' = matchedPrizeSum pd ps.
Proof.
  intros Heq. unfold matchedPrizeSum. f_equal.
  apply list_filter_iff. intros e. by rewrite (rankOccupied_same_ranks ps ps').
Qed.

Lemma assignRanks_prizes ps i : prize <$> assignRanks i ps = prize <$> ps.
Proof. revert i; induction ps as [|p ps IH]; intros; simpl; [done|]. by rewrite IH. Qed.

Lemma NoDup_ranks_seq n : NoDup (Z.of_nat <$> seq 1 n).
Proof. apply NoDup_fmap_2; [apply _|apply NoDup_seq]. Qed.

End PrizeFacts.

Section PrizeTheorem.
Import Tournament.

Lemma completeTournament_ranks now t :
  status t = active ->
  rank <$> participants (fst (completeTournament now t))
  = Z.of_nat <$> seq 1 (length (participants t)).
Proof.
  intros Hactive.
  destruct (completeTournament_roster now t Hactive) as (f & Hf & -> & _).
  rewrite <- list_fmap_compose.
  rewrite (list_fmap_ext (rank ∘ f) rank _ (fun _ p _ => proj1 (Hf p))).
  rewrite assignRanks_ranks.
  by rewrite (Permutation_length (js_sort_perm compareParticipants (participants t))).
Qed.

Lemma completeTournament_participants now t :
  status t = active ->
  participants (fst (completeTournament now t))
  = match prizeDistribution t with
    | [] => assignRanks 0 (js_sort compareParticipants (participants t))
    | _ :: _ => awardPrize (prizeDistribution t)
                  <$> assignRanks 0 (js_sort compareParticipants (participants t))
    end.
Proof.
  intros Hactive. unfold completeTournament. rewrite Hactive. simpl.
  unfold distributePrizes, calculateRankings. simpl.
  destruct (assignRanks 0 (js_sort compareParticipants (participants t)));
    simpl; by destruct (prizeDistribution t).
Qed.

Lemma assignRanks_no_prize ps : forall i,
  Forall (fun p => prize p = 0) ps -> Forall (fun p => prize p = 0) (assignRanks i ps).
Proof.
  induction ps as [|p ps IH]; intros i Hps; simpl; [constructor|].
  inversion Hps; subst. constructor; [done|by apply IH].
Qed.

Lemma ranked_no_prize t :
  Forall (fun p => prize p = 0) (participants t) ->
  Forall (fun p => prize p = 0)
         (assignRanks 0 (js_sort compareParticipants (participants t))).
Proof.
  intros Hzero. apply assignRanks_no_prize. by rewrite js_sort_perm.
Qed.

Lemma completeTournament_prizes now t :
  status t = active ->
  Forall (fun p => prize p = 0) (participants t) ->
  Forall (fun p => prize p = prizeFor (prizeDistribution t) (rank p))
         (participants (fst (completeTournament now t))).
Proof.
  intros Hactive Hzero. rewrite completeTournament_participants by done.
  pose proof (ranked_no_prize t Hzero) as Hranked.
  destruct (prizeDistribution t) as [|e pd].
  - eapply Forall_impl; [exact Hranked|]. by intros p ->.
  - rewrite Forall_fmap. eapply Forall_impl; [exact Hranked|].
    intros p Hp. simpl. by rewrite awardPrize_rank, awardPrize_prize.
Qed.

End PrizeTheorem.

(** C5 (as amended).  Completing an active tournament whose participants
    hold no prize yet gives every participant the prize of the first
    [prizeDistribution] entry of its rank, and nothing when there is none.
    When the ranks listed in [prizeDistribution] are pairwise distinct, the
    sum of all participants' prizes is the sum of the entries whose rank is
    occupied.  With an empty [prizeDistribution] the call returns normally
    and every prize stays 0. *)
Theorem prize_conservation (now : Z) (t : Tournament.Tournament) :
  Tournament.status t = Tournament.active ->
  Forall (fun p => Tournament.prize p = 0) (Tournament.participants t) ->
  let t' := fst (Tournament.completeTournament now t) in
  snd (Tournament.completeTournament now t) = Returned () /\
  Forall (fun p => Tournament.prize p
                   = Tournament.prizeFor (Tournament.prizeDistribution t) (Tournament.rank p))
         (Tournament.participants t') /\
  (NoDup (Tournament.pd_rank <$> Tournament.prizeDistribution t) ->
     Tournament.sumPrizes (Tournament.participants t')
     = Tournament.matchedPrizeSum (Tournament.prizeDistribution t)
         (Tournament.participants t')) /\
  (Tournament.prizeDistribution t = [] ->
     Forall (fun p => Tournament.prize p = 0) (Tournament.participants t')).
Proof.
  intros Hactive Hzero t'.
  pose proof (completeTournament_prizes now t Hactive Hzero) as Hprizes. fold t' in Hprizes.
  split; [|split; [exact Hprizes|split]].
  - destruct (completeTournament_active now t Hactive) as (t1 & -> & _). done.
  - intros Hnodup. unfold Tournament.sumPrizes, Tournament.matchedPrizeSum.
    rewrite (sumBy_ext Tournament.prize
               (fun p => Tournament.prizeFor (Tournament.prizeDistribution t)
                           (Tournament.rank p))).
    2:{ rewrite Forall_forall in Hprizes. exact Hprizes. }
    apply prize_double_count; [exact Hnodup|].
    unfold t'. rewrite completeTournament_ranks by done. apply NoDup_ranks_seq.
  - intros Hempty. eapply Forall_impl; [exact Hprizes|].
    intros p ->. by rewrite Hempty.
Qed.

Lemma prize_conservation_witness :
  Tournament.sumPrizes
    (Tournament.participants (fst (Tournament.completeTournament 5000 scenarioTournament)))
  = Tournament.matchedPrizeSum (Tournament.prizeDistribution scenarioTournament)
      (Tournament.participants (fst (Tournament.completeTournament 5000 scenarioTournament))).
Proof.
  refine (proj1 (proj2 (proj2 (prize_conservation 5000 scenarioTournament eq_refl _))) _).
  - repeat constructor.
  - apply (bool_decide_unpack _). vm_compute. exact I.
Defined.

(** C5 as stated fails: with rank 1 listed twice (60 and 40) only the first
    entry is paid, so the prizes sum to 60 while the entries whose rank is
    occupied sum to 100. *)
Lemma prize_conservation_counterexample :
  let ps := Tournament.participants
              (fst (Tournament.completeTournament 5000 duplicateRankTournament)) in
  Tournament.status duplicateRankTournament = Tournament.active /\
  Forall (fun p => Tournament.prize p = 0) (Tournament.participants duplicateRankTournament) /\
  Tournament.sumPrizes ps = 60 /\
  Tournament.matchedPrizeSum (Tournament.prizeDistribution duplicateRankTournament) ps = 100 /\
  Tournament.sumPrizes ps
    <> Tournament.matchedPrizeSum (Tournament.prizeDistribution duplicateRankTournament) ps.
Proof.
  simpl. split; [done|]. split; [repeat constructor|].
  split; [reflexivity|]. split; [reflexivity|]. vm_compute. done.
Qed.

(** * Score updates *)

Section ScoreFacts.
Import Tournament.

Lemma updateFirst_find userId s ts ans ps p :
  findParticipant userId ps = Some p ->
  findParticipant userId (updateFirst userId s ts ans ps)
  = Some (mkParticipant (user p) (joinedAt p) s ts ans (rank p) (prize p)).
Proof.
  unfold findParticipant. induction ps as [|q ps IH]; simpl; [done|].
  destruct (String.eqb (user q) userId) eqn:Hq; simpl.
  - intros [= ->]. by rewrite Hq.
  - intros Hfind. rewrite Hq. by apply IH.
Qed.

Lemma updateFirst_other userId other s ts ans ps :
  other <> userId ->
  findParticipant other (updateFirst userId s ts ans ps) = findParticipant other ps.
Proof.
  intros Hne. unfold findParticipant. induction ps as [|q ps IH]; simpl; [done|].
  destruct (String.eqb (user q) userId) eqn:Hq; simpl.
  - apply String.eqb_eq in Hq.
    destruct (String.eqb (user q) other) eqn:Ho; [|done].
    apply String.eqb_eq in Ho. congruence.
  - by rewrite IH.
Qed.

End ScoreFacts.

(** C6 (as amended).  [updateParticipantScore] overwrites the score of the
    participant with the supplied value, in every status: it throws for a
    user who is not on the roster, and otherwise the participant's new score
    is the argument, every other participant is as before, and the score is
    greater than or equal to its previous value exactly when the supplied
    score is. *)
Theorem updateParticipantScore_overwrites
    (userId : string) (score' timeSpent' : Z) (answers' : list Tournament.Answer)
    (t : Tournament.Tournament) :
  (Tournament.findParticipant userId (Tournament.participants t) = None ->
     Tournament.updateParticipantScore userId score' timeSpent' answers' t
     = (t, Thrown "User is not a participant")) /\
  (forall p, Tournament.findParticipant userId (Tournament.participants t) = Some p ->
     exists t' p',
       Tournament.updateParticipantScore userId score' timeSpent' answers' t
         = (t', Returned p') /\
       Tournament.findParticipant userId (Tournament.participants t') = Some p' /\
       Tournament.score p' = score' /\
       Tournament.status t' = Tournament.status t /\
       (Tournament.score p <= Tournament.score p' <-> Tournament.score p <= score') /\
       (forall other, other <> userId ->
          Tournament.findParticipant other (Tournament.participants t')
          = Tournament.findParticipant other (Tournament.participants t))).
Proof.
  split.
  - intros Hnone. unfold Tournament.updateParticipantScore. by rewrite Hnone.
  - intros p Hp. unfold Tournament.updateParticipantScore. rewrite Hp.
    eexists _, _. split; [reflexivity|]. simpl.
    split; [by apply updateFirst_find|]. split; [done|]. split; [done|].
    split; [done|]. intros other Hne. by apply updateFirst_other.
Qed.

Lemma updateParticipantScore_overwrites_witness :
  exists t' p',
    Tournament.updateParticipantScore "a" 95 25 [] scenarioTournament = (t', Returned p') /\
    Tournament.score p' = 95.
Proof.
  destruct (proj2 (updateParticipantScore_overwrites "a" 95 25 [] scenarioTournament)
              (Tournament.mkParticipant "a" 1000 90 20 [] 0 0) eq_refl)
    as (t' & p' & Hrun & _ & Hscore & _).
  exists t', p'. split; [exact Hrun|exact Hscore].
Defined.

(** C6 as stated fails: in the active scenario tournament "a" holds 90, and
    an update carrying 10 leaves "a" with 10. *)
Lemma score_update_can_decrease :
  Tournament.status scenarioTournament = Tournament.active /\
  Tournament.score <$>
    Tournament.findParticipant "a" (Tournament.participants scenarioTournament) = Some 90 /\
  Tournament.score <$>
    Tournament.findParticipant "a"
      (Tournament.participants
         (fst (Tournament.updateParticipantScore "a" 10 5 [] scenarioTournament))) = Some 10 /\
  ~ (90 <= 10).
Proof. repeat split; try reflexivity. lia. Qed.

(** * Private tournaments *)

(** C10 (as amended).  For a tournament with [isPrivate = true], [canJoin]
    never returns [canJoin = true], so the join handler rejects every
    request with CANNOT_JOIN and writes nothing.  For a user who is not a
    participant the reason is 'Private tournament' when the roster has
    space and registration is open, and the reason of the earlier failing
    check otherwise: 'Tournament is full' when the roster has no space,
    'Registration is closed' when it has space and registration is not
    open.  A participant is answered 'Already a participant'. *)
Theorem private_tournament_rejects
    (t : Tournament.Tournament) (userId : string) (now : Z) :
  Tournament.isPrivate t = true ->
  Tournament.canJoin_ok (Tournament.canJoin userId now t) = false /\
  (Tournament.findParticipant userId (Tournament.participants t) = None ->
   Tournament.isRegistrationOpen now t = true ->
   Tournament.canJoin userId now t
   = Tournament.mkJoinCheck false (Some "Private tournament")) /\
  (Tournament.findParticipant userId (Tournament.participants t) = None ->
   Tournament.maxParticipants t <= Tournament.count (Tournament.participants t) ->
   Tournament.canJoin userId now t
   = Tournament.mkJoinCheck false (Some "Tournament is full")) /\
  (Tournament.findParticipant userId (Tournament.participants t) = None ->
   Tournament.count (Tournament.participants t) < Tournament.maxParticipants t ->
   Tournament.isRegistrationOpen now t = false ->
   Tournament.canJoin userId now t
   = Tournament.mkJoinCheck false (Some "Registration is closed")) /\
  (forall p, Tournament.findParticipant userId (Tournament.participants t) = Some p ->
   Tournament.canJoin userId now t
   = Tournament.mkJoinCheck false (Some "Already a participant")) /\
  (forall id db now', Routes.tournaments db !! id = Some t ->
     fst (Routes.joinRoute id userId now now' db) = db /\
     Routes.success (snd (Routes.joinRoute id userId now now' db)) = false /\
     Routes.httpStatus (snd (Routes.joinRoute id userId now now' db)) = 400 /\
     Routes.errorCode (snd (Routes.joinRoute id userId now now' db)) = Some "CANNOT_JOIN").
Proof.
  intros Hprivate.
  assert (Hno : Tournament.canJoin_ok (Tournament.canJoin userId now t) = false).
  { unfold Tournament.canJoin. rewrite Hprivate.
    destruct (Tournament.findParticipant _ _); [done|].
    destruct (_ >=? _); [done|]. by destruct (negb _). }
  split; [exact Hno|]. split; [|split; [|split; [|split]]].
  - intros Hnone Hopen. unfold Tournament.canJoin. rewrite Hnone, Hopen, Hprivate. simpl.
    unfold Tournament.isRegistrationOpen in Hopen.
    apply andb_true_iff in Hopen as [_ Hroom]. apply Z.ltb_lt in Hroom.
    destruct (Z.geb_spec (Tournament.count (Tournament.participants t))
                (Tournament.maxParticipants t)); [lia|done].
  - intros Hnone Hfull. unfold Tournament.canJoin. rewrite Hnone.
    destruct (Z.geb_spec (Tournament.count (Tournament.participants t))
                (Tournament.maxParticipants t)); [done|lia].
  - intros Hnone Hroom Hclosed. unfold Tournament.canJoin. rewrite Hnone, Hclosed.
    destruct (Z.geb_spec (Tournament.count (Tournament.participants t))
                (Tournament.maxParticipants t)); [lia|done].
  - intros p Hp. unfold Tournament.canJoin. by rewrite Hp.
  - intros id db now' Ht. unfold Routes.joinRoute. rewrite Ht, Hno. done.
Qed.

Lemma private_tournament_rejects_witness :
  Tournament.canJoin "u2" 1500 openPrivateTournament
  = Tournament.mkJoinCheck false (Some "Private tournament") /\
  Tournament.canJoin "u2" 1500 fullPrivateTournament
  = Tournament.mkJoinCheck false (Some "Tournament is full") /\
  Tournament.canJoin "u2" 2500 openPrivateTournament
  = Tournament.mkJoinCheck false (Some "Registration is closed") /\
  Tournament.canJoin "u1" 1500 openPrivateTournament
  = Tournament.mkJoinCheck false (Some "Already a participant") /\
  fst (Routes.joinRoute "t5" "u2" 1500 1501
         (Routes.mkDB {[ "t5" := openPrivateTournament ]}
                      {[ "u2" := User.mkUser 100 0 100 0 ]} []))
  = Routes.mkDB {[ "t5" := openPrivateTournament ]} {[ "u2" := User.mkUser 100 0 100 0 ]} [].
Proof.
  split; [|split; [|split; [|split]]].
  - exact (proj1 (proj2 (private_tournament_rejects openPrivateTournament "u2" 1500 eq_refl))
             eq_refl eq_refl).
  - refine (proj1 (proj2 (proj2 (private_tournament_rejects fullPrivateTournament "u2" 1500
                                   eq_refl))) eq_refl _).
    vm_compute. discriminate.
  - exact (proj1 (proj2 (proj2 (proj2
             (private_tournament_rejects openPrivateTournament "u2" 2500 eq_refl))))
             eq_refl eq_refl eq_refl).
  - exact (proj1 (proj2 (proj2 (proj2 (proj2
             (private_tournament_rejects openPrivateTournament "u1" 1500 eq_refl)))))
             (Tournament.newParticipant "u1" 1000) eq_refl).
  - refine (proj1 (proj2 (proj2 (proj2 (proj2 (proj2
             (private_tournament_rejects openPrivateTournament "u2" 1500 eq_refl)))))
             "t5" _ 1501 _)).
    reflexivity.
Defined.

(** C10 as stated fails on the reason: "u2" is not a participant of the full
    private tournament, and [canJoin] answers 'Tournament is full'. *)
Lemma private_reason_counterexample :
  Tournament.isPrivate fullPrivateTournament = true /\
  Tournament.findParticipant "u2" (Tournament.participants fullPrivateTournament) = None /\
  Tournament.canJoin "u2" 1500 fullPrivateTournament
  = Tournament.mkJoinCheck false (Some "Tournament is full") /\
  Tournament.reason (Tournament.canJoin "u2" 1500 fullPrivateTournament)
  <> Some "Private tournament".
Proof. repeat split; try reflexivity. discriminate. Qed.

(** * Rate limiter *)

Section RateLimitFacts.
Import QuizSecurity.

(** The checks of [canTakeQuiz] in terms of the record it reads. *)
Lemma canTakeQuiz_result userId difficulty now todayStart svc :
  let d := attemptsOf userId difficulty svc in
  let rules := securityRules svc in
  snd (canTakeQuiz userId difficulty now todayStart svc)
  = if dailyBlocked rules todayStart d then
      mkEligibility false (Some "DAILY_LIMIT_EXCEEDED")
        ("You can only take " +:+ pretty (maxDailyQuizzes rules) +:+ " quizzes per day")
        (Some (todayStart + 24 * 60 * 60 * 1000))
    else if hourlyBlocked rules now d then
      mkEligibility false (Some "HOURLY_LIMIT_EXCEEDED")
        ("You can only take " +:+ pretty (maxHourlyQuizzes rules) +:+ " quizzes per hour")
        (Some (now - 60 * 60 * 1000 + 60 * 60 * 1000))
    else if cooldownBlocked rules now d then
      mkEligibility false (Some "COOLDOWN_ACTIVE")
        ("Please wait "
           +:+ pretty (ceilSeconds (minTimeBetweenQuizzes rules - (now - lastAttempt d)))
           +:+ " seconds before taking another quiz")
        (Some (now + (minTimeBetweenQuizzes rules - (now - lastAttempt d))))
    else if bool_decide (userId ∈ suspiciousUsers svc) then
      mkEligibility false (Some "SUSPICIOUS_ACTIVITY")
        "Your account is under review for suspicious activity" None
    else mkEligibility true None "Quiz allowed" None.
Proof.
  intros d rules. unfold canTakeQuiz.
  set (svc1 := match userAttempts svc !! userKey userId difficulty with
               | Some _ => svc
               | None => _
               end).
  assert (Hd : default emptyUserData (userAttempts svc1 !! userKey userId difficulty) = d).
  { unfold svc1, d, attemptsOf.
    destruct (userAttempts svc !! userKey userId difficulty) eqn:Hk.
    - by rewrite Hk.
    - simpl. by rewrite lookup_insert_eq. }
  assert (Hr : securityRules svc1 = rules).
  { unfold svc1. by destruct (userAttempts svc !! userKey userId difficulty). }
  assert (Hs : suspiciousUsers svc1 = suspiciousUsers svc).
  { unfold svc1. by destruct (userAttempts svc !! userKey userId difficulty). }
  rewrite Hd, Hr, Hs.
  unfold dailyBlocked, hourlyBlocked, cooldownBlocked.
  destruct (len (since todayStart (daily d)) >=? maxDailyQuizzes rules); [done|].
  destruct (len (since (now - 60 * 60 * 1000) (hourly d)) >=? maxHourlyQuizzes rules);
    [done|].
  destruct (negb (lastAttempt d =? 0) && (now - lastAttempt d <? minTimeBetweenQuizzes rules));
    [done|].
  by destruct (bool_decide (userId ∈ suspiciousUsers svc)).
Qed.

(** A call leaves the record of the user as the checks saw it. *)
Lemma canTakeQuiz_keeps userId difficulty now todayStart svc :
  attemptsOf userId difficulty (fst (canTakeQuiz userId difficulty now todayStart svc))
    = attemptsOf userId difficulty svc /\
  securityRules (fst (canTakeQuiz userId difficulty now todayStart svc)) = securityRules svc /\
  suspiciousUsers (fst (canTakeQuiz userId difficulty now todayStart svc))
    = suspiciousUsers svc.
Proof.
  assert (Hfst : fst (canTakeQuiz userId difficulty now todayStart svc)
            = match userAttempts svc !! userKey userId difficulty with
              | Some _ => svc
              | None => mkService (securityRules svc)
                          (<[userKey userId difficulty := emptyUserData]> (userAttempts svc))
                          (suspiciousUsers svc)
              end).
  { unfold canTakeQuiz.
    repeat match goal with |- context [if ?b then _ else _] => destruct b end; done. }
  rewrite Hfst. unfold attemptsOf.
  destruct (userAttempts svc !! userKey userId difficulty) eqn:Hk; [by rewrite Hk|].
  simpl. by rewrite lookup_insert_eq.
Qed.

End RateLimitFacts.

Section BoundaryFacts.
Import QuizSecurity.

(** [since] keeps the times at or after [start], in order. *)
Lemma since_filter start times :
  since start times = filter (fun time => start <= time) times.
Proof.
  unfold since. induction times as [|time times IH]; [done|].
  rewrite filter_cons. cbn [List.filter]. rewrite IH.
  destruct (Z.geb_spec time start), (decide (start <= time)); try lia; done.
Qed.

Lemma dailyBlocked_count rules todayStart d :
  dailyBlocked rules todayStart d = true <->
  maxDailyQuizzes rules
    <= Z.of_nat (length (filter (fun time => todayStart <= time) (daily d))).
Proof.
  unfold dailyBlocked, len. rewrite since_filter, Z.geb_le. done.
Qed.

Lemma hourlyBlocked_count rules now d :
  hourlyBlocked rules now d = true <->
  maxHourlyQuizzes rules
    <= Z.of_nat (length (filter (fun time => now - 3600000 <= time) (hourly d))).
Proof.
  unfold hourlyBlocked, len. rewrite since_filter, Z.geb_le. done.
Qed.

Lemma cooldownBlocked_gap rules now d :
  cooldownBlocked rules now d = true <->
  lastAttempt d <> 0 /\ now - lastAttempt d < minTimeBetweenQuizzes rules.
Proof.
  unfold cooldownBlocked. rewrite andb_true_iff, negb_true_iff, Z.eqb_neq, Z.ltb_lt. done.
Qed.

End BoundaryFacts.

(** C8 (as amended).  Boundaries of [canTakeQuiz], for the record stored
    under the key [userId_difficulty] (an empty one when there is none),
    counting as attempts of today the [daily] times at or after the start
    of the day and as attempts of the last hour the [hourly] times at or
    after [now] minus one hour.  With exactly [maxDailyQuizzes] (10 by
    default) attempts today the answer is a denial with reason
    DAILY_LIMIT_EXCEEDED; with one fewer the daily check passes.  With the
    cooldown at 30 seconds, a last attempt 29 seconds ago is always denied:
    with reason COOLDOWN_ACTIVE when both counts are below their caps, and
    with the reason of the earlier failing check (daily, then hourly)
    otherwise.  A last attempt 31 seconds ago passes the cooldown check
    (the quiz is allowed when both counts are below their caps and the user
    is not flagged suspicious). *)
Theorem rate_limit_boundaries
    (userId difficulty : string) (now todayStart : Z) (svc : QuizSecurity.Service) :
  let d := default (QuizSecurity.mkUserData [] [] 0 0)
             (QuizSecurity.userAttempts svc !! (userId +:+ "_" +:+ difficulty)) in
  let rules := QuizSecurity.securityRules svc in
  let today :=
    Z.of_nat (length (filter (fun time => todayStart <= time) (QuizSecurity.daily d))) in
  let lastHour :=
    Z.of_nat (length (filter (fun time => now - 3600000 <= time) (QuizSecurity.hourly d))) in
  let r := snd (QuizSecurity.canTakeQuiz userId difficulty now todayStart svc) in
  (QuizSecurity.maxDailyQuizzes QuizSecurity.defaultRules = 10 /\
   QuizSecurity.minTimeBetweenQuizzes QuizSecurity.defaultRules = 30000) /\
  (today = QuizSecurity.maxDailyQuizzes rules ->
   QuizSecurity.allowed r = false /\
   QuizSecurity.reason r = Some "DAILY_LIMIT_EXCEEDED") /\
  (today = QuizSecurity.maxDailyQuizzes rules - 1 ->
   QuizSecurity.reason r <> Some "DAILY_LIMIT_EXCEEDED" /\
   (lastHour < QuizSecurity.maxHourlyQuizzes rules ->
    QuizSecurity.lastAttempt d = 0 \/
    QuizSecurity.minTimeBetweenQuizzes rules <= now - QuizSecurity.lastAttempt d ->
    userId ∉ QuizSecurity.suspiciousUsers svc ->
    QuizSecurity.allowed r = true)) /\
  (QuizSecurity.minTimeBetweenQuizzes rules = 30000 ->
   (QuizSecurity.lastAttempt d = now - 29000 -> QuizSecurity.lastAttempt d <> 0 ->
    QuizSecurity.allowed r = false /\
    (today < QuizSecurity.maxDailyQuizzes rules ->
     lastHour < QuizSecurity.maxHourlyQuizzes rules ->
     QuizSecurity.reason r = Some "COOLDOWN_ACTIVE") /\
    (QuizSecurity.maxDailyQuizzes rules <= today ->
     QuizSecurity.reason r = Some "DAILY_LIMIT_EXCEEDED") /\
    (today < QuizSecurity.maxDailyQuizzes rules ->
     QuizSecurity.maxHourlyQuizzes rules <= lastHour ->
     QuizSecurity.reason r = Some "HOURLY_LIMIT_EXCEEDED")) /\
   (QuizSecurity.lastAttempt d = now - 31000 ->
    QuizSecurity.reason r <> Some "COOLDOWN_ACTIVE" /\
    (today < QuizSecurity.maxDailyQuizzes rules ->
     lastHour < QuizSecurity.maxHourlyQuizzes rules ->
     userId ∉ QuizSecurity.suspiciousUsers svc ->
     QuizSecurity.allowed r = true))).
Proof.
  intros d rules today lastHour r. unfold r. rewrite canTakeQuiz_result.
  change (QuizSecurity.attemptsOf userId difficulty svc) with d. fold rules.
  pose proof (dailyBlocked_count rules todayStart d) as Hdaily. fold today in Hdaily.
  pose proof (hourlyBlocked_count rules now d) as Hhourly. fold lastHour in Hhourly.
  pose proof (cooldownBlocked_gap rules now d) as Hcool.
  destruct (QuizSecurity.dailyBlocked rules todayStart d) eqn:Hd;
    [assert (QuizSecurity.maxDailyQuizzes rules <= today) by (by apply Hdaily)
    |assert (today < QuizSecurity.maxDailyQuizzes rules)
       by (destruct (Z.lt_ge_cases today (QuizSecurity.maxDailyQuizzes rules)) as [|Hge];
           [done|apply Hdaily in Hge; done])];
  (destruct (QuizSecurity.hourlyBlocked rules now d) eqn:Hh;
    [assert (QuizSecurity.maxHourlyQuizzes rules <= lastHour) by (by apply Hhourly)
    |assert (lastHour < QuizSecurity.maxHourlyQuizzes rules)
       by (destruct (Z.lt_ge_cases lastHour (QuizSecurity.maxHourlyQuizzes rules)) as [|Hge];
           [done|apply Hhourly in Hge; done])]);
  (destruct (QuizSecurity.cooldownBlocked rules now d) eqn:Hc;
    [assert (QuizSecurity.lastAttempt d <> 0 /\
             now - QuizSecurity.lastAttempt d < QuizSecurity.minTimeBetweenQuizzes rules)
       by (by apply Hcool)
    |assert (~ (QuizSecurity.lastAttempt d <> 0 /\
                now - QuizSecurity.lastAttempt d < QuizSecurity.minTimeBetweenQuizzes rules))
       by (intros Hb; apply Hcool in Hb; done)]);
  clear Hdaily Hhourly Hcool Hd Hh Hc;
  try case_bool_decide;
  cbn [QuizSecurity.allowed QuizSecurity.reason];
  repeat match goal with
         | |- _ /\ _ => split
         | |- _ -> _ => intro
         end;
  first [done | lia | congruence | exfalso; lia].
Qed.

Lemma rate_limit_boundaries_witness :
  QuizSecurity.reason
    (snd (QuizSecurity.canTakeQuiz "u1" "easy" noon midnight (serviceWith tenToday)))
    = Some "DAILY_LIMIT_EXCEEDED" /\
  QuizSecurity.reason
    (snd (QuizSecurity.canTakeQuiz "u1" "easy" noon midnight (serviceWith nineToday)))
    <> Some "DAILY_LIMIT_EXCEEDED" /\
  QuizSecurity.reason
    (snd (QuizSecurity.canTakeQuiz "u1" "easy" noon midnight (serviceWith (oneAttempt 29000))))
    = Some "COOLDOWN_ACTIVE" /\
  QuizSecurity.reason
    (snd (QuizSecurity.canTakeQuiz "u1" "easy" noon midnight (serviceWith threeRecent)))
    = Some "HOURLY_LIMIT_EXCEEDED" /\
  QuizSecurity.allowed
    (snd (QuizSecurity.canTakeQuiz "u1" "easy" noon midnight (serviceWith (oneAttempt 31000))))
    = true.
Proof.
  split; [|split; [|split; [|split]]].
  - refine (proj2 (proj1 (proj2 (rate_limit_boundaries "u1" "easy" noon midnight
                                   (serviceWith tenToday))) _)).
    vm_compute. reflexivity.
  - refine (proj1 (proj1 (proj2 (proj2 (rate_limit_boundaries "u1" "easy" noon midnight
                                          (serviceWith nineToday)))) _)).
    vm_compute. reflexivity.
  - refine (proj1 (proj2 (proj1 (proj2 (proj2 (proj2
              (rate_limit_boundaries "u1" "easy" noon midnight
                 (serviceWith (oneAttempt 29000))))) _) _ _)) _ _).
    + vm_compute. reflexivity.
    + vm_compute. reflexivity.
    + vm_compute. discriminate.
    + vm_compute. reflexivity.
    + vm_compute. reflexivity.
  - refine (proj2 (proj2 (proj2 (proj1 (proj2 (proj2 (proj2
              (rate_limit_boundaries "u1" "easy" noon midnight
                 (serviceWith threeRecent)))) _) _ _))) _ _).
    + vm_compute. reflexivity.
    + vm_compute. reflexivity.
    + vm_compute. discriminate.
    + vm_compute. reflexivity.
    + vm_compute. discriminate.
  - refine (proj2 (proj2 (proj2 (proj2 (proj2
              (rate_limit_boundaries "u1" "easy" noon midnight
                 (serviceWith (oneAttempt 31000))))) _) _) _ _ _).
    + vm_compute. reflexivity.
    + vm_compute. reflexivity.
    + vm_compute. reflexivity.
    + vm_compute. reflexivity.
    + apply not_elem_of_empty.
Defined.

(** C8 as stated fails on the reason: the record of "u1" for "easy" holds
    three attempts within the last hour, the last one 29 seconds ago; with
    the default rules (hourly cap 3, cooldown 30 seconds) the hourly check
    comes first and the denial carries HOURLY_LIMIT_EXCEEDED. *)
Lemma cooldown_reason_counterexample :
  let svc := QuizSecurity.mkService QuizSecurity.defaultRules {[ "u1_easy" := threeRecent ]} ∅ in
  let r := snd (QuizSecurity.canTakeQuiz "u1" "easy" noon midnight svc) in
  QuizSecurity.minTimeBetweenQuizzes (QuizSecurity.securityRules svc) = 30000 /\
  QuizSecurity.lastAttempt threeRecent = noon - 29000 /\
  QuizSecurity.allowed r = false /\
  QuizSecurity.reason r = Some "HOURLY_LIMIT_EXCEEDED" /\
  QuizSecurity.reason r <> Some "COOLDOWN_ACTIVE".
Proof. vm_compute. repeat split; done. Qed.

(** The boundary cases on the sample records, by evaluation. *)
Example boundary_cases :
  let ask d := snd (QuizSecurity.canTakeQuiz "u1" "easy" noon midnight (serviceWith d)) in
  QuizSecurity.reason (ask tenToday) = Some "DAILY_LIMIT_EXCEEDED" /\
  QuizSecurity.allowed (ask nineToday) = true /\
  QuizSecurity.reason (ask (oneAttempt 29000)) = Some "COOLDOWN_ACTIVE" /\
  QuizSecurity.resetTime (ask (oneAttempt 29000)) = Some (noon + 1000) /\
  QuizSecurity.allowed (ask (oneAttempt 31000)) = true.
Proof. vm_compute. repeat split; reflexivity. Qed.

(** * Reset times *)

Section ResetFacts.
Import QuizSecurity.

(** DAILY_LIMIT_EXCEEDED: the reset time is the next day boundary, and with
    no attempt dated at or after it (and a positive cap) the daily check
    passes for the day starting there. *)
Lemma daily_resetTime userId difficulty now todayStart svc :
  let d := attemptsOf userId difficulty svc in
  let r := snd (canTakeQuiz userId difficulty now todayStart svc) in
  reason r = Some "DAILY_LIMIT_EXCEEDED" ->
  resetTime r = Some (todayStart + 86400000) /\
  (0 < maxDailyQuizzes (securityRules svc) ->
   Forall (fun time => time < todayStart + 86400000) (daily d) ->
   dailyBlocked (securityRules svc) (todayStart + 86400000) d = false).
Proof.
  intros d r. unfold r. rewrite canTakeQuiz_result. fold d.
  destruct (dailyBlocked _ todayStart d).
  2:{ destruct (hourlyBlocked _ _ _); [done|].
      destruct (cooldownBlocked _ _ _); [done|]. by destruct (bool_decide _). }
  intros _. split; [done|]. intros Hmax Hpast. unfold dailyBlocked.
  assert (Hnone : since (todayStart + 86400000) (daily d) = []).
  { unfold since. induction Hpast as [|time times Htime _ IH]; simpl; [done|].
    destruct (Z.geb_spec time (todayStart + 86400000)); [lia|exact IH]. }
  rewrite Hnone. unfold len. change (Z.of_nat (length (@nil Z))) with 0.
  destruct (Z.geb_spec 0 (maxDailyQuizzes (securityRules svc))); [lia|done].
Qed.

(** COOLDOWN_ACTIVE: the reset time is the end of the cooldown; the check
    blocks before it and passes from it on. *)
Lemma cooldown_resetTime userId difficulty now todayStart svc :
  let d := attemptsOf userId difficulty svc in
  let rules := securityRules svc in
  let r := snd (canTakeQuiz userId difficulty now todayStart svc) in
  reason r = Some "COOLDOWN_ACTIVE" ->
  resetTime r = Some (lastAttempt d + minTimeBetweenQuizzes rules) /\
  forall later, cooldownBlocked rules later d
                = bool_decide (later < lastAttempt d + minTimeBetweenQuizzes rules).
Proof.
  intros d rules r. unfold r. rewrite canTakeQuiz_result. fold d rules.
  destruct (dailyBlocked _ _ _); [done|]. destruct (hourlyBlocked _ _ _); [done|].
  destruct (cooldownBlocked rules now d) eqn:Hcool.
  2:{ by destruct (bool_decide _). }
  intros _. simpl. split; [f_equal; lia|].
  intros later. unfold cooldownBlocked in *.
  apply andb_true_iff in Hcool as [Hnz _]. rewrite Hnz. simpl.
  destruct (Z.ltb_spec (later - lastAttempt d) (minTimeBetweenQuizzes rules)).
  - by rewrite bool_decide_eq_true_2 by lia.
  - by rewrite bool_decide_eq_false_2 by lia.
Qed.

(** SUSPICIOUS_ACTIVITY carries no reset time. *)
Lemma suspicious_resetTime userId difficulty now todayStart svc :
  let r := snd (canTakeQuiz userId difficulty now todayStart svc) in
  reason r = Some "SUSPICIOUS_ACTIVITY" -> resetTime r = None.
Proof.
  intros r. unfold r. rewrite canTakeQuiz_result.
  destruct (dailyBlocked _ _ _); [done|]. destruct (hourlyBlocked _ _ _); [done|].
  destruct (cooldownBlocked _ _ _); [done|]. by destruct (bool_decide _).
Qed.

End ResetFacts.

(** C9, the hourly case.  When [canTakeQuiz] answers HOURLY_LIMIT_EXCEEDED
    the [resetTime] it returns is [hourStart + 1h], which is the time of the
    call itself: asking again at that very instant is denied for the same
    reason, so the returned instant is not the one at which the hourly
    window frees a slot. *)
Theorem hourly_resetTime_is_call_time
    (userId difficulty : string) (now todayStart : Z) (svc : QuizSecurity.Service) :
  let r := snd (QuizSecurity.canTakeQuiz userId difficulty now todayStart svc) in
  let svc' := fst (QuizSecurity.canTakeQuiz userId difficulty now todayStart svc) in
  QuizSecurity.reason r = Some "HOURLY_LIMIT_EXCEEDED" ->
  QuizSecurity.resetTime r = Some now /\
  QuizSecurity.reason (snd (QuizSecurity.canTakeQuiz userId difficulty now todayStart svc'))
    = Some "HOURLY_LIMIT_EXCEEDED".
Proof.
  intros r svc'. unfold r, svc'.
  rewrite (canTakeQuiz_result userId difficulty now todayStart
             (fst (QuizSecurity.canTakeQuiz userId difficulty now todayStart svc))).
  destruct (canTakeQuiz_keeps userId difficulty now todayStart svc) as (-> & -> & ->).
  rewrite canTakeQuiz_result.
  destruct (QuizSecurity.dailyBlocked _ _ _); [done|].
  destruct (QuizSecurity.hourlyBlocked _ _ _).
  - intros _. split; [|done]. simpl. f_equal. lia.
  - destruct (QuizSecurity.cooldownBlocked _ _ _); [done|]. by destruct (bool_decide _).
Qed.

Lemma hourly_resetTime_is_call_time_witness :
  QuizSecurity.resetTime
    (snd (QuizSecurity.canTakeQuiz "u1" "easy" noon midnight (serviceWith threeThisHour)))
  = Some noon.
Proof.
  refine (proj1 (hourly_resetTime_is_call_time "u1" "easy" noon midnight
                   (serviceWith threeThisHour) _)).
  vm_compute. reflexivity.
Defined.

(** Three attempts ten minutes before noon: denied at noon with
    [resetTime = noon]; the hourly check keeps blocking until 50 minutes
    later and first passes one millisecond after that. *)
Example hourly_window_frees_later :
  let ask now := snd (QuizSecurity.canTakeQuiz "u1" "easy" now midnight
                        (serviceWith threeThisHour)) in
  QuizSecurity.reason (ask noon) = Some "HOURLY_LIMIT_EXCEEDED" /\
  QuizSecurity.resetTime (ask noon) = Some noon /\
  QuizSecurity.reason (ask (noon + 3000000)) = Some "HOURLY_LIMIT_EXCEEDED" /\
  QuizSecurity.allowed (ask (noon + 3000001)) = true.
Proof. vm_compute. repeat split; reflexivity. Qed.

(** * Roster operations *)


(** X1.  [addParticipant] returns exactly when the user is not on the roster
    and registration is open; it then appends one fresh entry for the user
    at the end of the roster, and otherwise throws and leaves the tournament
    as it was.  Either way a roster without duplicate users stays without
    duplicates and a roster within [maxParticipants] stays within it. *)
Theorem addParticipant_roster (userId : string) (now : Z) (t : Tournament.Tournament) :
  let t' := fst (Tournament.addParticipant userId now t) in
  (snd (Tournament.addParticipant userId now t) = Returned () <->
     (userId ∉ Lifecycle.roster t) /\ Tournament.isRegistrationOpen now t = true) /\
  (snd (Tournament.addParticipant userId now t) = Returned () ->
     Tournament.participants t'
     = Tournament.participants t ++ [Tournament.newParticipant userId now]) /\
  (snd (Tournament.addParticipant userId now t) <> Returned () -> t' = t) /\
  (NoDup (Lifecycle.roster t) -> NoDup (Lifecycle.roster t')) /\
  (Tournament.count (Tournament.participants t) <= Tournament.maxParticipants t ->
     Tournament.count (Tournament.participants t') <= Tournament.maxParticipants t').
Proof.
  intros t'. unfold t', Lifecycle.roster.
  destruct (addParticipant_cases userId now t)
    as [(Hnot & Hopen & ->)|(Hwhy & msg & ->)]; simpl.
  - split; [done|]. split; [done|]. split; [done|]. split.
    + intros Hnd. rewrite fmap_app. apply NoDup_app. split; [done|].
      split; [|apply NoDup_singleton].
      intros x Hx. simpl. rewrite list_elem_of_singleton. intros ->. done.
    + intros _. apply isRegistrationOpen_true in Hopen.
      unfold Tournament.count in *. rewrite length_app. simpl. lia.
  - split.
    { split; [done|]. intros [Hnot Hopen]. destruct Hwhy; [done|congruence]. }
    done.
Qed.

Lemma addParticipant_roster_witness :
  Tournament.participants (fst (Tournament.addParticipant "u2" 1500 sampleTournament))
  = [Tournament.newParticipant "u1" 1000; Tournament.newParticipant "u2" 1500].
Proof.
  refine (proj1 (proj2 (addParticipant_roster "u2" 1500 sampleTournament)) _).
  reflexivity.
Defined.


(** X2.  [removeParticipant] returns exactly when the user is on the roster
    and the tournament is neither active nor completed (an upcoming or a
    cancelled one); it then deletes the first roster entry of that user and
    nothing else, so on a roster without duplicate users the user is gone.
    Otherwise it throws and leaves the tournament as it was. *)
Theorem removeParticipant_roster (userId : string) (t : Tournament.Tournament) :
  let t' := fst (Tournament.removeParticipant userId t) in
  (snd (Tournament.removeParticipant userId t) = Returned () <->
     userId ∈ Lifecycle.roster t /\
     Tournament.status t <> Tournament.active /\
     Tournament.status t <> Tournament.completed) /\
  (snd (Tournament.removeParticipant userId t) = Returned () ->
     exists l1 p l2,
       Tournament.participants t = l1 ++ p :: l2 /\ Tournament.user p = userId /\
       (userId ∉ Tournament.user <$> l1) /\
       Tournament.participants t' = l1 ++ l2) /\
  (snd (Tournament.removeParticipant userId t) <> Returned () -> t' = t) /\
  (NoDup (Lifecycle.roster t) ->
     NoDup (Lifecycle.roster t') /\
     (snd (Tournament.removeParticipant userId t) = Returned () ->
      userId ∉ Lifecycle.roster t')).
Proof.
  intros t'. unfold t', Lifecycle.roster.
  destruct (removeParticipant_cases userId t)
    as [(l1 & p & l2 & Hps & Hp & Hnot & Ha & Hc & ->)|(Hwhy & msg & ->)]; simpl.
  - split.
    { split; [intros _|done]. split; [|done].
      rewrite Hps, fmap_app, fmap_cons, Hp. set_solver. }
    split; [intros _; by exists l1, p, l2|]. split; [done|].
    rewrite Hps, !fmap_app, fmap_cons, Hp. intros Hnd.
    apply NoDup_app in Hnd as (Hnd1 & Hdisj & Hnd2).
    apply NoDup_cons in Hnd2 as [Hnot2 Hnd2]. split.
    + apply NoDup_app. split; [done|]. split; [|done].
      intros x Hx1 Hx2. apply (Hdisj x Hx1). by right.
    + intros _. rewrite elem_of_app. by intros [?|?].
  - split.
    { split; [done|]. intros (Hin & Ha & Hc). destruct Hwhy as [?|[?|?]]; done. }
    done.
Qed.

Lemma removeParticipant_roster_witness :
  Tournament.participants (fst (Tournament.removeParticipant "u1" openPrivateTournament))
  = [Tournament.newParticipant "u3" 1100].
Proof.
  destruct (proj1 (proj2 (removeParticipant_roster "u1" openPrivateTournament)) eq_refl)
    as (l1 & p & l2 & Hps & Hp & Hnot & Hafter).
  rewrite Hafter. destruct l1 as [|q l1].
  - simpl in Hps. by injection Hps as _ <-.
  - exfalso. apply Hnot. simpl in Hps. injection Hps as <- _. by left.
Defined.


(** X3.  Joining and leaving undo each other on the model: when
    [addParticipant] returns, [removeParticipant] for the same user returns
    as well and gives back the tournament as it was before the two calls. *)
Theorem add_then_remove (userId : string) (now : Z) (t : Tournament.Tournament) :
  snd (Tournament.addParticipant userId now t) = Returned () ->
  Tournament.removeParticipant userId (fst (Tournament.addParticipant userId now t))
  = (t, Returned ()).
Proof.
  destruct (addParticipant_cases userId now t)
    as [(Hnot & Hopen & ->)|(Hwhy & msg & ->)]; simpl; [intros _|done].
  apply isRegistrationOpen_true in Hopen as (Hup & _ & _).
  apply remove_appended; [done| |]; rewrite Hup; done.
Qed.

Lemma add_then_remove_witness :
  Tournament.removeParticipant "u2"
    (fst (Tournament.addParticipant "u2" 1500 sampleTournament))
  = (sampleTournament, Returned ()).
Proof. apply add_then_remove. reflexivity. Defined.

(** * Join and leave handlers *)

(** X4.  The join handler never answers success, and never stores a
    transaction.  A request answered 404 or 400 (unknown tournament,
    [canJoin] refusal, insufficient balance) writes nothing.  When every
    check passes (the tournament exists, the user has an account and is not
    on the roster, registration is open at both clock reads, the tournament
    is public and the playable balance covers the entry fee) the roster
    with the user appended and the debited account are stored, saving the
    entry-fee transaction fails, and the answer is 500 'Failed to join
    tournament'.  Any other request answered 500 writes nothing. *)
Theorem joinRoute_outcomes (id userId : string) (now now' : Z) (db : Routes.DB) :
  let r := snd (Routes.joinRoute id userId now now' db) in
  let db' := fst (Routes.joinRoute id userId now now' db) in
  Routes.success r = false /\
  Routes.transactions db' = Routes.transactions db /\
  (Routes.httpStatus r <> 500 -> db' = db) /\
  (forall t u,
     Routes.tournaments db !! id = Some t -> Routes.users db !! userId = Some u ->
     (userId ∉ Lifecycle.roster t) -> Tournament.isRegistrationOpen now t = true ->
     Tournament.isPrivate t = false -> Tournament.entryFee t <= User.playableBalance u ->
     Tournament.isRegistrationOpen now' t = true ->
     db' = Effects.joined id userId now' t u db /\
     r = Routes.mkResponse 500 false (Some "INTERNAL_ERROR") "Failed to join tournament") /\
  (db' <> db ->
     exists t u,
       Routes.tournaments db !! id = Some t /\ Routes.users db !! userId = Some u /\
       (userId ∉ Lifecycle.roster t) /\ Tournament.isRegistrationOpen now t = true /\
       Tournament.isPrivate t = false /\ Tournament.entryFee t <= User.playableBalance u /\
       Tournament.isRegistrationOpen now' t = true).
Proof.
  intros r db'. unfold r, db'. clear r db'.
  destruct (joinRoute_cases id userId now now' db)
    as [(t & u & Ht & Hu & Hcan & Hfee & Hopen)|(Hnone & r0 & Hrun & Hfail & H500)].
  - rewrite (joinRoute_passed id userId now now' db t u Ht Hu Hcan Hfee Hopen). cbn [fst snd].
    apply canJoin_true in Hcan as (Hnot & Hopen0 & Hpub).
    split; [done|]. split; [done|]. split; [done|]. split.
    + intros t0 u0 Ht0 Hu0 _ _ _ _ _. by simplify_eq.
    + intros _. by exists t, u.
  - rewrite Hrun. cbn [fst snd]. split; [done|]. split; [done|]. split; [done|]. split; [|done].
    intros t u Ht Hu Hnot Hopen0 Hpub Hfee Hopen. exfalso.
    apply (Hnone t u Ht Hu); [|done..]. by apply canJoin_true.
Qed.

Lemma joinRoute_outcomes_witness :
  fst (Routes.joinRoute "t1" "u2" 1500 1501
         (Routes.saveUser "u2" (User.mkUser 100 0 100 0) sampleDB))
  = Effects.joined "t1" "u2" 1501 sampleTournament (User.mkUser 100 0 100 0)
      (Routes.saveUser "u2" (User.mkUser 100 0 100 0) sampleDB) /\
  snd (Routes.joinRoute "t1" "u2" 1500 1501
         (Routes.saveUser "u2" (User.mkUser 100 0 100 0) sampleDB))
  = Routes.mkResponse 500 false (Some "INTERNAL_ERROR") "Failed to join tournament".
Proof.
  refine (proj1 (proj2 (proj2 (proj2
            (joinRoute_outcomes "t1" "u2" 1500 1501
               (Routes.saveUser "u2" (User.mkUser 100 0 100 0) sampleDB)))))
            sampleTournament (User.mkUser 100 0 100 0) _ _ _ _ _ _ _).
  - reflexivity.
  - reflexivity.
  - apply (bool_decide_unpack _). vm_compute. exact I.
  - reflexivity.
  - reflexivity.
  - vm_compute. discriminate.
  - reflexivity.
Defined.

(** X5.  Ledger effect of a join request that passes every check: the
    stored account has its playable balance lowered by the entry fee and
    still non-negative, the bonus balance and [totalEarned] untouched and
    [balance] the new sum; the user is appended to the stored roster; every
    other tournament and account is as before; and no transaction records
    the debit. *)
Theorem joinRoute_ledger (id userId : string) (now now' : Z) (db : Routes.DB)
    (t : Tournament.Tournament) (u : User.User) :
  Routes.tournaments db !! id = Some t -> Routes.users db !! userId = Some u ->
  Tournament.canJoin_ok (Tournament.canJoin userId now t) = true ->
  Tournament.entryFee t <= User.playableBalance u ->
  Tournament.isRegistrationOpen now' t = true ->
  let db' := fst (Routes.joinRoute id userId now now' db) in
  exists t' u',
    Routes.tournaments db' !! id = Some t' /\ Routes.users db' !! userId = Some u' /\
    Lifecycle.roster t' = Lifecycle.roster t ++ [userId] /\
    User.playableBalance u' = User.playableBalance u - Tournament.entryFee t /\
    0 <= User.playableBalance u' /\
    User.bonusBalance u' = User.bonusBalance u /\
    User.totalEarned u' = User.totalEarned u /\
    User.balance u' = User.playableBalance u' + User.bonusBalance u' /\
    (forall other, other <> id ->
       Routes.tournaments db' !! other = Routes.tournaments db !! other) /\
    (forall other, other <> userId ->
       Routes.users db' !! other = Routes.users db !! other) /\
    Routes.transactions db' = Routes.transactions db.
Proof.
  intros Ht Hu Hcan Hfee Hopen db'. unfold db'.
  rewrite (joinRoute_passed id userId now now' db t u Ht Hu Hcan Hfee Hopen). cbn [fst].
  unfold Effects.joined. cbn [Routes.tournaments Routes.users Routes.transactions].
  eexists _, _. split; [apply lookup_insert_eq|]. split; [apply lookup_insert_eq|].
  unfold Lifecycle.roster. cbn [Tournament.participants Tournament.set_participants
    User.playableBalance User.bonusBalance User.totalEarned User.balance].
  rewrite fmap_app. split; [done|]. split; [done|]. split; [lia|].
  split; [done|]. split; [done|]. split; [done|].
  split; [intros other Hne; by apply lookup_insert_ne|].
  split; [intros other Hne; by apply lookup_insert_ne|done].
Qed.

Lemma joinRoute_ledger_witness :
  exists u', Routes.users (fst (Routes.joinRoute "t1" "u2" 1500 1501
                                  (Routes.saveUser "u2" (User.mkUser 100 0 100 0) sampleDB)))
               !! "u2" = Some u' /\
             User.playableBalance u' = 100 - 20.
Proof.
  destruct (joinRoute_ledger "t1" "u2" 1500 1501
              (Routes.saveUser "u2" (User.mkUser 100 0 100 0) sampleDB)
              sampleTournament (User.mkUser 100 0 100 0))
    as (t' & u' & _ & Hu' & _ & Hp & _).
  - reflexivity.
  - reflexivity.
  - reflexivity.
  - vm_compute. discriminate.
  - reflexivity.
  - exists u'. split; [exact Hu'|exact Hp].
Defined.

(** X6.  The leave handler never answers success, and never stores a
    transaction.  A request answered 404 or 400 (unknown tournament, user
    not on the roster, tournament active or completed) writes nothing.
    Every other request is answered 500 'Failed to leave tournament' after
    the roster without the user's first entry has been stored; when the
    user has an account, the entry fee is credited to it through
    [addBalance] and stored as well, and when there is none no account is
    touched. *)
Theorem leaveRoute_outcomes (id userId : string) (db : Routes.DB) :
  let r := snd (Routes.leaveRoute id userId db) in
  let db' := fst (Routes.leaveRoute id userId db) in
  Routes.success r = false /\
  Routes.transactions db' = Routes.transactions db /\
  (Routes.httpStatus r <> 500 -> db' = db) /\
  (Routes.httpStatus r = 500 <->
     exists t, Routes.tournaments db !! id = Some t /\ userId ∈ Lifecycle.roster t /\
       Tournament.status t <> Tournament.active /\
       Tournament.status t <> Tournament.completed) /\
  (forall t, Routes.tournaments db !! id = Some t -> userId ∈ Lifecycle.roster t ->
     Tournament.status t <> Tournament.active ->
     Tournament.status t <> Tournament.completed ->
     Routes.tournaments db'
       = <[id := fst (Tournament.removeParticipant userId t)]> (Routes.tournaments db) /\
     snd (Tournament.removeParticipant userId t) = Returned () /\
     Routes.users db'
       = match Routes.users db !! userId with
         | Some u => <[userId := User.addBalance (Tournament.entryFee t) "playable" u]>
                       (Routes.users db)
         | None => Routes.users db
         end).
Proof.
  intros r db'. unfold r, db'. clear r db'.
  destruct (leaveRoute_cases id userId db)
    as [(t & Ht & Hin & Ha & Hc)|(r0 & Hrun & Hfail & H500)].
  - rewrite (leaveRoute_passed id userId db t Ht Hin Ha Hc). cbn [fst snd].
    split; [done|]. split; [by destruct (Routes.users db !! userId)|].
    split; [done|]. split; [split; [intros _; by exists t|done]|].
    intros t0 Ht0 _ _ _. simplify_eq. split; [by destruct (Routes.users db !! userId)|].
    split; [|by destruct (Routes.users db !! userId)].
    destruct (removeParticipant_cases userId t)
      as [(l1 & p & l2 & _ & _ & _ & _ & _ & ->)|([Hout|[?|?]] & _)]; done.
  - rewrite Hrun. cbn [fst snd]. split; [done|]. split; [done|]. split; [done|].
    split.
    + split; [done|]. intros (t & Ht & Hin & Ha & Hc). exfalso.
      rewrite (leaveRoute_passed id userId db t Ht Hin Ha Hc) in Hrun.
      injection Hrun as _ <-. done.
    + intros t Ht Hin Ha Hc. exfalso.
      rewrite (leaveRoute_passed id userId db t Ht Hin Ha Hc) in Hrun.
      injection Hrun as _ <-. done.
Qed.

Lemma leaveRoute_outcomes_witness :
  Routes.tournaments (fst (Routes.leaveRoute "t1" "u1" sampleDB))
    = <["t1" := fst (Tournament.removeParticipant "u1" sampleTournament)]>
        (Routes.tournaments sampleDB) /\
  Routes.users (fst (Routes.leaveRoute "t1" "u1" sampleDB))
    = <["u1" := User.addBalance 20 "playable" (User.mkUser 80 0 80 0)]>
        (Routes.users sampleDB).
Proof.
  destruct (proj2 (proj2 (proj2 (proj2 (leaveRoute_outcomes "t1" "u1" sampleDB))))
              sampleTournament) as (Ht & _ & Hu).
  - reflexivity.
  - apply (bool_decide_unpack _). vm_compute. exact I.
  - discriminate.
  - discriminate.
  - split; [exact Ht|exact Hu].
Defined.

(** X7.  Join followed by leave, through the handlers.  After a join
    request that passed every check, the leave request stores the
    tournament document from before the join again and gives the account
    its playable and bonus balances back, with [balance] their sum and
    [totalEarned] grown by the entry fee; every other tournament and
    account is as before, the transaction log is as before, and both
    requests were answered 500. *)
Theorem join_then_leave (id userId : string) (now now' : Z) (db : Routes.DB)
    (t : Tournament.Tournament) (u : User.User) :
  Routes.tournaments db !! id = Some t -> Routes.users db !! userId = Some u ->
  Tournament.canJoin_ok (Tournament.canJoin userId now t) = true ->
  Tournament.entryFee t <= User.playableBalance u ->
  Tournament.isRegistrationOpen now' t = true ->
  let db1 := fst (Routes.joinRoute id userId now now' db) in
  let db2 := fst (Routes.leaveRoute id userId db1) in
  Routes.httpStatus (snd (Routes.joinRoute id userId now now' db)) = 500 /\
  Routes.httpStatus (snd (Routes.leaveRoute id userId db1)) = 500 /\
  Routes.tournaments db2 = Routes.tournaments db /\
  Routes.users db2
    = <[userId := User.mkUser (User.playableBalance u) (User.bonusBalance u)
                    (User.playableBalance u + User.bonusBalance u)
                    (User.totalEarned u + Tournament.entryFee t)]> (Routes.users db) /\
  Routes.transactions db2 = Routes.transactions db.
Proof.
  intros Ht Hu Hcan Hfee Hopen db1 db2. unfold db2, db1. clear db1 db2.
  rewrite (joinRoute_passed id userId now now' db t u Ht Hu Hcan Hfee Hopen). cbn [fst snd].
  apply canJoin_true in Hcan as (Hnot & _ & _).
  apply isRegistrationOpen_true in Hopen as (Hup & _ & _).
  set (t1 := Tournament.set_participants
               (Tournament.participants t ++ [Tournament.newParticipant userId now']) t).
  assert (Hrm : Tournament.removeParticipant userId t1 = (t, Returned ())).
  { apply remove_appended; [done| |]; rewrite Hup; done. }
  assert (Hin : userId ∈ Tournament.user <$> Tournament.participants t1).
  { unfold t1. cbn [Tournament.participants Tournament.set_participants].
    rewrite fmap_app. set_solver. }
  rewrite (leaveRoute_passed id userId (Effects.joined id userId now' t u db) t1
             (lookup_insert_eq _ _ _));
    [|done|change (Tournament.status t1) with (Tournament.status t); by rewrite Hup..].
  rewrite Hrm. change (Tournament.entryFee t1) with (Tournament.entryFee t).
  unfold Effects.joined, Routes.saveUser, Routes.saveTournament.
  cbn [fst snd Routes.httpStatus Routes.tournaments Routes.users Routes.transactions].
  rewrite lookup_insert_eq.
  cbn [Routes.tournaments Routes.users Routes.transactions].
  split; [done|]. split; [done|].
  split; [by rewrite insert_insert_eq, insert_id|].
  split; [|done]. rewrite insert_insert_eq. f_equal.
  unfold User.addBalance. cbn. f_equal; lia.
Qed.

Lemma join_then_leave_witness :
  Routes.users
    (fst (Routes.leaveRoute "t1" "u2"
            (fst (Routes.joinRoute "t1" "u2" 1500 1501
                    (Routes.saveUser "u2" (User.mkUser 100 0 100 0) sampleDB)))))
  = <["u2" := User.mkUser 100 0 (100 + 0) (0 + 20)]>
      (Routes.users (Routes.saveUser "u2" (User.mkUser 100 0 100 0) sampleDB)).
Proof.
  refine (proj1 (proj2 (proj2 (proj2
            (join_then_leave "t1" "u2" 1500 1501
               (Routes.saveUser "u2" (User.mkUser 100 0 100 0) sampleDB)
               sampleTournament (User.mkUser 100 0 100 0) _ _ _ _ _))))).
  - reflexivity.
  - reflexivity.
  - reflexivity.
  - vm_compute. discriminate.
  - reflexivity.
Defined.

(** * Life cycle *)

Section LifecycleFacts.
Import Tournament Lifecycle.

Lemma updateFirst_users userId s ts ans ps :
  user <$> updateFirst userId s ts ans ps = user <$> ps.
Proof.
  induction ps as [|p ps IH]; [done|]. cbn [updateFirst].
  destruct (String.eqb (user p) userId); [done|].
  rewrite !fmap_cons. by rewrite IH.
Qed.

Lemma assignRanks_users ps i : user <$> assignRanks i ps = user <$> ps.
Proof. revert i; induction ps as [|p ps IH]; intros; simpl; [done|]. by rewrite IH. Qed.

Lemma completeTournament_users now t :
  roster (fst (completeTournament now t)) ≡ₚ roster t.
Proof.
  unfold roster. destruct (decide (status t = active)) as [Hactive|Hne].
  - destruct (completeTournament_roster now t Hactive) as (f & Hf & -> & _).
    rewrite <- list_fmap_compose.
    rewrite (list_fmap_ext (user ∘ f) user
               (assignRanks 0 (js_sort compareParticipants (participants t)))).
    + rewrite assignRanks_users. by rewrite js_sort_perm.
    + intros i p _. simpl. destruct (Hf p) as [_ He]. unfold entry in He. congruence.
  - by rewrite completeTournament_inactive.
Qed.

Lemma completeTournament_maxParticipants now t :
  maxParticipants (fst (completeTournament now t)) = maxParticipants t.
Proof.
  unfold completeTournament. destruct (bool_decide (status t = active)); simpl; [|done].
  unfold distributePrizes, calculateRankings. simpl.
  destruct (assignRanks 0 (js_sort compareParticipants (participants t)));
    simpl; by destruct (prizeDistribution t).
Qed.

Lemma completeTournament_status now t :
  status (fst (completeTournament now t)) = status t \/
  (status t = active /\ status (fst (completeTournament now t)) = completed).
Proof.
  destruct (decide (status t = active)) as [Hactive|Hne].
  - right. split; [done|].
    destruct (completeTournament_active now t Hactive) as (t' & -> & Hs & _). done.
  - left. by rewrite completeTournament_inactive.
Qed.

Lemma startTournament_cases now t :
  (status t = upcoming /\ minParticipants t <= count (participants t) /\
   startTournament now t
   = (set_actualStartTime now (set_phase quiz (set_status active t)), Returned ())) \/
  ((status t <> upcoming \/ count (participants t) < minParticipants t) /\
   exists msg, startTournament now t = (t, Thrown msg)).
Proof.
  unfold startTournament. destruct (decide (status t = upcoming)) as [Hup|Hne].
  - rewrite bool_decide_eq_true_2 by done. simpl.
    destruct (Z.ltb_spec (count (participants t)) (minParticipants t)).
    + right. split; [by right|by eexists].
    + left. done.
  - rewrite bool_decide_eq_false_2 by done. simpl. right. split; [by left|by eexists].
Qed.

(** One call moves the status along upcoming, active, completed or not at
    all, never changes [maxParticipants], and keeps the bound and the
    absence of duplicates on the roster. *)
Lemma call_step c t :
  (status (call c t) = status t \/
   (status t = upcoming /\ status (call c t) = active) \/
   (status t = active /\ status (call c t) = completed)) /\
  maxParticipants (call c t) = maxParticipants t /\
  (NoDup (roster t) -> NoDup (roster (call c t))) /\
  (count (participants t) <= maxParticipants t ->
   count (participants (call c t)) <= maxParticipants t) /\
  (status t <> upcoming -> status t <> cancelled -> roster (call c t) ≡ₚ roster t).
Proof.
  destruct c as [userId now|userId|now|now|userId s ts ans]; simpl.
  - destruct (addParticipant_cases userId now t)
      as [(Hnot & Hopen & ->)|(_ & msg & ->)]; simpl; [|by auto 10].
    apply isRegistrationOpen_true in Hopen as (Hup & _ & Hroom).
    split; [by left|]. split; [done|]. unfold roster. simpl. rewrite fmap_app.
    split; [|split; [|done]].
    + intros Hnd. apply NoDup_app. split; [done|]. split; [|apply NoDup_singleton].
      intros x Hx. simpl. rewrite list_elem_of_singleton. by intros ->.
    + intros _. unfold count in *. rewrite length_app. simpl. lia.
  - destruct (removeParticipant_cases userId t)
      as [(l1 & p & l2 & Hps & Hp & Hnot & Ha & Hc & ->)|(_ & msg & ->)]; simpl;
      [|by auto 10].
    split; [by left|]. split; [done|]. unfold roster. simpl. rewrite Hps.
    rewrite !fmap_app, fmap_cons. split; [|split].
    + intros Hnd. apply NoDup_app in Hnd as (Hnd1 & Hdisj & Hnd2).
      apply NoDup_cons in Hnd2 as [_ Hnd2]. apply NoDup_app. split; [done|].
      split; [|done]. intros x Hx1 Hx2. apply (Hdisj x Hx1). by right.
    + unfold count. rewrite !length_app. simpl. lia.
    + intros Hnu Hnc. destruct (status t); done.
  - destruct (startTournament_cases now t) as [(Hup & _ & ->)|(_ & msg & ->)]; simpl;
      [|by auto 10].
    split; [right; left; done|]. done.
  - split; [|split; [apply completeTournament_maxParticipants|split; [|split]]].
    + destruct (completeTournament_status now t) as [?|?]; auto.
    + intros Hnd. by rewrite completeTournament_users.
    + intros Hle. unfold count in *.
      pose proof (Permutation_length (completeTournament_users now t)) as Hlen.
      unfold roster in Hlen. rewrite !length_fmap in Hlen. lia.
    + intros _ _. apply completeTournament_users.
  - unfold updateParticipantScore.
    destruct (findParticipant userId (participants t)); simpl; [|by auto 10].
    split; [by left|]. split; [done|]. unfold roster, count. simpl.
    rewrite updateFirst_users. split; [done|]. split; [|done].
    intros Hle. rewrite <- (length_fmap user), updateFirst_users, length_fmap. done.
Qed.

End LifecycleFacts.

(** X8.  The status only moves forward.  Whatever sequence of
    [addParticipant], [removeParticipant], [startTournament],
    [completeTournament] and [updateParticipantScore] calls is made,
    returning or throwing, the status never goes back on the path upcoming,
    active, completed, and a completed or cancelled tournament keeps its
    status for good. *)
Theorem status_forward_only (cs : list Lifecycle.Call) (t : Tournament.Tournament) :
  Lifecycle.stage (Tournament.status t)
    <= Lifecycle.stage (Tournament.status (Lifecycle.calls cs t)) /\
  (Tournament.status t = Tournament.completed \/ Tournament.status t = Tournament.cancelled ->
   Tournament.status (Lifecycle.calls cs t) = Tournament.status t).
Proof.
  revert t. induction cs as [|c cs IH]; intros t; simpl; [split; [lia|done]|].
  destruct (IH (Lifecycle.call c t)) as [Hle Hterm].
  destruct (call_step c t) as ([Hs|[[Hu Hs]|[Ha Hs]]] & _).
  - rewrite Hs in Hle, Hterm. done.
  - rewrite Hs in Hle. rewrite Hu. simpl in *. split; [lia|]. by intros [?|?].
  - rewrite Hs in Hle. rewrite Ha. simpl in *. split; [lia|]. by intros [?|?].
Qed.

Lemma status_forward_only_witness :
  Tournament.status
    (Lifecycle.calls sampleCalls
       (fst (Tournament.completeTournament 5000 scenarioTournament)))
  = Tournament.completed.
Proof.
  exact (proj2 (status_forward_only sampleCalls
                  (fst (Tournament.completeTournament 5000 scenarioTournament)))
           (or_introl eq_refl)).
Defined.

(** X9.  Once a tournament is active or completed its roster is frozen: no
    sequence of model calls adds or removes a user; completion only
    reorders the entries. *)
Theorem roster_frozen (cs : list Lifecycle.Call) (t : Tournament.Tournament) :
  Tournament.status t = Tournament.active \/ Tournament.status t = Tournament.completed ->
  Lifecycle.roster (Lifecycle.calls cs t) ≡ₚ Lifecycle.roster t.
Proof.
  revert t. induction cs as [|c cs IH]; intros t Hstarted; simpl; [done|].
  destruct (call_step c t) as (Hstep & _ & _ & _ & Hfrozen).
  rewrite IH.
  - apply Hfrozen; destruct Hstarted as [-> | ->]; done.
  - destruct Hstep as [->|[[Hu _]|[_ ->]]]; [done| |by right].
    destruct Hstarted; congruence.
Qed.

Lemma roster_frozen_witness :
  Lifecycle.roster (Lifecycle.calls sampleCalls scenarioTournament)
  ≡ₚ Lifecycle.roster scenarioTournament.
Proof. apply roster_frozen. left. reflexivity. Defined.

(** X10.  Roster bound.  A roster without duplicate users and with at most
    [maxParticipants] entries stays so under every sequence of model calls,
    and [maxParticipants] itself never changes. *)
Theorem roster_invariant (cs : list Lifecycle.Call) (t : Tournament.Tournament) :
  NoDup (Lifecycle.roster t) ->
  Tournament.count (Tournament.participants t) <= Tournament.maxParticipants t ->
  NoDup (Lifecycle.roster (Lifecycle.calls cs t)) /\
  Tournament.count (Tournament.participants (Lifecycle.calls cs t))
    <= Tournament.maxParticipants (Lifecycle.calls cs t) /\
  Tournament.maxParticipants (Lifecycle.calls cs t) = Tournament.maxParticipants t.
Proof.
  revert t. induction cs as [|c cs IH]; intros t Hnd Hle; simpl; [done|].
  destruct (call_step c t) as (_ & Hmax & Hnd' & Hle' & _).
  destruct (IH (Lifecycle.call c t)) as (H1 & H2 & H3).
  - by apply Hnd'.
  - rewrite Hmax. by apply Hle'.
  - rewrite H3, Hmax in *. done.
Qed.

Lemma roster_invariant_witness :
  NoDup (Lifecycle.roster (Lifecycle.calls sampleCalls sampleTournament)).
Proof.
  refine (proj1 (roster_invariant sampleCalls sampleTournament _ _)).
  - apply (bool_decide_unpack _). vm_compute. exact I.
  - vm_compute. discriminate.
Defined.

(** The sample run on the open tournament: "u2" joins, the start succeeds,
    the late join and the leave are refused, and the second start is
    refused after completion. *)
Example sample_run :
  let t := Lifecycle.calls sampleCalls sampleTournament in
  Tournament.status t = Tournament.completed /\
  (fun p => (Tournament.user p, Tournament.rank p, Tournament.prize p))
    <$> Tournament.participants t = [("u2", 1, 50); ("u1", 2, 30)].
Proof. vm_compute. done. Qed.

(** * Top list *)

Section TopFacts.
Import Tournament.

Lemma completeTournament_top now t :
  status t = active ->
  topParticipants (fst (completeTournament now t))
  = toTop <$> take 10 (assignRanks 0 (js_sort compareParticipants (participants t))).
Proof.
  intros Hactive. unfold completeTournament. rewrite Hactive. simpl.
  unfold distributePrizes, calculateRankings. simpl.
  destruct (assignRanks 0 (js_sort compareParticipants (participants t)));
    simpl; by destruct (prizeDistribution t).
Qed.

End TopFacts.

(** X11.  [topParticipants] after completion lists the first ten entries of
    the final ranking with their user, score and rank.  Its [prize] field is
    copied before the prizes are distributed: when the participants held no
    prize before completion, every [topParticipants] entry shows prize 0,
    whatever the roster entry of the same user was awarded. *)
Theorem topParticipants_snapshot (now : Z) (t : Tournament.Tournament) :
  Tournament.status t = Tournament.active ->
  let t' := fst (Tournament.completeTournament now t) in
  length (Tournament.topParticipants t')
    = Nat.min 10 (length (Tournament.participants t)) /\
  (forall i e, Tournament.topParticipants t' !! i = Some e ->
     exists p, Tournament.participants t' !! i = Some p /\
       Tournament.top_user e = Tournament.user p /\
       Tournament.top_score e = Tournament.score p /\
       Tournament.top_rank e = Tournament.rank p /\
       Tournament.top_rank e = Z.of_nat i + 1) /\
  (Forall (fun p => Tournament.prize p = 0) (Tournament.participants t) ->
   Forall (fun e => Tournament.top_prize e = 0) (Tournament.topParticipants t')).
Proof.
  intros Hactive t'. unfold t'.
  rewrite (completeTournament_top now t Hactive).
  set (ranked := Tournament.assignRanks 0
                   (Tournament.js_sort Tournament.compareParticipants
                      (Tournament.participants t))).
  split; [|split].
  - rewrite length_fmap, length_take. unfold ranked.
    rewrite assignRanks_length.
    rewrite (Permutation_length (js_sort_perm Tournament.compareParticipants
                                   (Tournament.participants t))). lia.
  - intros i e. rewrite list_lookup_fmap.
    destruct (take 10 ranked !! i) as [p0|] eqn:Hp0; [|done]. simpl. intros [= <-].
    apply lookup_take_Some in Hp0 as [Hp0 _].
    destruct (completeTournament_roster now t Hactive) as (f & Hf & -> & _).
    fold ranked. rewrite list_lookup_fmap, Hp0. simpl. exists (f p0).
    destruct (Hf p0) as [Hr He]. unfold Tournament.entry in He. split; [done|].
    unfold ranked in Hp0. rewrite assignRanks_lookup in Hp0.
    destruct (_ !! i) as [q|]; [|done]. simpl in Hp0. injection Hp0 as <-.
    simpl in *. repeat split; congruence.
  - intros Hzero. rewrite Forall_fmap. apply Forall_take.
    eapply Forall_impl; [apply (ranked_no_prize t Hzero)|]. done.
Qed.

Lemma topParticipants_snapshot_witness :
  Forall (fun e => Tournament.top_prize e = 0)
    (Tournament.topParticipants (fst (Tournament.completeTournament 5000 scenarioTournament))).
Proof.
  refine (proj2 (proj2 (topParticipants_snapshot 5000 scenarioTournament eq_refl)) _).
  repeat constructor.
Defined.

(** The scenario: "b" is awarded 50 on the roster and listed with 0. *)
Example scenario_top_list :
  let t' := fst (Tournament.completeTournament 5000 scenarioTournament) in
  (fun e => (Tournament.top_user e, Tournament.top_rank e, Tournament.top_prize e))
    <$> Tournament.topParticipants t' = [("b", 1, 0); ("a", 2, 0); ("c", 3, 0)] /\
  Tournament.prize <$> Tournament.participants t' = [50; 30; 20].
Proof. vm_compute. done. Qed.

(** * Payout *)

(** X12.  Payout of the completion handler.  For an active tournament the
    handler stores the completed tournament and never stores a
    transaction.  When no participant of the completed roster has both a
    positive prize and an account, no account is touched and the answer is
    200.  Otherwise the first such participant in rank order is credited
    its prize through [addBalance] and stored; saving its prize transaction
    then fails, so no later participant is credited, whatever prize its
    roster entry carries, and the answer is 500 'Failed to complete
    tournament'. *)
Theorem completeRoute_payout (id : string) (now : Z) (db : Routes.DB)
    (t : Tournament.Tournament) :
  Routes.tournaments db !! id = Some t ->
  Tournament.status t = Tournament.active ->
  let db' := fst (Routes.completeRoute id now db) in
  let r := snd (Routes.completeRoute id now db) in
  let t' := fst (Tournament.completeTournament now t) in
  Routes.tournaments db' = <[id := t']> (Routes.tournaments db) /\
  Routes.transactions db' = Routes.transactions db /\
  (Forall (fun p => ~ Effects.payable db p) (Tournament.participants t') ->
     Routes.users db' = Routes.users db /\
     r = Routes.mkResponse 200 true None "Tournament completed successfully") /\
  (forall l1 p l2 u,
     Tournament.participants t' = l1 ++ p :: l2 ->
     Forall (fun q => ~ Effects.payable db q) l1 ->
     0 < Tournament.prize p -> Routes.users db !! Tournament.user p = Some u ->
     Routes.users db'
       = <[Tournament.user p := User.addBalance (Tournament.prize p) "playable" u]>
           (Routes.users db) /\
     r = Routes.mkResponse 500 false (Some "INTERNAL_ERROR")
           "Failed to complete tournament").
Proof.
  intros Ht Hactive db' r t'.
  destruct (completeRoute_stored id now db t Ht Hactive) as [Hts Htx].
  split; [exact Hts|]. split; [exact Htx|].
  unfold db', r, Routes.completeRoute. rewrite Ht.
  destruct (completeTournament_active now t Hactive) as (t1 & Hrun & _).
  assert (Ht1 : t' = t1) by (unfold t'; by rewrite Hrun).
  rewrite Hrun, Ht1. cbv zeta. split.
  - intros Hall.
    rewrite (payPrizes_none t1 _ (Routes.saveTournament id t1 db)); [done|].
    exact Hall.
  - intros l1 p l2 u Hps Hl1 Hpos Hu. rewrite Hps.
    rewrite (payPrizes_first t1 l1 p l2 (Routes.saveTournament id t1 db) u); done.
Qed.

Lemma completeRoute_payout_witness :
  Routes.users (fst (Routes.completeRoute "t2" 5000 scenarioDB))
    = <["b" := User.addBalance 50 "playable" (User.mkUser 0 0 0 0)]>
        (Routes.users scenarioDB) /\
  snd (Routes.completeRoute "t2" 5000 scenarioDB)
    = Routes.mkResponse 500 false (Some "INTERNAL_ERROR") "Failed to complete tournament".
Proof.
  refine (proj2 (proj2 (proj2
            (completeRoute_payout "t2" 5000 scenarioDB scenarioTournament _ _)))
            [] (Tournament.mkParticipant "b" 1001 90 15 [] 1 50)
            [Tournament.mkParticipant "a" 1000 90 20 [] 2 30;
             Tournament.mkParticipant "c" 1002 70 30 [] 3 20]
            (User.mkUser 0 0 0 0) _ _ _ _).
  - reflexivity.
  - reflexivity.
  - reflexivity.
  - constructor.
  - reflexivity.
  - reflexivity.
Defined.

(** * Start handler *)

(** X13.  The start handler succeeds exactly when the tournament exists, is
    upcoming and has at least [minParticipants] participants.  It then
    stores the tournament as active, in phase quiz, started at [now], with
    the roster as it was, and a second start request is refused.  A refused
    request writes nothing. *)
Theorem startRoute_once (id : string) (now : Z) (db : Routes.DB) :
  let r := snd (AdminRoutes.startRoute id now db) in
  let db' := fst (AdminRoutes.startRoute id now db) in
  (Routes.success r = true <->
     exists t, Routes.tournaments db !! id = Some t /\
       Tournament.status t = Tournament.upcoming /\
       Tournament.minParticipants t <= Tournament.count (Tournament.participants t)) /\
  (Routes.success r = false -> db' = db) /\
  (Routes.success r = true ->
     (exists t t', Routes.tournaments db !! id = Some t /\
        Routes.tournaments db' !! id = Some t' /\
        Tournament.status t' = Tournament.active /\ Tournament.phase t' = Tournament.quiz /\
        Tournament.actualStartTime t' = Some now /\
        Tournament.participants t' = Tournament.participants t) /\
     forall later,
       Routes.success (snd (AdminRoutes.startRoute id later db')) = false /\
       fst (AdminRoutes.startRoute id later db') = db').
Proof.
  intros r db'. unfold r, db', AdminRoutes.startRoute.
  destruct (Routes.tournaments db !! id) as [t|] eqn:Ht; simpl.
  2:{ split; [split; [done|by intros (? & ? & _)]|done]. }
  destruct (startTournament_cases now t) as [(Hup & Hmin & ->)|(Hwhy & msg & ->)]; simpl.
  - split; [split; [intros _; by exists t|done]|]. split; [done|]. intros _. split.
    + eexists t, _. split; [done|]. split; [apply lookup_insert_eq|]. done.
    + intros later. rewrite lookup_insert_eq.
      destruct (startTournament_cases later
                  (Tournament.set_actualStartTime now
                     (Tournament.set_phase Tournament.quiz
                        (Tournament.set_status Tournament.active t))))
        as [(Hup' & _)|(_ & msg & ->)]; [done|]. done.
  - split; [|done]. split; [done|].
    intros (t0 & [= <-] & Hup & Hmin). destruct Hwhy; [done|lia].
Qed.

Lemma startRoute_once_witness :
  fst (AdminRoutes.startRoute "t2" 6000 scenarioDB) = scenarioDB.
Proof.
  refine (proj1 (proj2 (startRoute_once "t2" 6000 scenarioDB)) _).
  vm_compute. reflexivity.
Defined.

(** * Experience and rank *)

Section ProgressionFacts.
Import Progression.

Lemma addXP_cases amount u :
  (level u * 100 <= xp u + amount /\
   addXP amount u
   = (mkProgress (level u + 1) (xp u + amount - level u * 100) (totalXP u + amount)
        (rankAt (level u + 1)), true)) \/
  (xp u + amount < level u * 100 /\
   addXP amount u
   = (mkProgress (level u) (xp u + amount) (totalXP u + amount) (rank u), false)).
Proof.
  unfold addXP. simpl. destruct (Z.geb_spec (xp u + amount) (level u * 100)); auto.
Qed.

End ProgressionFacts.

(** X14.  [updateRank] is monotone in the level: a higher level never gets
    a lower rank; Bronze is held exactly below level 10 and Diamond exactly
    from level 50 on. *)
Theorem rank_monotone (l l' : Z) :
  l <= l' ->
  Progression.rankIndex (Progression.rank
     (Progression.updateRank (Progression.mkProgress l 0 0 Progression.Bronze)))
  <= Progression.rankIndex (Progression.rank
       (Progression.updateRank (Progression.mkProgress l' 0 0 Progression.Bronze))) /\
  (Progression.rankAt l = Progression.Bronze <-> l < 10) /\
  (Progression.rankAt l = Progression.Diamond <-> 50 <= l).
Proof.
  intros Hle. unfold Progression.updateRank, Progression.rankAt. simpl.
  repeat match goal with
         | |- context [?a >=? ?b] => destruct (Z.geb_spec a b)
         end; simpl; try lia; repeat split; try done; try lia.
Qed.

Lemma rank_monotone_witness :
  Progression.rankAt 9 = Progression.Bronze <-> 9 < 10.
Proof. exact (proj1 (proj2 (rank_monotone 9 30 ltac:(lia)))). Defined.

(** X15.  One [addXP] call raises the level by at most one, and the returned
    flag tells whether it did: the level goes up exactly when the
    experience after the award reaches [level * 100].  A large award is not
    carried further: after a level up the remaining experience still
    reaches the next threshold exactly when the award covered both
    thresholds. *)
Theorem addXP_one_level (amount : Z) (u : Progression.Progress) :
  let u' := fst (Progression.addXP amount u) in
  let up := snd (Progression.addXP amount u) in
  (up = true <-> Progression.level u * 100 <= Progression.xp u + amount) /\
  Progression.level u' = Progression.level u + (if up then 1 else 0) /\
  Progression.totalXP u' = Progression.totalXP u + amount /\
  Progression.xp u' = Progression.xp u + amount
                      - (if up then Progression.level u * 100 else 0) /\
  (up = true ->
     (Progression.level u' * 100 <= Progression.xp u' <->
      Progression.level u * 100 + (Progression.level u + 1) * 100
        <= Progression.xp u + amount)).
Proof.
  intros u' up. unfold u', up.
  destruct (addXP_cases amount u) as [[Hge ->]|[Hlt ->]]; simpl.
  - repeat split; try done; try lia.
  - repeat split; try done; try lia.
Qed.

Lemma addXP_one_level_witness :
  Progression.level (fst (Progression.addXP 1000 Progression.newProgress)) = 2 /\
  Progression.xp (fst (Progression.addXP 1000 Progression.newProgress)) = 900.
Proof.
  destruct (addXP_one_level 1000 Progression.newProgress) as (_ & Hl & _ & Hx & _).
  split; [exact Hl|exact Hx].
Defined.

(** X16.  Accounting of experience over any sequence of [addXP] calls from a
    new user (level 1, no experience, Bronze): the level is at least 1 and
    never decreases, [totalXP] is the current [xp] plus the thresholds
    100, 200, ..., 100 * (level - 1) already paid, which sum to
    50 * level * (level - 1), and the stored rank is the one [updateRank]
    gives for the level. *)
Theorem addXP_accounting (amounts : list Z) :
  let u := Progression.addXPs amounts Progression.newProgress in
  1 <= Progression.level u /\
  Progression.level u <= 1 + Z.of_nat (length amounts) /\
  Progression.totalXP u
    = Progression.xp u + 50 * Progression.level u * (Progression.level u - 1) /\
  Progression.rank u = Progression.rankAt (Progression.level u) /\
  (Forall (fun amount => 0 <= amount) amounts -> 0 <= Progression.xp u).
Proof.
  assert (Hgen : forall amounts u0 n,
    1 <= Progression.level u0 ->
    Progression.level u0 <= 1 + n ->
    Progression.totalXP u0
      = Progression.xp u0 + 50 * Progression.level u0 * (Progression.level u0 - 1) ->
    Progression.rank u0 = Progression.rankAt (Progression.level u0) ->
    let u := Progression.addXPs amounts u0 in
    1 <= Progression.level u /\
    Progression.level u <= 1 + n + Z.of_nat (length amounts) /\
    Progression.totalXP u
      = Progression.xp u + 50 * Progression.level u * (Progression.level u - 1) /\
    Progression.rank u = Progression.rankAt (Progression.level u) /\
    (0 <= Progression.xp u0 -> Forall (fun amount => 0 <= amount) amounts ->
     0 <= Progression.xp u)).
  { clear amounts. induction amounts as [|a amounts IH]; intros u0 n H1 Hn Hsum Hrank.
    - simpl. repeat split; try done. lia.
    - unfold Progression.addXPs in *. cbn [fold_left].
      destruct (addXP_cases a u0) as [[Hge Hrun]|[Hlt Hrun]]; rewrite Hrun; cbn [fst].
      + edestruct (IH (Progression.mkProgress (Progression.level u0 + 1)
                         (Progression.xp u0 + a - Progression.level u0 * 100)
                         (Progression.totalXP u0 + a)
                         (Progression.rankAt (Progression.level u0 + 1))) (n + 1))
          as (I1 & I2 & I3 & I4 & I5); simpl; try lia; try done.
        split; [exact I1|]. split; [cbn [length]; lia|].
        split; [exact I3|]. split; [exact I4|].
        intros Hx Hall. inversion Hall; subst. apply I5; [simpl; lia|done].
      + edestruct (IH (Progression.mkProgress (Progression.level u0)
                         (Progression.xp u0 + a) (Progression.totalXP u0 + a)
                         (Progression.rank u0)) n)
          as (I1 & I2 & I3 & I4 & I5); simpl; try lia; try done.
        split; [exact I1|]. split; [cbn [length]; lia|].
        split; [exact I3|]. split; [exact I4|].
        intros Hx Hall. inversion Hall; subst. apply I5; [simpl; lia|done]. }
  intros u. destruct (Hgen amounts Progression.newProgress 0) as (I1 & I2 & I3 & I4 & I5);
    simpl; try lia; try done.
  repeat split; try done; try lia. intros Hall. apply I5; simpl; [lia|done].
Qed.

Lemma addXP_accounting_witness :
  0 <= Progression.xp (Progression.addXPs [60; 70; 250] Progression.newProgress).
Proof.
  refine (proj2 (proj2 (proj2 (proj2 (addXP_accounting [60; 70; 250])))) _).
  repeat constructor; lia.
Defined.

(** * Rate limiter: what a check and a recording do to the state *)

Section ServiceFacts.
Import QuizSecurity SecurityOps.

Lemma since_app start l1 l2 : since start (l1 ++ l2) = since start l1 ++ since start l2.
Proof. unfold since. apply List.filter_app. Qed.

Lemma since_twice start l : since start (since start l) = since start l.
Proof.
  unfold since. induction l as [|x l IH]; simpl; [done|].
  destruct (x >=? start) eqn:Hx; simpl; [|done]. by rewrite Hx, IH.
Qed.

Lemma since_older start start' l :
  start' <= start -> since start (since start' l) = since start l.
Proof.
  intros Hle. unfold since. induction l as [|x l IH]; simpl; [done|].
  destruct (Z.geb_spec x start'); simpl.
  - by rewrite IH.
  - rewrite IH. destruct (Z.geb_spec x start); [lia|done].
Qed.

Lemma len_app l1 l2 : len (l1 ++ l2) = len l1 + len l2.
Proof. unfold len. rewrite length_app. lia. Qed.

Lemma len_nonneg l : 0 <= len l.
Proof. unfold len. lia. Qed.

(** A check changes no record, no rule and no flag that any check reads. *)
Lemma canTakeQuiz_readonly userId difficulty now todayStart svc userId' difficulty' :
  attemptsOf userId' difficulty'
    (fst (canTakeQuiz userId difficulty now todayStart svc))
  = attemptsOf userId' difficulty' svc.
Proof.
  assert (Hfst : fst (canTakeQuiz userId difficulty now todayStart svc)
            = match userAttempts svc !! userKey userId difficulty with
              | Some _ => svc
              | None => mkService (securityRules svc)
                          (<[userKey userId difficulty := emptyUserData]> (userAttempts svc))
                          (suspiciousUsers svc)
              end).
  { unfold canTakeQuiz.
    repeat match goal with |- context [if ?b then _ else _] => destruct b end; done. }
  rewrite Hfst. unfold attemptsOf.
  destruct (userAttempts svc !! userKey userId difficulty) eqn:Hk; [done|]. simpl.
  destruct (decide (userKey userId difficulty = userKey userId' difficulty')) as [Heq|Hne].
  - rewrite <- Heq, lookup_insert_eq, Hk. done.
  - by rewrite lookup_insert_ne.
Qed.

(** The record [recordQuizAttempt] stores for the user. *)
Lemma recordQuizAttempt_record userId difficulty score timeSpent answers now todayStart svc :
  let d := attemptsOf userId difficulty svc in
  let svc' := fst (recordQuizAttempt userId difficulty score timeSpent answers
                     now todayStart svc) in
  attemptsOf userId difficulty svc'
  = mkUserData (since todayStart (daily d ++ [now]))
               (since (now - 60 * 60 * 1000) (hourly d ++ [now]))
               now
               (consecutiveAfter (securityRules svc) score d) /\
  securityRules svc' = securityRules svc /\
  suspiciousUsers svc'
  = (if suspicious (snd (recordQuizAttempt userId difficulty score timeSpent answers
                           now todayStart svc))
     then {[userId]} ∪ suspiciousUsers svc else suspiciousUsers svc).
Proof.
  intros d svc'. unfold svc', recordQuizAttempt, detectSuspiciousActivity, attemptsOf.
  simpl. rewrite lookup_insert_eq. simpl. split; [|done].
  unfold consecutiveAfter. simpl. done.
Qed.

End ServiceFacts.

(** X17.  [canTakeQuiz] consumes nothing: apart from creating an empty
    record for a user it has not seen, it leaves rules, flags and attempt
    windows alone, so every later check, for any user, difficulty and time,
    answers the same whether or not this check was made. *)
Theorem canTakeQuiz_consumes_nothing
    (userId difficulty : string) (now todayStart : Z) (svc : QuizSecurity.Service)
    (userId' difficulty' : string) (now' todayStart' : Z) :
  let svc' := fst (QuizSecurity.canTakeQuiz userId difficulty now todayStart svc) in
  snd (QuizSecurity.canTakeQuiz userId' difficulty' now' todayStart' svc')
  = snd (QuizSecurity.canTakeQuiz userId' difficulty' now' todayStart' svc) /\
  QuizSecurity.securityRules svc' = QuizSecurity.securityRules svc /\
  QuizSecurity.suspiciousUsers svc' = QuizSecurity.suspiciousUsers svc.
Proof.
  intros svc'. unfold svc'.
  destruct (canTakeQuiz_keeps userId difficulty now todayStart svc) as (_ & Hr & Hs).
  split; [|done]. rewrite !canTakeQuiz_result.
  by rewrite canTakeQuiz_readonly, Hr, Hs.
Qed.

(** X18.  Recording an attempt takes one slot of the day and one of the
    hour: after [recordQuizAttempt] at [now] (on the day starting at
    [todayStart <= now]) the number of attempts counted for today and the
    number counted for the hour ending at [now] are both one higher, the
    last attempt is [now], and the call reports success.  An attempt that
    fills the daily cap makes the next check of that day answer
    DAILY_LIMIT_EXCEEDED. *)
Theorem recordQuizAttempt_takes_slot
    (userId difficulty : string) (score timeSpent : Z)
    (answers : option (list SecurityOps.QuizAnswer)) (now todayStart : Z)
    (svc : QuizSecurity.Service) :
  todayStart <= now ->
  let d := QuizSecurity.attemptsOf userId difficulty svc in
  let run := SecurityOps.recordQuizAttempt userId difficulty score timeSpent answers
               now todayStart svc in
  let d' := QuizSecurity.attemptsOf userId difficulty (fst run) in
  SecurityOps.recorded (snd run) = true /\
  QuizSecurity.len (QuizSecurity.since todayStart (QuizSecurity.daily d'))
    = QuizSecurity.len (QuizSecurity.since todayStart (QuizSecurity.daily d)) + 1 /\
  QuizSecurity.len (QuizSecurity.since (now - 3600000) (QuizSecurity.hourly d'))
    = QuizSecurity.len (QuizSecurity.since (now - 3600000) (QuizSecurity.hourly d)) + 1 /\
  QuizSecurity.lastAttempt d' = now /\
  (QuizSecurity.maxDailyQuizzes (QuizSecurity.securityRules svc) - 1
     <= QuizSecurity.len (QuizSecurity.since todayStart (QuizSecurity.daily d)) ->
   forall later,
     QuizSecurity.reason
       (snd (QuizSecurity.canTakeQuiz userId difficulty later todayStart (fst run)))
     = Some "DAILY_LIMIT_EXCEEDED").
Proof.
  intros Hday d run d'.
  destruct (recordQuizAttempt_record userId difficulty score timeSpent answers
              now todayStart svc) as (Hd' & Hrules & _).
  fold d in Hd'. fold run in Hd', Hrules. fold d' in Hd'.
  assert (Hdaily : QuizSecurity.len (QuizSecurity.since todayStart (QuizSecurity.daily d'))
                   = QuizSecurity.len (QuizSecurity.since todayStart (QuizSecurity.daily d))
                     + 1).
  { rewrite Hd'. simpl. rewrite since_twice, since_app, len_app. f_equal.
    unfold QuizSecurity.since. simpl. destruct (Z.geb_spec now todayStart); [done|lia]. }
  split; [done|]. split; [exact Hdaily|]. split; [|split].
  - rewrite Hd'. simpl. change (60 * 60 * 1000) with 3600000.
    rewrite since_twice, since_app, len_app. f_equal.
    unfold QuizSecurity.since. simpl. destruct (Z.geb_spec now (now - 3600000)); [done|lia].
  - by rewrite Hd'.
  - intros Hcap later. rewrite canTakeQuiz_result. fold d'. rewrite Hrules.
    unfold QuizSecurity.dailyBlocked. rewrite Hdaily.
    destruct (Z.geb_spec
                (QuizSecurity.len (QuizSecurity.since todayStart (QuizSecurity.daily d)) + 1)
                (QuizSecurity.maxDailyQuizzes (QuizSecurity.securityRules svc)));
      [done|lia].
Qed.

Lemma recordQuizAttempt_takes_slot_witness :
  QuizSecurity.reason
    (snd (QuizSecurity.canTakeQuiz "u1" "easy" (noon + 60000) midnight
            (fst (SecurityOps.recordQuizAttempt "u1" "easy" 70 120000 None noon midnight
                    (serviceWith nineEarlier)))))
  = Some "DAILY_LIMIT_EXCEEDED".
Proof.
  refine (proj2 (proj2 (proj2 (proj2
            (recordQuizAttempt_takes_slot "u1" "easy" 70 120000 None noon midnight
               (serviceWith nineEarlier) _)))) _ (noon + 60000)).
  - vm_compute. discriminate.
  - vm_compute. discriminate.
Defined.

(** X19.  Cooldown after a recording: once an attempt is recorded at a
    non-zero clock value [now], no check for the same user and difficulty
    made before [now + minTimeBetweenQuizzes] is allowed, whatever else the
    state holds. *)
Theorem recordQuizAttempt_starts_cooldown
    (userId difficulty : string) (score timeSpent : Z)
    (answers : option (list SecurityOps.QuizAnswer)) (now todayStart : Z)
    (svc : QuizSecurity.Service) (later todayStart' : Z) :
  now <> 0 ->
  later < now + QuizSecurity.minTimeBetweenQuizzes (QuizSecurity.securityRules svc) ->
  QuizSecurity.allowed
    (snd (QuizSecurity.canTakeQuiz userId difficulty later todayStart'
            (fst (SecurityOps.recordQuizAttempt userId difficulty score timeSpent answers
                    now todayStart svc))))
  = false.
Proof.
  intros Hnz Hsoon.
  destruct (recordQuizAttempt_record userId difficulty score timeSpent answers
              now todayStart svc) as (Hd' & Hrules & _).
  rewrite canTakeQuiz_result, Hrules, Hd'.
  destruct (QuizSecurity.dailyBlocked _ _ _); [done|].
  destruct (QuizSecurity.hourlyBlocked _ _ _); [done|].
  unfold QuizSecurity.cooldownBlocked. simpl.
  apply Z.eqb_neq in Hnz. rewrite Hnz. simpl.
  destruct (Z.ltb_spec (later - now)
              (QuizSecurity.minTimeBetweenQuizzes (QuizSecurity.securityRules svc)));
    [done|lia].
Qed.

Lemma recordQuizAttempt_starts_cooldown_witness :
  QuizSecurity.allowed
    (snd (QuizSecurity.canTakeQuiz "u7" "hard" (noon + 29999) midnight
            (fst (SecurityOps.recordQuizAttempt "u7" "hard" 70 120000 None noon midnight
                    (serviceWith nineEarlier)))))
  = false.
Proof.
  apply recordQuizAttempt_starts_cooldown.
  - vm_compute. discriminate.
  - vm_compute. reflexivity.
Defined.

(** * Fraud heuristics *)

Section HeuristicFacts.
Import QArith_base SecurityOps.
Local Open Scope Z_scope.

Lemma Qlt_bool_true a b : Qlt_bool a b = true <-> Qlt a b.
Proof.
  unfold Qlt_bool. rewrite negb_true_iff. split.
  - intros Hle. apply Qnot_le_lt. intros H. apply Qle_bool_iff in H. congruence.
  - intros Hlt. destruct (Qle_bool b a) eqn:Hle; [|done].
    apply Qle_bool_iff in Hle. exfalso. by apply (Qlt_not_le a b).
Qed.

(** The mean time per question is below [bound] exactly when the total time
    is below [bound] times the number of questions counted. *)
Lemma avg_below timeSpent answers bound :
  Qlt_bool (avgTimePerQuestion timeSpent answers) (inject_Z bound) = true <->
  timeSpent < bound * answerCount answers.
Proof.
  rewrite Qlt_bool_true. unfold avgTimePerQuestion.
  assert (Hpos : 0 < answerCount answers).
  { unfold answerCount. destruct answers as [[|a l]|]; cbn [length]; lia. }
  assert (HposQ : Qlt (inject_Z 0) (inject_Z (answerCount answers))).
  { by rewrite <- Zlt_Qlt. }
  split.
  - intros Hlt. rewrite Zlt_Qlt, inject_Z_mult.
    apply (Qmult_lt_r _ _ _ HposQ) in Hlt.
    rewrite Qmult_comm, Qmult_div_r in Hlt; [exact Hlt|].
    intros Heq. rewrite Heq in HposQ. by apply Qlt_irrefl in HposQ.
  - intros Hlt. apply Qlt_shift_div_r; [exact HposQ|].
    rewrite <- inject_Z_mult. by rewrite <- Zlt_Qlt.
Qed.

Lemma all_correct_percentage l :
  l <> [] -> Forall (fun a => isCorrect a = true) l ->
  Qeq_bool (correctPercentage l) (inject_Z 100) = true.
Proof.
  intros Hne Hall. apply Qeq_bool_iff. unfold correctPercentage.
  assert (Hfilter : List.filter isCorrect l = l).
  { clear Hne. induction Hall as [|a l Ha _ IH]; simpl; [done|]. by rewrite Ha, IH. }
  rewrite Hfilter.
  assert (Hn : ~ Qeq (inject_Z (Z.of_nat (length l))) (inject_Z 0)).
  { intros Heq. unfold Qeq in Heq. cbn [Qnum Qden inject_Z] in Heq.
    destruct l; [done|]. cbn [length] in Heq. lia. }
  unfold Qdiv. rewrite (Qmult_inv_r _ Hn). apply Qmult_1_l.
Qed.

End HeuristicFacts.

(** The answers counted and the flags on the sample answers. *)
Example answer_counts :
  SecurityOps.answerCount None = 1 /\ SecurityOps.answerCount (Some []) = 1 /\
  SecurityOps.answerCount (Some perfectAnswers) = 4 /\
  SecurityOps.suspiciousFlags QuizSecurity.defaultRules 100 4200 (Some perfectAnswers)
    QuizSecurity.emptyUserData = 2 /\
  SecurityOps.suspiciousFlags QuizSecurity.defaultRules 100 60000 (Some perfectAnswers)
    QuizSecurity.emptyUserData = 0.
Proof. vm_compute. done. Qed.

(** X20.  A perfect and fast attempt is flagged, and the flag sticks.  When
    every answer of a non-empty attempt is correct and the total time is
    below [timePerQuestionMin] (at most 10 s) per answer, [recordQuizAttempt]
    reports the attempt as suspicious and puts the user in the suspicious
    set; from then on no check for this user is allowed, at any difficulty
    and any time, until [clearSuspiciousFlag] takes the user out again. *)
Theorem perfect_and_fast_is_flagged
    (userId difficulty : string) (score timeSpent : Z)
    (answers : list SecurityOps.QuizAnswer) (now todayStart : Z)
    (svc : QuizSecurity.Service) :
  answers <> [] ->
  Forall (fun a => SecurityOps.isCorrect a = true) answers ->
  QuizSecurity.timePerQuestionMin (QuizSecurity.securityRules svc) <= 10000 ->
  timeSpent < QuizSecurity.timePerQuestionMin (QuizSecurity.securityRules svc)
              * Z.of_nat (length answers) ->
  let run := SecurityOps.recordQuizAttempt userId difficulty score timeSpent (Some answers)
               now todayStart svc in
  SecurityOps.suspicious (snd run) = true /\
  userId ∈ QuizSecurity.suspiciousUsers (fst run) /\
  (forall difficulty' later todayStart',
     QuizSecurity.allowed
       (snd (QuizSecurity.canTakeQuiz userId difficulty' later todayStart' (fst run)))
     = false) /\
  (userId ∉ QuizSecurity.suspiciousUsers (SecurityOps.clearSuspiciousFlag userId (fst run))).
Proof.
  intros Hne Hall Hmin Hfast run.
  assert (Hcount : SecurityOps.answerCount (Some answers) = Z.of_nat (length answers)).
  { destruct answers; [done|reflexivity]. }
  assert (Hflag2 : SecurityOps.flagTooFast (QuizSecurity.securityRules svc) timeSpent
                     (Some answers) = true).
  { unfold SecurityOps.flagTooFast. apply avg_below. by rewrite Hcount. }
  assert (Hflag4 : SecurityOps.flagPerfectAndQuick timeSpent (Some answers) = true).
  { assert (Hquick : SecurityOps.Qlt_bool
                         (SecurityOps.avgTimePerQuestion timeSpent (Some answers))
                         (QArith_base.inject_Z 10000) = true).
    { apply avg_below. rewrite Hcount.
      assert (0 <= Z.of_nat (length answers)) by lia. nia. }
    pose proof (all_correct_percentage answers Hne Hall) as Hperfect.
    unfold SecurityOps.flagPerfectAndQuick.
    destruct answers as [|a l]; [done|]. by rewrite Hperfect, Hquick. }
  assert (Hverdict : SecurityOps.suspicious (snd run) = true).
  { unfold run, SecurityOps.recordQuizAttempt, SecurityOps.detectSuspiciousActivity.
    cbn [snd SecurityOps.suspicious].
    unfold SecurityOps.suspiciousFlags. rewrite Hflag2, Hflag4.
    apply Z.geb_le. change (Z.b2z true) with 1.
    destruct (SecurityOps.flagHighScores _ _ _), (SecurityOps.flagTooSlow _ _ _),
      (SecurityOps.flagUniformTiming _); simpl; lia. }
  destruct (recordQuizAttempt_record userId difficulty score timeSpent (Some answers)
              now todayStart svc) as (_ & _ & Hsusp).
  fold run in Hsusp. rewrite Hverdict in Hsusp.
  assert (Hin : userId ∈ QuizSecurity.suspiciousUsers (fst run)).
  { rewrite Hsusp. apply elem_of_union_l. by apply elem_of_singleton. }
  split; [exact Hverdict|]. split; [exact Hin|]. split.
  - intros difficulty' later todayStart'. rewrite canTakeQuiz_result.
    destruct (QuizSecurity.dailyBlocked _ _ _); [done|].
    destruct (QuizSecurity.hourlyBlocked _ _ _); [done|].
    destruct (QuizSecurity.cooldownBlocked _ _ _); [done|].
    by rewrite bool_decide_eq_true_2.
  - unfold SecurityOps.clearSuspiciousFlag. simpl.
    rewrite elem_of_difference, elem_of_singleton. by intros [_ ?].
Qed.

Lemma perfect_and_fast_is_flagged_witness :
  SecurityOps.suspicious
    (snd (SecurityOps.recordQuizAttempt "u1" "easy" 100 4200 (Some perfectAnswers)
            noon midnight (serviceWith nineEarlier))) = true.
Proof.
  refine (proj1 (perfect_and_fast_is_flagged "u1" "easy" 100 4200 perfectAnswers
                   noon midnight (serviceWith nineEarlier) _ _ _ _)).
  - discriminate.
  - repeat constructor.
  - vm_compute. discriminate.
  - vm_compute. reflexivity.
Defined.

(** * Administration of the rate limiter *)

Section AdminFacts.
Import QuizSecurity SecurityOps.

Lemma attemptsOf_reset userId difficulty svc :
  attemptsOf userId difficulty (resetUserAttempts userId difficulty svc) = emptyUserData.
Proof. unfold attemptsOf, resetUserAttempts. simpl. by rewrite lookup_delete_eq. Qed.

Lemma cleanupRecord_windows weekAgo start d :
  weekAgo <= start ->
  since start (daily (default emptyUserData (cleanupRecord weekAgo d)))
    = since start (daily d) /\
  since start (hourly (default emptyUserData (cleanupRecord weekAgo d)))
    = since start (hourly d).
Proof.
  intros Hle. unfold cleanupRecord.
  rewrite <- (since_older start weekAgo (daily d) Hle).
  rewrite <- (since_older start weekAgo (hourly d) Hle).
  by destruct (since weekAgo (daily d)), (since weekAgo (hourly d)).
Qed.

Lemma attemptsOf_cleanup userId difficulty now svc :
  attemptsOf userId difficulty (cleanup now svc)
  = default emptyUserData
      (userAttempts svc !! userKey userId difficulty
         ≫= cleanupRecord (now - 7 * 24 * 60 * 60 * 1000)).
Proof. unfold attemptsOf, cleanup. simpl. by rewrite lookup_omap. Qed.

End AdminFacts.

(** X21.  [clearSuspiciousFlag] lifts exactly the suspicion block of that
    user: a check that was denied for SUSPICIOUS_ACTIVITY is now allowed,
    every other answer for this user (the rate limits still apply) and every
    answer for any other user is as before. *)
Theorem clearSuspiciousFlag_lifts_block
    (cleared userId difficulty : string) (now todayStart : Z) (svc : QuizSecurity.Service) :
  let before := snd (QuizSecurity.canTakeQuiz userId difficulty now todayStart svc) in
  let after := snd (QuizSecurity.canTakeQuiz userId difficulty now todayStart
                      (SecurityOps.clearSuspiciousFlag cleared svc)) in
  (cleared = userId -> QuizSecurity.reason before = Some "SUSPICIOUS_ACTIVITY" ->
   after = QuizSecurity.mkEligibility true None "Quiz allowed" None) /\
  (cleared <> userId \/ QuizSecurity.reason before <> Some "SUSPICIOUS_ACTIVITY" ->
   after = before).
Proof.
  intros before after. unfold before, after. rewrite !canTakeQuiz_result.
  unfold QuizSecurity.attemptsOf, SecurityOps.clearSuspiciousFlag. simpl.
  destruct (QuizSecurity.dailyBlocked _ _ _); [by split; [intros _ ?|]|].
  destruct (QuizSecurity.hourlyBlocked _ _ _); [by split; [intros _ ?|]|].
  destruct (QuizSecurity.cooldownBlocked _ _ _); [by split; [intros _ ?|]|].
  destruct (decide (userId ∈ QuizSecurity.suspiciousUsers svc)) as [Hin|Hout].
  - rewrite (bool_decide_eq_true_2 _ Hin). split.
    + intros -> _. rewrite bool_decide_eq_false_2; [done|].
      rewrite elem_of_difference, elem_of_singleton. by intros [_ ?].
    + intros [Hne|Hr]; [|done]. rewrite bool_decide_eq_true_2; [done|].
      rewrite elem_of_difference, elem_of_singleton. split; [done|congruence].
  - rewrite (bool_decide_eq_false_2 _ Hout). split; [done|]. intros _.
    rewrite bool_decide_eq_false_2; [done|].
    rewrite elem_of_difference. by intros [? _].
Qed.

Lemma clearSuspiciousFlag_lifts_block_witness :
  QuizSecurity.allowed
    (snd (QuizSecurity.canTakeQuiz "u1" "hard" (noon + 60000) midnight
            (SecurityOps.clearSuspiciousFlag "u1"
               (fst (SecurityOps.recordQuizAttempt "u1" "easy" 100 4200 (Some perfectAnswers)
                       noon midnight (serviceWith nineEarlier))))))
  = true.
Proof.
  rewrite (proj1 (clearSuspiciousFlag_lifts_block "u1" "u1" "hard" (noon + 60000) midnight
                    (fst (SecurityOps.recordQuizAttempt "u1" "easy" 100 4200
                            (Some perfectAnswers) noon midnight (serviceWith nineEarlier))))
             eq_refl).
  - reflexivity.
  - vm_compute. reflexivity.
Defined.

(** X22.  [resetUserAttempts] wipes the record of one user and difficulty:
    with positive daily and hourly caps the next check for that user and
    difficulty passes every rate limit and is allowed exactly when the user
    is not flagged suspicious, and the flag itself is not touched. *)
Theorem resetUserAttempts_clears_limits
    (userId difficulty : string) (now todayStart : Z) (svc : QuizSecurity.Service) :
  0 < QuizSecurity.maxDailyQuizzes (QuizSecurity.securityRules svc) ->
  0 < QuizSecurity.maxHourlyQuizzes (QuizSecurity.securityRules svc) ->
  let svc' := SecurityOps.resetUserAttempts userId difficulty svc in
  let r := snd (QuizSecurity.canTakeQuiz userId difficulty now todayStart svc') in
  QuizSecurity.suspiciousUsers svc' = QuizSecurity.suspiciousUsers svc /\
  (QuizSecurity.allowed r = true <-> (userId ∉ QuizSecurity.suspiciousUsers svc)) /\
  (QuizSecurity.allowed r = false -> QuizSecurity.reason r = Some "SUSPICIOUS_ACTIVITY").
Proof.
  intros Hday Hhour svc' r. unfold r, svc'. rewrite canTakeQuiz_result.
  rewrite attemptsOf_reset. split; [done|].
  unfold QuizSecurity.dailyBlocked, QuizSecurity.hourlyBlocked,
    QuizSecurity.cooldownBlocked. simpl.
  change (QuizSecurity.len []) with 0.
  destruct (Z.geb_spec 0 (QuizSecurity.maxDailyQuizzes (QuizSecurity.securityRules svc)));
    [lia|].
  destruct (Z.geb_spec 0 (QuizSecurity.maxHourlyQuizzes (QuizSecurity.securityRules svc)));
    [lia|].
  destruct (decide (userId ∈ QuizSecurity.suspiciousUsers svc)) as [Hin|Hout].
  - rewrite (bool_decide_eq_true_2 _ Hin). simpl. split; [|done]. split; done.
  - rewrite (bool_decide_eq_false_2 _ Hout). simpl. split; [|done]. split; done.
Qed.

Lemma resetUserAttempts_clears_limits_witness :
  QuizSecurity.allowed
    (snd (QuizSecurity.canTakeQuiz "u1" "easy" noon midnight
            (SecurityOps.resetUserAttempts "u1" "easy" (serviceWith tenToday)))) = true.
Proof.
  apply (proj1 (proj2 (resetUserAttempts_clears_limits "u1" "easy" noon midnight
                         (serviceWith tenToday) ltac:(vm_compute; reflexivity)
                         ltac:(vm_compute; reflexivity)))).
  apply not_elem_of_empty.
Defined.

(** X23.  [getUserQuizStats] and [canTakeQuiz] agree for a user with a
    record: the statistics show no remaining daily quiz exactly when the
    check answers DAILY_LIMIT_EXCEEDED, an HOURLY_LIMIT_EXCEEDED answer
    comes with no remaining hourly quiz, and an allowed check comes with
    remaining quizzes in both windows and no suspicious mark; the remaining
    numbers are never negative. *)
Theorem getUserQuizStats_agrees
    (userId difficulty : string) (now todayStart : Z) (svc : QuizSecurity.Service)
    (d : QuizSecurity.UserData) :
  QuizSecurity.userAttempts svc !! QuizSecurity.userKey userId difficulty = Some d ->
  let stats := SecurityOps.getUserQuizStats userId difficulty now todayStart svc in
  let r := snd (QuizSecurity.canTakeQuiz userId difficulty now todayStart svc) in
  exists remDaily remHourly,
    SecurityOps.remainingDaily stats = Some remDaily /\
    SecurityOps.remainingHourly stats = Some remHourly /\
    0 <= remDaily /\ 0 <= remHourly /\
    (remDaily = 0 <-> QuizSecurity.reason r = Some "DAILY_LIMIT_EXCEEDED") /\
    (QuizSecurity.reason r = Some "HOURLY_LIMIT_EXCEEDED" -> remHourly = 0) /\
    (QuizSecurity.allowed r = true ->
       0 < remDaily /\ 0 < remHourly /\ SecurityOps.isSuspicious stats = false).
Proof.
  intros Hd stats r. unfold stats, r, SecurityOps.getUserQuizStats.
  rewrite Hd, canTakeQuiz_result. unfold QuizSecurity.attemptsOf. rewrite Hd. simpl.
  eexists _, _. split; [reflexivity|]. split; [reflexivity|].
  split; [lia|]. split; [lia|].
  unfold QuizSecurity.dailyBlocked, QuizSecurity.hourlyBlocked.
  change (60 * 60 * 1000) with 3600000.
  set (today := QuizSecurity.len (QuizSecurity.since todayStart (QuizSecurity.daily d))).
  set (hour := QuizSecurity.len (QuizSecurity.since (now - 3600000) (QuizSecurity.hourly d))).
  destruct (Z.geb_spec today (QuizSecurity.maxDailyQuizzes (QuizSecurity.securityRules svc))).
  { simpl. split; [split; [done|lia]|]. split; [done|done]. }
  destruct (Z.geb_spec hour (QuizSecurity.maxHourlyQuizzes (QuizSecurity.securityRules svc))).
  { simpl. split; [split; [lia|done]|]. split; [lia|done]. }
  destruct (QuizSecurity.cooldownBlocked _ _ _).
  { simpl. split; [split; [lia|done]|]. split; [done|done]. }
  destruct (bool_decide (userId ∈ QuizSecurity.suspiciousUsers svc)); simpl.
  - split; [split; [lia|done]|]. split; [done|done].
  - split; [split; [lia|done]|]. split; [done|]. intros _. repeat split; [lia|lia].
Qed.

Lemma getUserQuizStats_agrees_witness :
  SecurityOps.remainingDaily
    (SecurityOps.getUserQuizStats "u1" "easy" noon midnight (serviceWith tenToday))
  = Some 0.
Proof.
  destruct (getUserQuizStats_agrees "u1" "easy" noon midnight (serviceWith tenToday)
              tenToday) as (rd & rh & Hrd & _ & _ & _ & Hzero & _).
  - vm_compute. reflexivity.
  - rewrite Hrd. f_equal. apply Hzero. vm_compute. reflexivity.
Defined.

Section CleanupFacts.
Import QuizSecurity SecurityOps.

Lemma cleanupRecord_fixed weekAgo d d' :
  cleanupRecord weekAgo d = Some d' -> cleanupRecord weekAgo d' = Some d'.
Proof.
  unfold cleanupRecord.
  destruct (length (since weekAgo (daily d)) =? 0)%nat eqn:Hd;
    destruct (length (since weekAgo (hourly d)) =? 0)%nat eqn:Hh; simpl;
    intros [= <-]; simpl; rewrite !since_twice, Hd, Hh; done.
Qed.

Lemma cleanupRecord_nonempty weekAgo d d' :
  cleanupRecord weekAgo d = Some d' -> daily d' <> [] \/ hourly d' <> [].
Proof.
  unfold cleanupRecord.
  destruct (since weekAgo (daily d)) as [|x l];
    destruct (since weekAgo (hourly d)) as [|y k]; simpl; intros [= <-]; simpl; auto.
Qed.

End CleanupFacts.

(** X24.  [cleanup] forgets nothing the caps still count and never expires
    a flag.  For a day starting within the last week and an hour window
    within the last week, a check answers DAILY_LIMIT_EXCEEDED, or
    HOURLY_LIMIT_EXCEEDED, after the sweep exactly when it did before; the
    suspicious set is untouched; every record that survives has a
    non-empty window; and sweeping twice at the same time is sweeping
    once. *)
Theorem cleanup_keeps_limits
    (now : Z) (svc : QuizSecurity.Service) (userId difficulty : string)
    (later todayStart : Z) :
  now - 604800000 <= todayStart ->
  now - 604800000 <= later - 3600000 ->
  let svc' := SecurityOps.cleanup now svc in
  let before := snd (QuizSecurity.canTakeQuiz userId difficulty later todayStart svc) in
  let after := snd (QuizSecurity.canTakeQuiz userId difficulty later todayStart svc') in
  (QuizSecurity.reason after = Some "DAILY_LIMIT_EXCEEDED"
     <-> QuizSecurity.reason before = Some "DAILY_LIMIT_EXCEEDED") /\
  (QuizSecurity.reason after = Some "HOURLY_LIMIT_EXCEEDED"
     <-> QuizSecurity.reason before = Some "HOURLY_LIMIT_EXCEEDED") /\
  QuizSecurity.suspiciousUsers svc' = QuizSecurity.suspiciousUsers svc /\
  (forall key d, QuizSecurity.userAttempts svc' !! key = Some d ->
     QuizSecurity.daily d <> [] \/ QuizSecurity.hourly d <> []) /\
  SecurityOps.cleanup now svc' = svc'.
Proof.
  intros Hday Hhour svc' before after.
  assert (Hwin : forall start, now - 604800000 <= start ->
            QuizSecurity.since start
              (QuizSecurity.daily (QuizSecurity.attemptsOf userId difficulty svc'))
            = QuizSecurity.since start
                (QuizSecurity.daily (QuizSecurity.attemptsOf userId difficulty svc)) /\
            QuizSecurity.since start
              (QuizSecurity.hourly (QuizSecurity.attemptsOf userId difficulty svc'))
            = QuizSecurity.since start
                (QuizSecurity.hourly (QuizSecurity.attemptsOf userId difficulty svc))).
  { intros start Hstart. unfold svc'. rewrite attemptsOf_cleanup.
    unfold QuizSecurity.attemptsOf.
    change (7 * 24 * 60 * 60 * 1000) with 604800000.
    destruct (QuizSecurity.userAttempts svc !! QuizSecurity.userKey userId difficulty)
      as [d|]; simpl; [|done].
    by apply cleanupRecord_windows. }
  assert (Hd : QuizSecurity.dailyBlocked (QuizSecurity.securityRules svc) todayStart
                 (QuizSecurity.attemptsOf userId difficulty svc')
               = QuizSecurity.dailyBlocked (QuizSecurity.securityRules svc) todayStart
                   (QuizSecurity.attemptsOf userId difficulty svc)).
  { unfold QuizSecurity.dailyBlocked. by rewrite (proj1 (Hwin todayStart Hday)). }
  assert (Hh : QuizSecurity.hourlyBlocked (QuizSecurity.securityRules svc) later
                 (QuizSecurity.attemptsOf userId difficulty svc')
               = QuizSecurity.hourlyBlocked (QuizSecurity.securityRules svc) later
                   (QuizSecurity.attemptsOf userId difficulty svc)).
  { unfold QuizSecurity.hourlyBlocked. change (60 * 60 * 1000) with 3600000.
    by rewrite (proj2 (Hwin (later - 3600000) Hhour)). }
  unfold before, after. rewrite !canTakeQuiz_result.
  change (QuizSecurity.securityRules svc') with (QuizSecurity.securityRules svc).
  change (QuizSecurity.suspiciousUsers svc') with (QuizSecurity.suspiciousUsers svc).
  rewrite Hd, Hh. clear Hd Hh Hwin.
  split; [|split; [|split; [done|split]]].
  - destruct (QuizSecurity.dailyBlocked _ _ _); [simpl; split; congruence|].
    destruct (QuizSecurity.hourlyBlocked _ _ _); [simpl; split; congruence|].
    destruct (QuizSecurity.cooldownBlocked _ _ (QuizSecurity.attemptsOf userId difficulty svc')),
      (QuizSecurity.cooldownBlocked _ _ (QuizSecurity.attemptsOf userId difficulty svc)),
      (bool_decide (userId ∈ QuizSecurity.suspiciousUsers svc)); simpl; split; congruence.
  - destruct (QuizSecurity.dailyBlocked _ _ _); [simpl; split; congruence|].
    destruct (QuizSecurity.hourlyBlocked _ _ _); [simpl; split; congruence|].
    destruct (QuizSecurity.cooldownBlocked _ _ (QuizSecurity.attemptsOf userId difficulty svc')),
      (QuizSecurity.cooldownBlocked _ _ (QuizSecurity.attemptsOf userId difficulty svc)),
      (bool_decide (userId ∈ QuizSecurity.suspiciousUsers svc)); simpl; split; congruence.
  - intros key d. unfold svc', SecurityOps.cleanup. simpl. rewrite lookup_omap.
    destruct (QuizSecurity.userAttempts svc !! key) as [d0|]; simpl; [|done].
    apply (cleanupRecord_nonempty _ d0).
  - unfold svc', SecurityOps.cleanup. simpl. f_equal. apply map_eq. intros key.
    rewrite !lookup_omap.
    destruct (QuizSecurity.userAttempts svc !! key) as [d0|]; simpl; [|done].
    destruct (SecurityOps.cleanupRecord _ d0) as [d1|] eqn:H1; simpl; [|done].
    by apply (cleanupRecord_fixed _ d0).
Qed.

Lemma cleanup_keeps_limits_witness :
  QuizSecurity.userAttempts
    (SecurityOps.cleanup noon (SecurityOps.cleanup noon (serviceWith staleRecord)))
  = QuizSecurity.userAttempts (SecurityOps.cleanup noon (serviceWith staleRecord)).
Proof.
  rewrite (proj2 (proj2 (proj2 (proj2
             (cleanup_keeps_limits noon (serviceWith staleRecord) "u1" "easy" noon midnight
                ltac:(vm_compute; discriminate) ltac:(vm_compute; discriminate)))))).
  reflexivity.
Defined.

(** A stale record is dropped by the sweep, high-score run included. *)
Example cleanup_drops_stale :
  QuizSecurity.userAttempts (SecurityOps.cleanup noon (serviceWith staleRecord))
    !! QuizSecurity.userKey "u1" "easy" = None.
Proof. vm_compute. reflexivity. Qed.

(** X25.  The switches [enableRateLimiting] and [enableFraudDetection] are
    never read: whatever they are set to, [canTakeQuiz] gives the same
    answer and [recordQuizAttempt] the same verdict, so switching them off
    disables neither the limits nor the flagging. *)
Theorem switches_are_not_read
    (fraud limiting : bool) (svc : QuizSecurity.Service)
    (userId difficulty : string) (now todayStart score timeSpent : Z)
    (answers : option (list SecurityOps.QuizAnswer)) :
  snd (QuizSecurity.canTakeQuiz userId difficulty now todayStart
         (SecurityOps.withSwitches fraud limiting svc))
  = snd (QuizSecurity.canTakeQuiz userId difficulty now todayStart svc) /\
  snd (SecurityOps.recordQuizAttempt userId difficulty score timeSpent answers
         now todayStart (SecurityOps.withSwitches fraud limiting svc))
  = snd (SecurityOps.recordQuizAttempt userId difficulty score timeSpent answers
           now todayStart svc).
Proof.
  split.
  - rewrite !canTakeQuiz_result. reflexivity.
  - reflexivity.
Qed.

(** * Reset times that do clear *)

(** X26.  When [canTakeQuiz] answers DAILY_LIMIT_EXCEEDED the [resetTime] is
    the next day boundary, [todayStart] + 24 h, and for the day starting
    there the daily check passes, provided the cap is positive and no
    recorded attempt is dated at or after that instant. *)
Theorem daily_limit_reset
    (userId difficulty : string) (now todayStart : Z) (svc : QuizSecurity.Service) :
  QuizSecurity.reason (snd (QuizSecurity.canTakeQuiz userId difficulty now todayStart svc))
    = Some "DAILY_LIMIT_EXCEEDED" ->
  QuizSecurity.resetTime (snd (QuizSecurity.canTakeQuiz userId difficulty now todayStart svc))
    = Some (todayStart + 86400000) /\
  (0 < QuizSecurity.maxDailyQuizzes (QuizSecurity.securityRules svc) ->
   Forall (fun time => time < todayStart + 86400000)
          (QuizSecurity.daily (QuizSecurity.attemptsOf userId difficulty svc)) ->
   QuizSecurity.dailyBlocked (QuizSecurity.securityRules svc) (todayStart + 86400000)
     (QuizSecurity.attemptsOf userId difficulty svc) = false).
Proof. exact (daily_resetTime userId difficulty now todayStart svc). Qed.

Lemma daily_limit_reset_witness :
  QuizSecurity.resetTime
    (snd (QuizSecurity.canTakeQuiz "u1" "easy" noon midnight (serviceWith tenToday)))
  = Some (midnight + 86400000).
Proof.
  assert (Hr : QuizSecurity.reason
                 (snd (QuizSecurity.canTakeQuiz "u1" "easy" noon midnight
                         (serviceWith tenToday)))
               = Some "DAILY_LIMIT_EXCEEDED") by (vm_compute; reflexivity).
  exact (proj1 (daily_limit_reset "u1" "easy" noon midnight (serviceWith tenToday) Hr)).
Defined.

(** X27.  When [canTakeQuiz] answers COOLDOWN_ACTIVE the [resetTime] is
    [lastAttempt + minTimeBetweenQuizzes], and the cooldown check blocks at
    every instant before it and passes at every instant from it on. *)
Theorem cooldown_reset
    (userId difficulty : string) (now todayStart : Z) (svc : QuizSecurity.Service) :
  QuizSecurity.reason (snd (QuizSecurity.canTakeQuiz userId difficulty now todayStart svc))
    = Some "COOLDOWN_ACTIVE" ->
  QuizSecurity.resetTime (snd (QuizSecurity.canTakeQuiz userId difficulty now todayStart svc))
    = Some (QuizSecurity.lastAttempt (QuizSecurity.attemptsOf userId difficulty svc)
            + QuizSecurity.minTimeBetweenQuizzes (QuizSecurity.securityRules svc)) /\
  forall later,
    QuizSecurity.cooldownBlocked (QuizSecurity.securityRules svc) later
      (QuizSecurity.attemptsOf userId difficulty svc)
    = bool_decide
        (later < QuizSecurity.lastAttempt (QuizSecurity.attemptsOf userId difficulty svc)
                 + QuizSecurity.minTimeBetweenQuizzes (QuizSecurity.securityRules svc)).
Proof. exact (cooldown_resetTime userId difficulty now todayStart svc). Qed.

Lemma cooldown_reset_witness :
  QuizSecurity.resetTime
    (snd (QuizSecurity.canTakeQuiz "u1" "easy" noon midnight (serviceWith (oneAttempt 29000))))
  = Some (QuizSecurity.lastAttempt
            (QuizSecurity.attemptsOf "u1" "easy" (serviceWith (oneAttempt 29000)))
          + QuizSecurity.minTimeBetweenQuizzes
              (QuizSecurity.securityRules (serviceWith (oneAttempt 29000)))).
Proof.
  assert (Hr : QuizSecurity.reason
                 (snd (QuizSecurity.canTakeQuiz "u1" "easy" noon midnight
                         (serviceWith (oneAttempt 29000))))
               = Some "COOLDOWN_ACTIVE") by (vm_compute; reflexivity).
  exact (proj1 (cooldown_reset "u1" "easy" noon midnight
                  (serviceWith (oneAttempt 29000)) Hr)).
Defined.
